(** * Online-payment reconciliation: order creation, webhook, client flow

    A shallow embedding of the three pieces of the contribution payment flow:

    - [CreateOrder]: supabase/functions/create-cashfree-order/index.ts
    - [Webhook]:     the payment webhook edge function
    - [Planning]:    [handlePayOnline] of src/components/Planning.js

    JavaScript values are modelled as they reach the code: strings are
    sequences of UTF-16 code units, request and response bodies are the
    values [JSON.parse] yields, numbers are the values of IEEE doubles. *)

From Stdlib Require Import ZArith NArith QArith Lia List String Ascii Bool.
From Stdlib Require DecimalZ.
From stdpp Require Import base option list gmap.
Import ListNotations.
Set Warnings "-register-all".

(* ===================================================================== *)
(** ** JavaScript strings *)
(* ===================================================================== *)

Module JS.

(** A string is the list of its UTF-16 code units. *)
Abbreviation jsstring := (list N).

(** A source literal made of ASCII characters. *)
Definition lit (s : string) : jsstring :=
  List.map N_of_ascii (list_ascii_of_string s).

(** [a === b] on strings. *)
Definition str_eqb (a b : jsstring) : bool := bool_decide (a = b).

(** WhiteSpace and LineTerminator code points of ECMAScript, the characters
    [String.prototype.trim] removes: TAB, LF, VT, FF, CR, SP, NBSP, U+1680,
    U+2000..U+200A, U+2028, U+2029, U+202F, U+205F, U+3000 and U+FEFF. *)
Definition is_whitespace (c : N) : bool :=
  ((9 <=? c) && (c <=? 13) || (c =? 32) || (c =? 160) || (c =? 5760)
   || (8192 <=? c) && (c <=? 8202) || (c =? 8232) || (c =? 8233)
   || (c =? 8239) || (c =? 8287) || (c =? 12288) || (c =? 65279))%N.

Fixpoint trim_start (s : jsstring) : jsstring :=
  match s with
  | c :: r => if is_whitespace c then trim_start r else s
  | [] => []
  end.

Definition trim_end (s : jsstring) : jsstring := rev (trim_start (rev s)).

(** [s.trim()] *)
Definition trim (s : jsstring) : jsstring := trim_end (trim_start s).

(** [\d] without the unicode flag: the ten ASCII digits. *)
Definition is_digit (c : N) : bool := ((48 <=? c) && (c <=? 57))%N.

Definition all_digits (s : jsstring) : bool := forallb is_digit s.

(** Decimal digits of a non-negative integer, as [Number::toString] prints an
    integer up to 2^53, every digit of which is significant. *)
Fixpoint uint_codes (u : Decimal.uint) : jsstring :=
  match u with
  | Decimal.Nil => []
  | Decimal.D0 r => 48%N :: uint_codes r
  | Decimal.D1 r => 49%N :: uint_codes r
  | Decimal.D2 r => 50%N :: uint_codes r
  | Decimal.D3 r => 51%N :: uint_codes r
  | Decimal.D4 r => 52%N :: uint_codes r
  | Decimal.D5 r => 53%N :: uint_codes r
  | Decimal.D6 r => 54%N :: uint_codes r
  | Decimal.D7 r => 55%N :: uint_codes r
  | Decimal.D8 r => 56%N :: uint_codes r
  | Decimal.D9 r => 57%N :: uint_codes r
  end.

(** [`${z}`] and [String(z)] for an integer [z] up to 2^53 in magnitude, as
    timestamps and HTTP statuses are. *)
Definition int_to_string (z : Z) : jsstring :=
  match Z.to_int z with
  | Decimal.Pos u => uint_codes u
  | Decimal.Neg u => 45%N :: uint_codes u
  end.

(* --------------------------------------------------------------------- *)
(** *** The order-id pattern [/^order_(\d+)_/] *)

Fixpoint strip_prefix (p s : jsstring) : option jsstring :=
  match p, s with
  | [], _ => Some s
  | a :: p', b :: s' => if (a =? b)%N then strip_prefix p' s' else None
  | _ :: _, [] => None
  end.

(** The longest run of digits at the head of [s], and what follows it. *)
Fixpoint span_digits (s : jsstring) : jsstring * jsstring :=
  match s with
  | c :: r =>
      if is_digit c then let (d, rest) := span_digits r in (c :: d, rest)
      else ([], s)
  | [] => ([], [])
  end.

Definition order_ : jsstring := Eval cbv in lit "order_".
Definition underscore : N := 95%N.

(** [orderId.match(/^order_(\d+)_/)]: [None] is the [null] of a failed
    match, [Some d] a match whose capture group [match[1]] is [d]. The
    quantifier is greedy and the character after a maximal run of digits is
    not a digit, so giving digits back can never produce a match. *)
Definition match_order_id (orderId : jsstring) : option jsstring :=
  match strip_prefix order_ orderId with
  | None => None
  | Some r =>
      match span_digits r with
      | ((_ :: _) as d, c :: _) => if (c =? underscore)%N then Some d else None
      | _ => None
      end
  end.

(* --------------------------------------------------------------------- *)
(** *** Numbers *)

(** A JavaScript number: the exact value of a finite double, an infinity or
    NaN. Negative zero is not told apart from zero; nothing below does. *)
Inductive number :=
  | Finite (q : Q)
  | PosInfinity
  | NegInfinity
  | NaN.

(** [n <= 0] *)
Definition num_le_zero (n : number) : bool :=
  match n with
  | Finite q => Qle_bool q 0
  | NegInfinity => true
  | PosInfinity | NaN => false
  end.

(** ToBoolean of a number: false for zero and NaN. *)
Definition num_truthy (n : number) : bool :=
  match n with
  | Finite q => negb (Qeq_bool q 0)
  | PosInfinity | NegInfinity => true
  | NaN => false
  end.

(** The integer a finite number stands for, when it is one. *)
Definition num_integer (n : number) : option Z :=
  match n with
  | Finite q =>
      if (Z.rem (Qnum q) (Z.pos (Qden q)) =? 0)%Z
      then Some (Z.quot (Qnum q) (Z.pos (Qden q))) else None
  | _ => None
  end.

(** The double nearest to a non-negative integer [n], ties to the even
    significand: integers below 2^53 are kept; above, [n] is cut to its 53
    leading bits and rounded; a result of 2^1024 or more is [Infinity]. *)
Definition to_double (n : Z) : number :=
  if (n <? 2 ^ 53)%Z then Finite (inject_Z n)
  else
    let e := (Z.log2 n - 52)%Z in
    let m := Z.shiftr n e in
    let r := Z.land n (Z.ones e) in
    let half := Z.shiftl 1 (e - 1) in
    let m' := if (r <? half)%Z then m
              else if (half <? r)%Z then (m + 1)%Z
              else if Z.even m then m else (m + 1)%Z in
    let v := Z.shiftl m' e in
    if (v <? 2 ^ 1024)%Z then Finite (inject_Z v) else PosInfinity.

(** The integer written by a run of decimal digits. *)
Definition digits_value (d : jsstring) : Z :=
  fold_left (fun acc c => (10 * acc + (Z.of_N c - 48))%Z) d 0%Z.

Definition num_neg (n : number) : number :=
  match n with
  | Finite q => Finite (- q)
  | PosInfinity => NegInfinity
  | NegInfinity => PosInfinity
  | NaN => NaN
  end.

(** [parseInt(s, 10)]: skip leading white space, read an optional sign, then
    the longest run of decimal digits; no digit gives NaN. The value is
    rounded to a double. *)
Definition parseInt (s : jsstring) : number :=
  let s1 := trim_start s in
  let '(negative, s2) :=
    match s1 with
    | 45%N :: r => (true, r)
    | 43%N :: r => (false, r)
    | _ => (false, s1)
    end in
  match fst (span_digits s2) with
  | [] => NaN
  | d => let v := to_double (digits_value d) in
         if negative then num_neg v else v
  end.

(* --------------------------------------------------------------------- *)
(** *** JSON values *)

(** What [JSON.parse] returns. The members of an object are kept in the
    order of the text. *)
Inductive json :=
  | JNull
  | JBool (b : bool)
  | JNumber (n : number)
  | JString (s : jsstring)
  | JArray (items : list json)
  | JObject (members : list (jsstring * json)).

(** A JavaScript value read from parsed JSON: [None] is [undefined]. *)
Abbreviation value := (option json).

(** What a computation is abandoned with: the engine's own errors, a
    rejected network call, or [new Error(message)]. [PageUnloaded] is no
    error of the language: the browser has left the page and none of its
    code runs any more; only the client flow can end this way. *)
Inductive error :=
  | TypeError
  | SyntaxError
  | NetworkError
  | Error (message : jsstring)
  | PageUnloaded.

(** Result of evaluating an expression or running a body of code. *)
Inductive completion (A : Type) :=
  | Normal (a : A)
  | Throw (e : error).
Arguments Normal {A} a.
Arguments Throw {A} e.

(** Own property [k] of an object; of duplicated members [JSON.parse] keeps
    the last. *)
Fixpoint lookup_member (k : jsstring) (ms : list (jsstring * json)) : value :=
  match ms with
  | [] => None
  | (k', v) :: r =>
      match lookup_member k r with
      | Some w => Some w
      | None => if str_eqb k k' then Some v else None
      end
  end.

(** [v.k] for the property names used in this program, none of which is
    found on a prototype or is an array index: reading from [null] or
    [undefined] throws, an object gives its own member, any other value
    gives [undefined]. *)
Definition get (v : value) (k : jsstring) : completion value :=
  match v with
  | None | Some JNull => Throw TypeError
  | Some (JObject ms) => Normal (lookup_member k ms)
  | Some _ => Normal None
  end.

(** [v?.k] *)
Definition opt_get (v : value) (k : jsstring) : value :=
  match v with
  | Some (JObject ms) => lookup_member k ms
  | _ => None
  end.

(** ToBoolean *)
Definition truthy (v : value) : bool :=
  match v with
  | None | Some JNull => false
  | Some (JBool b) => b
  | Some (JNumber n) => num_truthy n
  | Some (JString s) => negb (str_eqb s [])
  | Some (JArray _) | Some (JObject _) => true
  end.

(** [v === 'text'] *)
Definition is_string (v : value) (text : jsstring) : bool :=
  match v with
  | Some (JString s) => str_eqb s text
  | _ => false
  end.

(** [JSON.stringify(v)] of a value made of parsed JSON, given by the value
    its text stands for, the one [JSON.parse] reads back from it: a number
    that is not finite is written [null], everything else is written as it
    is. Members are read by name only ([lookup_member]), so the place of a
    member in the text, and a member hidden by a later one of its name, are
    left as they are in the list. *)
Fixpoint stringify (v : json) : json :=
  match v with
  | JNumber (Finite q) => JNumber (Finite q)
  | JNumber _ => JNull
  | JArray items => JArray (List.map stringify items)
  | JObject members =>
      JObject (List.map (fun m => (fst m, stringify (snd m))) members)
  | JNull | JBool _ | JString _ => v
  end.

(** A member of an object literal handed to [JSON.stringify]; a member that
    is [undefined] is left out of the text. *)
Definition stringify_member (v : value) : value := option_map stringify v.

(* --------------------------------------------------------------------- *)
(** *** ToString, as template literals and [String(v)] apply it *)

Section ToString.

(** [Number::toString] prints the shortest decimal that reads back as the
    same double. For an integer up to 2^53 in magnitude that is the integer
    digit for digit, since its neighbours among the doubles are at most 1
    away. For any other finite number (a fraction, or an integer above 2^53,
    where digits that do not matter are printed as zeros: 2^64 is printed
    [18446744073709552000]) the printer belongs to the engine and is a
    parameter here. *)
Variable shortest_decimal : Q -> jsstring.

Definition number_to_string (n : number) : jsstring :=
  match n with
  | NaN => lit "NaN"
  | PosInfinity => lit "Infinity"
  | NegInfinity => lit "-Infinity"
  | Finite q =>
      match num_integer n with
      | Some z => if (Z.abs z <=? 2 ^ 53)%Z then int_to_string z
                  else shortest_decimal q
      | None => shortest_decimal q
      end
  end.

Definition toString_ : jsstring := Eval cbv in lit "toString".
Definition comma : N := 44%N.

(** An array prints its elements joined by commas, [null] elements as the
    empty string. A plain object prints as [[object Object]]; when it has a
    member named [toString], which parsed JSON never makes callable, the
    conversion finds no usable method and throws. *)
Fixpoint to_string (v : json) : completion jsstring :=
  match v with
  | JNull => Normal (lit "null")
  | JBool b => Normal (lit (if b then "true" else "false"))
  | JNumber n => Normal (number_to_string n)
  | JString s => Normal s
  | JArray items =>
      (fix join (l : list json) : completion jsstring :=
         match l with
         | [] => Normal []
         | x :: r =>
             match (match x with JNull => Normal [] | _ => to_string x end) with
             | Throw e => Throw e
             | Normal sx =>
                 match r with
                 | [] => Normal sx
                 | _ :: _ =>
                     match join r with
                     | Throw e => Throw e
                     | Normal sr => Normal (sx ++ comma :: sr)
                     end
                 end
             end
         end) items
  | JObject ms =>
      match lookup_member toString_ ms with
      | Some _ => Throw TypeError
      | None => Normal (lit "[object Object]")
      end
  end.

(** ToString of a value that may be [undefined]. *)
Definition value_to_string (v : value) : completion jsstring :=
  match v with
  | None => Normal (lit "undefined")
  | Some j => to_string j
  end.

End ToString.

(* --------------------------------------------------------------------- *)
(** *** Code with effects *)

(** A body of code acts on a state [S] and ends normally or by a throw. *)
Definition M (S A : Type) : Type := S -> completion A * S.

Definition ret {S A} (a : A) : M S A := fun s => (Normal a, s).

Definition bind {S A B} (m : M S A) (k : A -> M S B) : M S B :=
  fun s =>
    match m s with
    | (Normal a, s') => k a s'
    | (Throw e, s') => (Throw e, s')
    end.

(** An expression that may throw. *)
Definition eval {S A} (c : completion A) : M S A := fun s => (c, s).

(** [throw e] *)
Definition throw {S A} (e : error) : M S A := fun s => (Throw e, s).

(** [try { m } catch (e) { h e }] *)
Definition try_catch {S A} (m : M S A) (h : error -> M S A) : M S A :=
  fun s =>
    match m s with
    | (Normal a, s') => (Normal a, s')
    | (Throw e, s') => h e s'
    end.

Declare Scope js_scope.
Delimit Scope js_scope with js.
Notation "x <- m ;; k" := (bind m (fun x => k))
  (at level 20, m at level 99, k at level 200, only parsing) : js_scope.

End JS.

(* ===================================================================== *)
(** ** HTTP requests and responses *)
(* ===================================================================== *)

Module Http.
Import JS.

(** A request as the handlers see it: its method and what parsing its body
    as JSON gives, [None] when the text is not JSON and the parser throws. *)
Record Request := {
  req_method : jsstring;
  req_body : option json;
}.

(** A response body is a plain text, or a JSON text, given by the value it
    stands for. *)
Inductive Body :=
  | Text (s : jsstring)
  | Json (j : json).

(** The CORS headers, the same on every response, are left out. *)
Record Response := {
  status : Z;
  body : Body;
}.

Definition OPTIONS : jsstring := Eval cbv in lit "OPTIONS".
Definition POST : jsstring := Eval cbv in lit "POST".

(** [new Response(text, { status, headers })] *)
Definition textResponse (text : string) (st : Z) : Response :=
  {| status := st; body := Text (lit text) |}.

(** [{ error: message }] *)
Definition error_object (message : jsstring) : json :=
  JObject [(lit "error", JString message)].

End Http.

(* ===================================================================== *)
(** ** The ledger store *)
(* ===================================================================== *)

Module Ledger.
Import JS.

Inductive Method := cash | online.
Inductive Status := pending | success.

(** A row of the [contributions] table; the table is keyed by [id]. *)
Record Contribution := {
  contributor : jsstring;
  amount : Q;
  method : Method;
  status : Status;
}.

(** [update({ status: 'success' })] on one row. *)
Definition set_success (c : Contribution) : Contribution :=
  {| contributor := contributor c; amount := amount c;
     method := method c; status := success |}.

(** [.update({ status: 'success' }).eq('id', n)] when the store carries it
    out: the row whose id equals the number [n] is updated; a number that is
    no integer equals no id. *)
Definition update_success (n : number) (rows : gmap Z Contribution)
  : gmap Z Contribution :=
  match num_integer n with
  | Some k => alter set_success k rows
  | None => rows
  end.

End Ledger.

(* ===================================================================== *)
(** ** Payment webhook handler *)
(* ===================================================================== *)

Module Webhook.
Import JS Http.

(** What a handler run acts on: the ledger rows, and the updates it asked
    the store for (the id each was filtered by), in order. *)
Record World := {
  rows : gmap Z Ledger.Contribution;
  updates : list number;
}.

Local Open Scope js_scope.

(** [await supabase.from('contributions').update({ status: 'success' })
    .eq('id', contributionId)], giving whether [error] is set. The store is
    outside this program: [store_error] says whether it fails this call, in
    which case no row changes. *)
Definition update_contribution (store_error : bool) (contributionId : number)
  : M World bool :=
  fun w =>
    (Normal store_error,
     {| rows := if store_error then rows w
                else Ledger.update_success contributionId (rows w);
        updates := updates w ++ [contributionId] |}).

(** [orderId.match(/^order_(\d+)_/)] on a truthy [orderId]: only a string
    has a [match] method. *)
Definition call_match (orderId : value) : completion (option jsstring) :=
  match orderId with
  | Some (JString s) => Normal (match_order_id s)
  | _ => Throw TypeError
  end.

Definition type_ := Eval cbv in lit "type".
Definition data_ := Eval cbv in lit "data".
Definition test_object_ := Eval cbv in lit "test_object".
Definition order := Eval cbv in lit "order".
Definition order_id := Eval cbv in lit "order_id".
Definition payment := Eval cbv in lit "payment".
Definition payment_status := Eval cbv in lit "payment_status".
Definition WEBHOOK := Eval cbv in lit "WEBHOOK".
Definition SUCCESS := Eval cbv in lit "SUCCESS".

(** [JSON.stringify({ status: 'acknowledged' })] with status 200. *)
Definition acknowledged : Response :=
  {| status := 200;
     body := Json (stringify
                     (JObject [(lit "status", JString (lit "acknowledged"))])) |}.

Section Handler.

(** The engine's printer of numbers, which the handler's log line runs. *)
Variable shortest_decimal : Q -> jsstring.

(** [console.log(`Received status: ${paymentStatus} for order: ${orderId}`)]:
    the template literal converts both values to strings, the status first,
    and the line goes to the log, which is no part of the world here. *)
Definition log_received (paymentStatus orderId : value) : completion unit :=
  match value_to_string shortest_decimal paymentStatus with
  | Throw e => Throw e
  | Normal status_text =>
      match value_to_string shortest_decimal orderId with
      | Throw e => Throw e
      | Normal order_text => Normal tt
      end
  end.

(** The function given to [serve]. *)
Definition handler (store_error : bool) (req : Request)
  : M World Response :=
  if str_eqb (req_method req) OPTIONS then ret (textResponse "ok" 200)
  else
    match req_body req with
    | None => ret (textResponse "Invalid JSON" 200)
    | Some parsed =>
        let payload := Some parsed in
        type <- eval (get payload type_) ;;
        is_test <- (if is_string type WEBHOOK
                    then data <- eval (get payload data_) ;;
                         ret (truthy (opt_get data test_object_))
                    else ret false) ;;
        if is_test then ret acknowledged
        else
          data <- eval (get payload data_) ;;
          let orderId := opt_get (opt_get data order) order_id in
          let paymentStatus := opt_get (opt_get data payment) payment_status in
          if negb (truthy orderId) || negb (truthy paymentStatus)
          then ret (textResponse "Invalid webhook structure" 200)
          else
            logged <- eval (log_received paymentStatus orderId) ;;
            matched <- eval (call_match orderId) ;;
            match matched with
            | None => ret (textResponse "Invalid order_id format" 200)
            | Some capture =>
                let contributionId := parseInt capture in
                if is_string paymentStatus SUCCESS then
                  failed <- update_contribution store_error contributionId ;;
                  if failed
                  then ret (textResponse "Database update failed" 200)
                  else ret (textResponse "Webhook processed" 200)
                else ret (textResponse "Webhook processed" 200)
            end
    end.

(** One delivery against a ledger, with no update asked for yet. *)
Definition deliver (store_error : bool) (req : Request)
    (ledger : gmap Z Ledger.Contribution)
  : completion Response * World :=
  handler store_error req {| rows := ledger; updates := [] |}.

End Handler.

End Webhook.

(* ===================================================================== *)
(** ** Order request handler (create-cashfree-order) *)
(* ===================================================================== *)

Module CreateOrder.
Import JS Http.
Local Open Scope js_scope.

(** The four variables read with [Deno.env.get]; [None] when unset. *)
Record Env := {
  CASHFREE_APP_ID : option jsstring;
  CASHFREE_SECRET_KEY : option jsstring;
  CASHFREE_API_URL : option jsstring;
  APP_URL : option jsstring;
}.

(** [!v] for a variable: unset, or set to the empty string. *)
Definition missing (v : option jsstring) : bool :=
  match v with
  | None => true
  | Some s => str_eqb s []
  end.

(** The text of a variable that is set. *)
Definition text_of (v : option jsstring) : jsstring := default [] v.

(** The request sent to the gateway with [fetch]: URL, the three
    credentials and version headers, and the members of the JSON body, as
    they stand in the text [JSON.stringify] makes of them. *)
Record OrderRequest := {
  url : jsstring;
  x_client_id : jsstring;
  x_client_secret : jsstring;
  x_api_version : jsstring;
  order_id : jsstring;
  order_amount : value;
  order_currency : jsstring;
  customer_id : jsstring;
  customer_name : value;
  customer_phone : jsstring;
  return_url : jsstring;
}.

(** What comes back from [fetch]: a rejected promise, or a response with
    its status and what [apiResponse.json()] yields, [None] when the body
    is not JSON and the call rejects. *)
Inductive FetchResult :=
  | Rejected
  | Responded (status : Z) (body : option json).

(** [apiResponse.ok] *)
Definition ok (st : Z) : bool := ((200 <=? st) && (st <=? 299))%Z.

(** [jsonResponse(data, status)]: the body is [JSON.stringify(data)]. *)
Definition jsonResponse (data : json) (st : Z) : Response :=
  {| status := st; body := Json (stringify data) |}.

(** [typeof v !== 'number' || v <= 0] *)
Definition not_positive_number (v : value) : bool :=
  match v with
  | Some (JNumber n) => num_le_zero n
  | _ => true
  end.

(** [typeof v !== 'string' || v.trim() === ''] *)
Definition not_filled_string (v : value) : bool :=
  match v with
  | Some (JString s) => str_eqb (trim s) []
  | _ => true
  end.

Definition amount_ := Eval cbv in lit "amount".
Definition contributor_ := Eval cbv in lit "contributor".
Definition contribution_id_ := Eval cbv in lit "contribution_id".
Definition message_ := Eval cbv in lit "message".
Definition user_ := Eval cbv in lit "user_".

Definition configuration_error : Response :=
  jsonResponse (error_object (lit "Server configuration error.")) 500.
Definition invalid_json : Response :=
  jsonResponse (error_object (lit "Invalid JSON in request body.")) 400.
(** [Invalid or missing "name". rule] *)
Definition invalid_or_missing (name rule : string) : jsstring :=
  lit "Invalid or missing " ++ 34%N :: lit name ++ 34%N :: lit ". " ++ lit rule.

Definition invalid_amount : Response :=
  jsonResponse (error_object
    (invalid_or_missing "amount" "It must be a positive number.")) 400.
Definition invalid_contributor : Response :=
  jsonResponse (error_object
    (invalid_or_missing "contributor" "It must be a non-empty string.")) 400.
Definition invalid_contribution_id : Response :=
  jsonResponse (error_object
    (invalid_or_missing "contribution_id" "It must be a non-empty string.")) 400.
Definition internal_error : Response :=
  jsonResponse (error_object
    (lit "An unexpected internal server error occurred.")) 500.

Section Handler.

Variable shortest_decimal : Q -> jsstring.
(** The deployment's variables, the clock ([Date.now()]) and the gateway
    behind [fetch]. *)
Variable env : Env.
Variable now : Z.
Variable gateway : OrderRequest -> FetchResult.

(** [`order_${contribution_id}_${Date.now()}`] *)
Definition make_order_id (contribution_id : jsstring) : jsstring :=
  order_ ++ contribution_id ++ underscore :: int_to_string now.

(** [await fetch(cashfreeApiUrl, ...)]: the state is the list of requests
    sent to the gateway so far. *)
Definition fetch (r : OrderRequest) : M (list OrderRequest) (Z * option json) :=
  fun sent =>
    match gateway r with
    | Rejected => (Throw NetworkError, sent ++ [r])
    | Responded st b => (Normal (st, b), sent ++ [r])
    end.

(** [await apiResponse.json()] *)
Definition response_json (b : option json) : completion json :=
  match b with
  | Some j => Normal j
  | None => Throw SyntaxError
  end.

(** The body of the [try] block. *)
Definition process (req : Request) : M (list OrderRequest) Response :=
  let appId := CASHFREE_APP_ID env in
  let secretKey := CASHFREE_SECRET_KEY env in
  let cashfreeApiUrl := CASHFREE_API_URL env in
  let appUrl := APP_URL env in
  if missing appId || missing secretKey || missing cashfreeApiUrl
     || missing appUrl
  then ret configuration_error
  else
    match req_body req with
    | None => ret invalid_json
    | Some parsed =>
        let body := Some parsed in
        amount <- eval (get body amount_) ;;
        contributor <- eval (get body contributor_) ;;
        contribution_id <- eval (get body contribution_id_) ;;
        if not_positive_number amount then ret invalid_amount
        else if not_filled_string contributor then ret invalid_contributor
        else if not_filled_string contribution_id
        then ret invalid_contribution_id
        else
          id_text <- eval (value_to_string shortest_decimal contribution_id) ;;
          let orderId := make_order_id id_text in
          apiResponse <- fetch
            {| url := text_of cashfreeApiUrl;
               x_client_id := text_of appId;
               x_client_secret := text_of secretKey;
               x_api_version := lit "2022-09-01";
               order_id := orderId;
               order_amount := stringify_member amount;
               order_currency := lit "INR";
               customer_id := user_ ++ id_text;
               customer_name := stringify_member contributor;
               customer_phone := lit "9999999999";
               return_url :=
                 text_of appUrl ++ lit "/payment-status?order_id={order_id}" |} ;;
          responseData <- eval (response_json (snd apiResponse)) ;;
          if negb (ok (fst apiResponse)) then
            message <- eval (get (Some responseData) message_) ;;
            errorMessage <-
              eval (if truthy message
                    then value_to_string shortest_decimal message
                    else Normal (lit "Cashfree API returned status "
                                   ++ int_to_string (fst apiResponse))) ;;
            ret (jsonResponse
                   (error_object (lit "Payment gateway error: " ++ errorMessage))
                   502)
          else ret (jsonResponse responseData 200)
    end.

(** The function given to [serve]. *)
Definition handler (req : Request) : M (list OrderRequest) Response :=
  if str_eqb (req_method req) OPTIONS then ret (textResponse "ok" 200)
  else try_catch (process req) (fun _ => ret internal_error).

(** One request served, with nothing sent to the gateway before it. *)
Definition serve (req : Request) : completion Response * list OrderRequest :=
  handler req [].

End Handler.

End CreateOrder.

(* ===================================================================== *)
(** ** Contribution client flow (Planning.js) *)
(* ===================================================================== *)

Module Planning.
Import JS.
Local Open Scope js_scope.

(** The row handed to [insert]. *)
Record NewRow := {
  row_contributor : jsstring;
  row_amount : number;
  row_method : Ledger.Method;
  row_status : Ledger.Status;
}.

(** The body handed to [supabase.functions.invoke]. *)
Record InvokeBody := {
  amount : number;
  contributor : jsstring;
  contribution_id : jsstring;
}.

(** What the flow asks of the outside, in the order it asks. *)
Inductive Event :=
  | Insert (row : NewRow)
  | Invoke (body : InvokeBody)
  | Checkout (paymentSessionId : value).

(** [{ data, error }] of the insert. *)
Record InsertResult := {
  insert_data : value;
  insert_error : value;
}.

(** The error of a failed function call: its message and, when [context]
    carries a [json] function, what [context.json()] settles to. *)
Record FunctionError := {
  message : jsstring;
  context_json : option (completion json);
}.

(** [{ data, error }] of the function call. *)
Record InvokeResult := {
  function_data : value;
  function_error : option FunctionError;
}.

(** [cashfree.checkout(...)]: the browser navigates to the hosted page, or
    the promise resolves to a result, or it rejects. *)
Inductive CheckoutResult :=
  | Navigated
  | Resolved (result : value)
  | Failed (e : error).

(** The store, the edge function and the payment SDK as the page reaches
    them; [cashfree_loaded] is [window.Cashfree]. *)
Record Services := {
  insert_row : NewRow -> InsertResult;
  invoke_function : InvokeBody -> InvokeResult;
  cashfree_loaded : bool;
  checkout : value -> CheckoutResult;
}.

(** What [setError] shows: a message of the program, or the engine's
    message of one of its own errors. *)
Inductive Shown :=
  | Message (text : jsstring)
  | EngineMessage (e : error).

(** The component state the flow touches, and the events so far. *)
Record State := {
  loading : bool;
  error_shown : option Shown;
  events : list Event;
}.

Definition setLoading (b : bool) : M State unit :=
  fun s => (Normal tt, {| loading := b; error_shown := error_shown s; events := events s |}).

Definition setError (e : option Shown) : M State unit :=
  fun s => (Normal tt, {| loading := loading s; error_shown := e; events := events s |}).

Definition emit (ev : Event) : M State unit :=
  fun s => (Normal tt, {| loading := loading s; error_shown := error_shown s;
                          events := events s ++ [ev] |}).

(** [try { m } catch (err) { h err } finally { f }]; a page that is gone runs
    neither. *)
Definition try_catch_finally {A} (m : M State A) (h : error -> M State A)
    (f : M State unit) : M State A :=
  fun s =>
    match m s with
    | (Throw PageUnloaded, s') => (Throw PageUnloaded, s')
    | (Normal a, s') =>
        match f s' with
        | (Normal _, s'') => (Normal a, s'')
        | (Throw e, s'') => (Throw e, s'')
        end
    | (Throw e, s') =>
        match h e s' with
        | (Throw PageUnloaded, s'') => (Throw PageUnloaded, s'')
        | (r, s'') =>
            match f s'' with
            | (Normal _, s3) => (r, s3)
            | (Throw e', s3) => (Throw e', s3)
            end
        end
    end.

Definition id_ := Eval cbv in lit "id".
Definition error_ := Eval cbv in lit "error".
Definition message_ := Eval cbv in lit "message".
Definition payment_session_id := Eval cbv in lit "payment_session_id".

Section Flow.

Variable shortest_decimal : Q -> jsstring.
(** [+text]: the number a form field's text converts to. *)
Variable to_number : jsstring -> number.
Variable services : Services.
(** The form fields [contributor] and [amount]. *)
Variable contributor_field : jsstring.
Variable amount_field : jsstring.

Definition isNaN (n : number) : bool :=
  match n with
  | NaN => true
  | _ => false
  end.

Definition validateForm : M State bool :=
  _ <- setError None ;;
  if str_eqb (trim contributor_field) [] || str_eqb amount_field []
     || isNaN (to_number amount_field)
     || num_le_zero (to_number amount_field)
  then
    _ <- setError
           (Some (Message (lit "Please enter a valid name and a positive amount."))) ;;
    ret false
  else ret true.

(** [new Error(v)] for a string or a JSON value [v]. *)
Definition new_Error (v : value) : completion error :=
  match value_to_string shortest_decimal v with
  | Normal text => Normal (Error text)
  | Throw e => Throw e
  end.

(** The message thrown for a failed function call. *)
Definition detailed_error (fe : FunctionError) : completion error :=
  match context_json fe with
  | Some (Normal errorBody) =>
      match get (Some errorBody) error_ with
      | Normal e =>
          if truthy e then new_Error e else Normal (Error (message fe))
      | Throw _ => Normal (Error (message fe))
      end
  | Some (Throw _) => Normal (Error (message fe))
  | None =>
      Normal (Error (lit "An unknown error occurred with the payment function."))
  end.

(** [err.message || "An unexpected error occurred ..."] *)
Definition shown_for (err : error) : Shown :=
  match err with
  | Error [] =>
      Message (lit "An unexpected error occurred during payment initiation.")
  | Error text => Message text
  | e => EngineMessage e
  end.

(** The [try] block of [handlePayOnline]. *)
Definition pay_online_steps : M State unit :=
  let row := {| row_contributor := trim contributor_field;
                row_amount := to_number amount_field;
                row_method := Ledger.online;
                row_status := Ledger.pending |} in
  _ <- emit (Insert row) ;;
  let inserted := insert_row services row in
  if truthy (insert_error inserted)
  then throw (Error (lit
         "Could not save your contribution record. Please try again."))
  else
    new_id <- eval (get (insert_data inserted) id_) ;;
    id_text <- eval (value_to_string shortest_decimal new_id) ;;
    let body := {| amount := to_number amount_field;
                   contributor := trim contributor_field;
                   contribution_id := id_text |} in
    _ <- emit (Invoke body) ;;
    let invoked := invoke_function services body in
    match function_error invoked with
    | Some functionError =>
        err <- eval (detailed_error functionError) ;;
        throw err
    | None =>
        let session := opt_get (function_data invoked) payment_session_id in
        if negb (truthy session)
        then throw (Error (lit
               "Failed to get a valid payment session from the server."))
        else if negb (cashfree_loaded services)
        then throw (Error (lit
               "Payment SDK (Cashfree) is not loaded. Please refresh the page."))
        else
          _ <- emit (Checkout session) ;;
          match checkout services session with
          | Navigated => throw PageUnloaded
          | Failed e => throw e
          | Resolved result =>
              let result_error := opt_get result error_ in
              if truthy result_error then
                detail <- eval (get result_error message_) ;;
                text <- eval (value_to_string shortest_decimal detail) ;;
                throw (Error (lit "Payment Gateway Error: " ++ text))
              else ret tt
          end
    end.

Definition handlePayOnline : M State unit :=
  valid <- validateForm ;;
  if negb valid then ret tt
  else
    _ <- setLoading true ;;
    _ <- setError None ;;
    try_catch_finally pay_online_steps
      (fun err => setError (Some (shown_for err)))
      (setLoading false).

(** A click on the pay button of an idle page. *)
Definition click : completion unit * State :=
  handlePayOnline {| loading := false; error_shown := None; events := [] |}.

End Flow.

End Planning.

(* ===================================================================== *)
(** ** Vocabulary of the statements *)
(* ===================================================================== *)

Module Spec.
Import JS Http.

(** A request with method POST whose body parses to [payload]. *)
Definition post (payload : json) : Request :=
  {| req_method := POST; req_body := Some payload |}.

(** [payload.data?.order?.order_id] *)
Definition payload_order_id (payload : json) : value :=
  opt_get (opt_get (opt_get (Some payload) Webhook.data_) Webhook.order)
    Webhook.order_id.

(** [payload.data?.payment?.payment_status] *)
Definition payload_payment_status (payload : json) : value :=
  opt_get (opt_get (opt_get (Some payload) Webhook.data_) Webhook.payment)
    Webhook.payment_status.

(** The gateway's connectivity test:
    [payload.type === 'WEBHOOK' && payload.data?.test_object]. *)
Definition is_test_event (payload : json) : bool :=
  is_string (opt_get (Some payload) Webhook.type_) Webhook.WEBHOOK
  && truthy (opt_get (opt_get (Some payload) Webhook.data_) Webhook.test_object_).

(** The status of the row with id [k], if there is one. *)
Definition row_status (ledger : gmap Z Ledger.Contribution) (k : Z)
  : option Ledger.Status :=
  Ledger.status <$> ledger !! k.

(** The first character of [s] is a digit. *)
Definition starts_with_digit (s : jsstring) : bool :=
  match s with
  | c :: _ => is_digit c
  | [] => false
  end.

End Spec.

(* ===================================================================== *)
(** ** Sample inputs *)
(* ===================================================================== *)

Module Samples.
Import JS Http.
Local Open Scope string_scope.

Definition obj (members : list (string * json)) : json :=
  JObject (List.map (fun m => (lit (fst m), snd m)) members).

Definition str (s : string) : json := JString (lit s).

(** Row 42, an online contribution waiting for its payment. *)
Definition row42 : Ledger.Contribution :=
  {| Ledger.contributor := lit "Asha"; Ledger.amount := 500;
     Ledger.method := Ledger.online; Ledger.status := Ledger.pending |}.

Definition ledger42 : gmap Z Ledger.Contribution := {[ 42%Z := row42 ]}.

(** A payment notification for [order_id] with [payment_status]. *)
Definition notification (order_id payment_status : json) : json :=
  obj [("type", str "PAYMENT_SUCCESS_WEBHOOK");
       ("data", obj [("order", obj [("order_id", order_id)]);
                     ("payment", obj [("payment_status", payment_status)])])].

Definition success_payload : json :=
  notification (str "order_42_1700000000000") (str "SUCCESS").

Definition bad_format_payload : json :=
  notification (str "bad_format") (str "SUCCESS").

Definition numeric_order_payload : json :=
  notification (JNumber (Finite 42)) (str "SUCCESS").

(** A payment status that is an object with a member named [toString]. *)
Definition unprintable_status_payload : json :=
  notification (str "bad_format") (obj [("toString", JNumber (Finite 1))]).

(** A connectivity test that also carries order and payment blocks. *)
Definition test_event (order_id payment_status : json) : json :=
  obj [("type", str "WEBHOOK");
       ("data", obj [("test_object", obj [("test_key", str "test_value")]);
                     ("order", obj [("order_id", order_id)]);
                     ("payment", obj [("payment_status", payment_status)])])].

Definition test_success_payload : json :=
  test_event (str "order_42_1700000000000") (str "SUCCESS").

Definition test_bad_format_payload : json :=
  test_event (str "bad_format") (str "SUCCESS").

(** The sample runs print no number with a fraction and none above 2^53;
    this stands in for the engine's printer. *)
Definition no_fraction_printer (q : Q) : jsstring := [].

Definition env_ok : CreateOrder.Env :=
  {| CreateOrder.CASHFREE_APP_ID := Some (lit "app-id");
     CreateOrder.CASHFREE_SECRET_KEY := Some (lit "secret");
     CreateOrder.CASHFREE_API_URL := Some (lit "https://api.cashfree.com/pg/orders");
     CreateOrder.APP_URL := Some (lit "https://app.example") |}.

Definition order_body (amount contribution_id : json) : json :=
  obj [("amount", amount); ("contributor", str "Asha");
       ("contribution_id", contribution_id)].

Definition valid_body : json := order_body (JNumber (Finite 500)) (str "42").

Definition blank_id_body : json := order_body (JNumber (Finite 500)) (str " ").

Definition negative_amount_body : json :=
  order_body (JNumber (Finite (-5))) (str "42").

Definition named_id_body : json := order_body (JNumber (Finite 500)) (str "abc").

(** Gateways that answer every request the same way. *)
Definition gateway_created (r : CreateOrder.OrderRequest) : CreateOrder.FetchResult :=
  CreateOrder.Responded 200
    (Some (obj [("cf_order_id", JNumber (Finite 2149460581));
                ("payment_session_id", str "session_a1b2c3")])).

Definition gateway_refused (r : CreateOrder.OrderRequest) : CreateOrder.FetchResult :=
  CreateOrder.Responded 401
    (Some (obj [("message", str "authentication Failed");
                ("type", str "authentication_error")])).

Definition gateway_unavailable (r : CreateOrder.OrderRequest)
  : CreateOrder.FetchResult :=
  CreateOrder.Responded 503 None.

Definition gateway_empty_success (r : CreateOrder.OrderRequest)
  : CreateOrder.FetchResult :=
  CreateOrder.Responded 204 None.

(** A gateway that is down and says so in JSON, without a message. *)
Definition gateway_unavailable_json (r : CreateOrder.OrderRequest)
  : CreateOrder.FetchResult :=
  CreateOrder.Responded 503 (Some (obj [("code", str "service_unavailable")])).

(** A created order whose body holds a number beyond the range of doubles,
    written [1e999] and read as [Infinity]. *)
Definition created_with_overflow : json :=
  obj [("payment_session_id", str "session_a1b2c3");
       ("order_amount", JNumber PosInfinity)].

Definition gateway_created_overflow (r : CreateOrder.OrderRequest)
  : CreateOrder.FetchResult :=
  CreateOrder.Responded 200 (Some created_with_overflow).

(** An order request whose amount is written [1e999]. *)
Definition overflow_amount_body : json := order_body (JNumber PosInfinity) (str "42").

Definition clock : Z := 1700000000000.

(** [+text] on the sample form fields, which are runs of digits. *)
Definition digits_to_number (text : jsstring) : number :=
  match text with
  | [] => Finite 0
  | _ :: _ => if all_digits text then to_double (digits_value text) else NaN
  end.

(** A store that inserts the row under id 42, a function that returns a
    session, a loaded SDK that navigates to the hosted checkout. *)
Definition services_up : Planning.Services :=
  {| Planning.insert_row := fun row =>
       {| Planning.insert_data :=
            Some (obj [("id", JNumber (Finite 42)); ("status", str "pending")]);
          Planning.insert_error := Some JNull |};
     Planning.invoke_function := fun body =>
       {| Planning.function_data :=
            Some (obj [("payment_session_id", str "session_a1b2c3")]);
          Planning.function_error := None |};
     Planning.cashfree_loaded := true;
     Planning.checkout := fun session => Planning.Navigated |}.

(** The same with a store that refuses the insert. *)
Definition services_store_down : Planning.Services :=
  {| Planning.insert_row := fun row =>
       {| Planning.insert_data := Some JNull;
          Planning.insert_error :=
            Some (obj [("message", str "permission denied")]) |};
     Planning.invoke_function := Planning.invoke_function services_up;
     Planning.cashfree_loaded := true;
     Planning.checkout := Planning.checkout services_up |}.

End Samples.

(* ===================================================================== *)
(** ** Vocabulary of the statements: order requests *)
(* ===================================================================== *)

Module OrderSpec.
Import JS Http CreateOrder.

(** Member [k] of a parsed body. *)
Definition field (b : json) (k : jsstring) : value := opt_get (Some b) k.

(** All four variables are set and not empty. *)
Definition configured (env : Env) : bool :=
  negb (missing (CASHFREE_APP_ID env) || missing (CASHFREE_SECRET_KEY env)
        || missing (CASHFREE_API_URL env) || missing (APP_URL env)).

(** The body passes the three checks on [amount], [contributor] and
    [contribution_id]. *)
Definition accepted (b : json) : bool :=
  negb (not_positive_number (field b amount_))
  && negb (not_filled_string (field b contributor_))
  && negb (not_filled_string (field b contribution_id_)).

(** The [contribution_id] of an accepted body. *)
Definition contribution_id_text (b : json) : jsstring :=
  match field b contribution_id_ with
  | Some (JString s) => s
  | _ => []
  end.

(** The gateway request the handler builds from an accepted body. *)
Definition order_request (env : Env) (now : Z) (b : json) : OrderRequest :=
  {| url := text_of (CASHFREE_API_URL env);
     x_client_id := text_of (CASHFREE_APP_ID env);
     x_client_secret := text_of (CASHFREE_SECRET_KEY env);
     x_api_version := lit "2022-09-01";
     order_id := make_order_id now (contribution_id_text b);
     order_amount := stringify_member (field b amount_);
     order_currency := lit "INR";
     customer_id := user_ ++ contribution_id_text b;
     customer_name := stringify_member (field b contributor_);
     customer_phone := lit "9999999999";
     return_url := text_of (APP_URL env)
                   ++ lit "/payment-status?order_id={order_id}" |}.

(** The text after [Payment gateway error: ] when the upstream body has no
    usable message. *)
Definition status_fallback (st : Z) : jsstring :=
  lit "Cashfree API returned status " ++ int_to_string st.

Definition gateway_error (text : jsstring) : Response :=
  jsonResponse (error_object (lit "Payment gateway error: " ++ text)) 502.

(** A structured error: status 400, 500 or 502 and a body [{error: text}]. *)
Definition is_error_response (r : Response) : Prop :=
  (status r = 400 \/ status r = 500 \/ status r = 502)%Z /\
  exists text, body r = Json (error_object text).

(** Every number in [v], at any depth, is finite. *)
Fixpoint all_finite (v : json) : bool :=
  match v with
  | JNumber (Finite _) => true
  | JNumber _ => false
  | JArray items => forallb all_finite items
  | JObject members => forallb (fun m => all_finite (snd m)) members
  | JNull | JBool _ | JString _ => true
  end.


End OrderSpec.

(* ===================================================================== *)
(** ** Vocabulary of the statements: the client flow *)
(* ===================================================================== *)

Module FlowSpec.
Import JS Planning.

Section Vocabulary.

Variable shortest_decimal : Q -> jsstring.
Variable to_number : jsstring -> number.
Variable services : Services.
Variable contributor_field : jsstring.
Variable amount_field : jsstring.

(** The form passes [validateForm]. *)
Definition form_valid : bool :=
  negb (str_eqb (trim contributor_field) [] || str_eqb amount_field []
        || isNaN (to_number amount_field)
        || num_le_zero (to_number amount_field)).

(** The row the flow inserts. *)
Definition pending_row : NewRow :=
  {| row_contributor := trim contributor_field;
     row_amount := to_number amount_field;
     row_method := Ledger.online;
     row_status := Ledger.pending |}.

(** The body the edge function is invoked with, when the insert went well
    and the new row's id can be read and printed. *)
Definition invoke_body : option InvokeBody :=
  let inserted := insert_row services pending_row in
  if truthy (insert_error inserted) then None
  else
    match get (insert_data inserted) id_ with
    | Normal new_id =>
        match value_to_string shortest_decimal new_id with
        | Normal id_text =>
            Some {| amount := to_number amount_field;
                    contributor := trim contributor_field;
                    contribution_id := id_text |}
        | Throw _ => None
        end
    | Throw _ => None
    end.

(** The session token handed to the checkout, when the function call went
    well, returned one, and the payment SDK is loaded. *)
Definition session_token (body : InvokeBody) : option value :=
  let invoked := invoke_function services body in
  match function_error invoked with
  | Some _ => None
  | None =>
      let session := opt_get (function_data invoked) payment_session_id in
      if truthy session && cashfree_loaded services then Some session
      else None
  end.

(** The events of one click, read off the three steps. *)
Definition expected_events : list Event :=
  if form_valid then
    Insert pending_row ::
    match invoke_body with
    | None => []
    | Some body =>
        Invoke body ::
        match session_token body with
        | None => []
        | Some session => [Checkout session]
        end
    end
  else [].

End Vocabulary.

End FlowSpec.

(* ===================================================================== *)
(** ** Vocabulary of the statements: deliveries *)
(* ===================================================================== *)

Module DeliverySpec.
Import JS Http Spec.

(** The ledger after a run of deliveries, one after the other; each comes
    with whether the store fails its update. *)
Fixpoint deliver_all (shortest_decimal : Q -> jsstring)
    (deliveries : list (bool * Request))
    (ledger : gmap Z Ledger.Contribution) : gmap Z Ledger.Contribution :=
  match deliveries with
  | [] => ledger
  | (store_error, req) :: later =>
      deliver_all shortest_decimal later
        (Webhook.rows
           (snd (Webhook.deliver shortest_decimal store_error req ledger)))
  end.

(** The id a request makes the handler ask the store to update, if any:
    the request is no preflight, its body parses, it is no connectivity
    test, its order id is a string matching the pattern and its payment
    status is the string SUCCESS. *)
Definition requested_update (req : Request) : option number :=
  if str_eqb (req_method req) OPTIONS then None
  else
    match req_body req with
    | None => None
    | Some payload =>
        if is_test_event payload then None
        else
          match payload_order_id payload with
          | Some (JString oid) =>
              match match_order_id oid with
              | Some capture =>
                  if is_string (payload_payment_status payload)
                       Webhook.SUCCESS
                  then Some (parseInt capture)
                  else None
              | None => None
              end
          | _ => None
          end
    end.

(** What one row may become: same contributor, amount and method, status
    kept or moved to success. *)
Definition row_advanced (before after : Ledger.Contribution) : Prop :=
  Ledger.contributor after = Ledger.contributor before /\
  Ledger.amount after = Ledger.amount before /\
  Ledger.method after = Ledger.method before /\
  (Ledger.status after = Ledger.status before
   \/ Ledger.status after = Ledger.success).

(** The same ids on both sides, each row advanced. *)
Definition ledger_advanced (before after : gmap Z Ledger.Contribution)
  : Prop :=
  forall k,
    match before !! k, after !! k with
    | Some b, Some a => row_advanced b a
    | None, None => True
    | _, _ => False
    end.

End DeliverySpec.

(* ===================================================================== *)
(** ** More sample inputs *)
(* ===================================================================== *)

Module MoreSamples.
Import JS Http Samples.
Local Open Scope string_scope.

(** The gateway's connectivity test as it is sent. *)
Definition connectivity_test : json :=
  obj [("data", obj [("test_object", obj [("test_key", str "test_value")])]);
       ("type", str "WEBHOOK")].

Definition failed_payload : json :=
  notification (str "order_42_1700000000000") (str "FAILED").

(** Row 7, a cash contribution. *)
Definition row7 : Ledger.Contribution :=
  {| Ledger.contributor := lit "Ravi"; Ledger.amount := 250;
     Ledger.method := Ledger.cash; Ledger.status := Ledger.success |}.

Definition ledger_two : gmap Z Ledger.Contribution :=
  <[ 7%Z := row7 ]> ledger42.

End MoreSamples.

(* ===================================================================== *)
(** ** Sample pages *)
(* ===================================================================== *)

Module FlowSamples.
Import JS Samples.
Local Open Scope string_scope.




End FlowSamples.

(* ===================================================================== *)
(** ** The contributions page: cash contributions, refresh, removal *)
(* ===================================================================== *)

Module Contributions.
Import JS.
Local Open Scope js_scope.

(** What the page asks of the store, in the order it asks. *)
Inductive Event :=
  | Insert (row : Planning.NewRow)
  | Select
  | Delete (id : value).

(** [{ data, error }] of the ordered [select("*")]: the rows as an array, or
    [null], written [None]. *)
Record SelectResult := {
  select_data : option (list json);
  select_error : value;
}.

(** The store and the browser as the page reaches them: [insert_row] and
    [delete_row] give the [error] of the call, [confirmed] is the answer to
    [window.confirm]. *)
Record Services := {
  insert_row : Planning.NewRow -> value;
  select_rows : SelectResult;
  delete_row : value -> value;
  confirmed : bool;
}.

(** The component state these handlers touch, and the events so far. The
    [error] state holds what [setError] was last given, [null] at first. *)
Record State := {
  contributions : list json;
  amount : jsstring;
  loading : bool;
  initialLoading : bool;
  error : value;
  events : list Event;
}.

Definition setContributions (rows : list json) : M State unit :=
  fun s => (Normal tt,
            {| contributions := rows; amount := amount s;
               loading := loading s; initialLoading := initialLoading s;
               error := error s; events := events s |}).

Definition setAmount (text : jsstring) : M State unit :=
  fun s => (Normal tt,
            {| contributions := contributions s; amount := text;
               loading := loading s; initialLoading := initialLoading s;
               error := error s; events := events s |}).

Definition setLoading (b : bool) : M State unit :=
  fun s => (Normal tt,
            {| contributions := contributions s; amount := amount s;
               loading := b; initialLoading := initialLoading s;
               error := error s; events := events s |}).

Definition setInitialLoading (b : bool) : M State unit :=
  fun s => (Normal tt,
            {| contributions := contributions s; amount := amount s;
               loading := loading s; initialLoading := b;
               error := error s; events := events s |}).

Definition setError (e : value) : M State unit :=
  fun s => (Normal tt,
            {| contributions := contributions s; amount := amount s;
               loading := loading s; initialLoading := initialLoading s;
               error := e; events := events s |}).

Definition emit (ev : Event) : M State unit :=
  fun s => (Normal tt,
            {| contributions := contributions s; amount := amount s;
               loading := loading s; initialLoading := initialLoading s;
               error := error s; events := events s ++ [ev] |}).

(** [try { m } catch (err) { h err } finally { f }] *)
Definition try_catch_finally {A} (m : M State A)
    (h : JS.error -> M State A) (f : M State unit) : M State A :=
  fun s =>
    let '(r, s') :=
      match m s with
      | (Normal a, s1) => (Normal a, s1)
      | (Throw e, s1) => h e s1
      end in
    match f s' with
    | (Normal _, s'') => (r, s'')
    | (Throw e, s'') => (Throw e, s'')
    end.

Definition null : value := Some JNull.
Definition text (s : string) : value := Some (JString (lit s)).

Section Page.

Variable shortest_decimal : Q -> jsstring.
(** [+text]: the number a form field's text converts to. *)
Variable to_number : jsstring -> number.
Variable services : Services.
(** The form fields [contributor] and [amount] as the handler sees them. *)
Variable contributor_field : jsstring.
Variable amount_field : jsstring.

(** [fetchContributions]. Where a handler calls it without waiting, what it
    does after the store answers touches no state the handler still reads or
    writes, so it is run in place. *)
Definition fetchContributions : M State unit :=
  _ <- setInitialLoading true ;;
  _ <- emit Select ;;
  let fetched := select_rows services in
  _ <- (if truthy (select_error fetched)
        then setError (text "Failed to fetch contributions.")
        else setContributions (default [] (select_data fetched))) ;;
  setInitialLoading false.

Definition validateForm : M State bool :=
  _ <- setError null ;;
  if str_eqb (trim contributor_field) [] || str_eqb amount_field []
     || Planning.isNaN (to_number amount_field)
     || num_le_zero (to_number amount_field)
  then
    _ <- setError (text "Please enter a valid name and a positive amount.") ;;
    ret false
  else ret true.

(** The row of a cash contribution. *)
Definition cash_row : Planning.NewRow :=
  {| Planning.row_contributor := trim contributor_field;
     Planning.row_amount := to_number amount_field;
     Planning.row_method := Ledger.cash;
     Planning.row_status := Ledger.success |}.

Definition handleAddContribution : M State unit :=
  valid <- validateForm ;;
  if negb valid then ret tt
  else
    _ <- setLoading true ;;
    _ <- setError null ;;
    try_catch_finally
      (_ <- emit (Insert cash_row) ;;
       let insertError := insert_row services cash_row in
       if truthy insertError then
         message <- eval (get insertError Planning.message_) ;;
         err <- eval (Planning.new_Error shortest_decimal
                        (if truthy message then message
                         else text "Could not record cash contribution.")) ;;
         throw err
       else
         _ <- setAmount [] ;;
         fetchContributions)
      (fun err =>
         setError (text "Failed to add cash contribution. Please try again."))
      (setLoading false).

(** [handleDeleteContribution(id)]. [differs c] is the callback
    [c.id !== id] on a row of the list. The only throw inside the [try] is
    [throw deleteError], so the [catch] runs on that value. *)
Definition handleDeleteContribution (differs : json -> bool) (id : value)
  : M State unit :=
  if negb (confirmed services) then ret tt
  else
    _ <- setError null ;;
    _ <- emit (Delete id) ;;
    let deleteError := delete_row services id in
    if truthy deleteError then
      let message := opt_get deleteError Planning.message_ in
      setError (if truthy message then message
                else text "Failed to delete contribution.")
    else
      fun s => setContributions (List.filter differs (contributions s)) s.

(** The page at rest showing [rows], with the amount field as typed. *)
Definition idle (rows : list json) : State :=
  {| contributions := rows; amount := amount_field; loading := false;
     initialLoading := false; error := null; events := [] |}.

End Page.

End Contributions.

(* ===================================================================== *)
(** ** The planning page: adding and removing planned items *)
(* ===================================================================== *)

Module PlanningItems.
Import JS.
Local Open Scope js_scope.

(** The row handed to [insert]. *)
Record NewItem := {
  item_name : jsstring;
  item_amount : number;
  item_type : jsstring;
}.

Inductive Event :=
  | Insert (item : NewItem)
  | Delete (id : value).

(** [{ data, error }] of the insert. *)
Record InsertResult := {
  insert_data : value;
  insert_error : value;
}.

Record Services := {
  insert_item : NewItem -> InsertResult;
  delete_item : value -> value;
  confirmed : bool;
}.

(** The component state these handlers touch, and the events so far. The
    list holds the rows as the store returned them. *)
Record State := {
  plannedItems : list value;
  itemName : jsstring;
  itemAmount : jsstring;
  loading : bool;
  error : value;
  events : list Event;
}.

Definition setPlannedItems (items : list value) : M State unit :=
  fun s => (Normal tt,
            {| plannedItems := items; itemName := itemName s;
               itemAmount := itemAmount s; loading := loading s;
               error := error s; events := events s |}).

Definition setItemName (text : jsstring) : M State unit :=
  fun s => (Normal tt,
            {| plannedItems := plannedItems s; itemName := text;
               itemAmount := itemAmount s; loading := loading s;
               error := error s; events := events s |}).

Definition setItemAmount (text : jsstring) : M State unit :=
  fun s => (Normal tt,
            {| plannedItems := plannedItems s; itemName := itemName s;
               itemAmount := text; loading := loading s;
               error := error s; events := events s |}).

Definition setLoading (b : bool) : M State unit :=
  fun s => (Normal tt,
            {| plannedItems := plannedItems s; itemName := itemName s;
               itemAmount := itemAmount s; loading := b;
               error := error s; events := events s |}).

Definition setError (e : value) : M State unit :=
  fun s => (Normal tt,
            {| plannedItems := plannedItems s; itemName := itemName s;
               itemAmount := itemAmount s; loading := loading s;
               error := e; events := events s |}).

Definition emit (ev : Event) : M State unit :=
  fun s => (Normal tt,
            {| plannedItems := plannedItems s; itemName := itemName s;
               itemAmount := itemAmount s; loading := loading s;
               error := error s; events := events s ++ [ev] |}).

Definition null : value := Some JNull.

(** ["prefix" + v] *)
Definition prefixed (shortest_decimal : Q -> jsstring) (prefix : string)
    (v : value) : completion value :=
  match value_to_string shortest_decimal v with
  | Normal detail => Normal (Some (JString (lit prefix ++ detail)))
  | Throw e => Throw e
  end.

Section Page.

Variable shortest_decimal : Q -> jsstring.
(** [Number(text)]: the number a form field's text converts to. *)
Variable to_number : jsstring -> number.
Variable services : Services.
(** The fields [itemName], [itemAmount] and [itemType] as the handler sees
    them. *)
Variable name_field : jsstring.
Variable amount_field : jsstring.
Variable type_field : jsstring.

Definition new_item : NewItem :=
  {| item_name := trim name_field;
     item_amount := to_number amount_field;
     item_type := type_field |}.

Definition handleAddItem : M State unit :=
  if str_eqb (trim name_field) [] || str_eqb amount_field []
     || Planning.isNaN (to_number amount_field)
     || num_le_zero (to_number amount_field)
  then
    setError (Some (JString
                      (lit "Please enter a valid name and a positive amount.")))
  else
    _ <- setLoading true ;;
    _ <- setError null ;;
    _ <- emit (Insert new_item) ;;
    let inserted := insert_item services new_item in
    _ <- (if truthy (insert_error inserted) then
            message <- eval (get (insert_error inserted) Planning.message_) ;;
            shown <- eval (prefixed shortest_decimal "Failed to add item. "
                             message) ;;
            setError shown
          else
            _ <- setItemName [] ;;
            _ <- setItemAmount [] ;;
            fun s =>
              setPlannedItems (insert_data inserted :: plannedItems s) s) ;;
    setLoading false.

(** [handleDeleteItem(id)]. [differs item] is the callback
    [item.id !== id] on a row of the list. *)
Definition handleDeleteItem (differs : value -> bool) (id : value)
  : M State unit :=
  if negb (confirmed services) then ret tt
  else
    _ <- emit (Delete id) ;;
    let deleteError := delete_item services id in
    if truthy deleteError then
      message <- eval (get deleteError Planning.message_) ;;
      shown <- eval (prefixed shortest_decimal "Failed to delete item. "
                       message) ;;
      setError shown
    else
      fun s => setPlannedItems (List.filter differs (plannedItems s)) s.

(** The page at rest showing [items], with the fields as typed. *)
Definition idle (items : list value) : State :=
  {| plannedItems := items; itemName := name_field;
     itemAmount := amount_field; loading := false; error := null;
     events := [] |}.

End Page.

End PlanningItems.

(* ===================================================================== *)
(** ** The events page *)
(* ===================================================================== *)

Module Events.
Import JS.
Local Open Scope js_scope.

(** The row handed to [insert]. *)
Record NewEvent := {
  event_title : jsstring;
  event_date : jsstring;
  event_description : jsstring;
}.

Inductive Event :=
  | Insert (row : NewEvent)
  | Select
  | Delete (id : value).

(** [{ data, error }] of the ordered [select("*")]: the rows as an array, or
    [null], written [None]. *)
Record SelectResult := {
  select_data : option (list json);
  select_error : value;
}.

Record Services := {
  insert_event : NewEvent -> value;
  select_events : SelectResult;
  delete_event : value -> value;
  confirmed : bool;
}.

(** The component state, and the store calls so far. *)
Record State := {
  events : list json;
  title : jsstring;
  date : jsstring;
  description : jsstring;
  loading : bool;
  calls : list Event;
}.

Definition setEvents (rows : list json) : M State unit :=
  fun s => (Normal tt,
            {| events := rows; title := title s; date := date s;
               description := description s; loading := loading s;
               calls := calls s |}).

Definition setTitle (text : jsstring) : M State unit :=
  fun s => (Normal tt,
            {| events := events s; title := text; date := date s;
               description := description s; loading := loading s;
               calls := calls s |}).

Definition setDate (text : jsstring) : M State unit :=
  fun s => (Normal tt,
            {| events := events s; title := title s; date := text;
               description := description s; loading := loading s;
               calls := calls s |}).

Definition setDescription (text : jsstring) : M State unit :=
  fun s => (Normal tt,
            {| events := events s; title := title s; date := date s;
               description := text; loading := loading s;
               calls := calls s |}).

Definition setLoading (b : bool) : M State unit :=
  fun s => (Normal tt,
            {| events := events s; title := title s; date := date s;
               description := description s; loading := b;
               calls := calls s |}).

Definition emit (ev : Event) : M State unit :=
  fun s => (Normal tt,
            {| events := events s; title := title s; date := date s;
               description := description s; loading := loading s;
               calls := calls s ++ [ev] |}).

Section Page.

Variable services : Services.
(** The fields [title], [date] and [description] as the handler sees
    them. *)
Variable title_field : jsstring.
Variable date_field : jsstring.
Variable description_field : jsstring.

(** [fetchEvents]: a failed fetch is logged and changes nothing. *)
Definition fetchEvents : M State unit :=
  _ <- emit Select ;;
  let fetched := select_events services in
  if truthy (select_error fetched) then ret tt
  else setEvents (default [] (select_data fetched)).

Definition new_event : NewEvent :=
  {| event_title := title_field; event_date := date_field;
     event_description := description_field |}.

Definition handleAddEvent : M State unit :=
  if str_eqb title_field [] || str_eqb date_field [] then ret tt
  else
    _ <- setLoading true ;;
    _ <- emit (Insert new_event) ;;
    let error := insert_event services new_event in
    _ <- setLoading false ;;
    if negb (truthy error) then
      _ <- setTitle [] ;;
      _ <- setDate [] ;;
      _ <- setDescription [] ;;
      fetchEvents
    else ret tt.

Definition handleDeleteEvent (id : value) : M State unit :=
  if negb (confirmed services) then ret tt
  else
    _ <- emit (Delete id) ;;
    let error := delete_event services id in
    if negb (truthy error) then fetchEvents else ret tt.

(** The page at rest showing [rows], with the fields as typed. *)
Definition idle (rows : list json) : State :=
  {| events := rows; title := title_field; date := date_field;
     description := description_field; loading := false; calls := [] |}.

End Page.

End Events.

(* ===================================================================== *)
(** ** Sample pages of the other handlers *)
(* ===================================================================== *)

Module PageSamples.
Import JS Samples.
Local Open Scope string_scope.

Definition listed_row (id : Z) (name : string) : json :=
  obj [("id", JNumber (Finite (inject_Z id))); ("contributor", str name)].

Definition two_rows : list json := [listed_row 42 "Asha"; listed_row 7 "Ravi"].

(** [c.id !== 42] on the rows above. *)
Definition differs_from_42 (c : json) : bool :=
  match opt_get (Some c) (lit "id") with
  | Some (JNumber (Finite q)) => negb (Qeq_bool q 42)
  | _ => true
  end.

(** A store that accepts every call and lists [two_rows]; the user
    confirms. *)
Definition store_up : Contributions.Services :=
  {| Contributions.insert_row := fun row => Some JNull;
     Contributions.select_rows :=
       {| Contributions.select_data := Some two_rows;
          Contributions.select_error := Some JNull |};
     Contributions.delete_row := fun id => Some JNull;
     Contributions.confirmed := true |}.

(** A store that refuses every call. *)
Definition store_down : Contributions.Services :=
  {| Contributions.insert_row := fun row =>
       Some (obj [("message", str "permission denied")]);
     Contributions.select_rows :=
       {| Contributions.select_data := None;
          Contributions.select_error :=
            Some (obj [("message", str "permission denied")]) |};
     Contributions.delete_row := fun id =>
       Some (obj [("message", str "permission denied")]);
     Contributions.confirmed := true |}.

End PageSamples.

(* ===================================================================== *)
(** ** Sample planning and events pages *)
(* ===================================================================== *)

Module ItemSamples.
Import JS Samples.
Local Open Scope string_scope.

Definition dj_item : json :=
  obj [("id", JNumber (Finite 3)); ("name", str "DJ");
       ("amount", JNumber (Finite 8000)); ("type", str "expense")].

Definition tent_item : json :=
  obj [("id", JNumber (Finite 1)); ("name", str "Tent");
       ("amount", JNumber (Finite 12000)); ("type", str "expense")].

(** [item.id !== 3] on rows like the two above. *)
Definition differs_from_3 (item : value) : bool :=
  match opt_get item (lit "id") with
  | Some (JNumber (Finite q)) => negb (Qeq_bool q 3)
  | _ => true
  end.

(** A store that inserts the item as row 3 and deletes what it is asked to;
    the user confirms. *)
Definition items_store : PlanningItems.Services :=
  {| PlanningItems.insert_item := fun item =>
       {| PlanningItems.insert_data := Some dj_item;
          PlanningItems.insert_error := Some JNull |};
     PlanningItems.delete_item := fun id => Some JNull;
     PlanningItems.confirmed := true |}.

(** An events store that refuses inserts. *)
Definition events_store_down : Events.Services :=
  {| Events.insert_event := fun row =>
       Some (obj [("message", str "permission denied")]);
     Events.select_events :=
       {| Events.select_data := Some []; Events.select_error := Some JNull |};
     Events.delete_event := fun id => Some JNull;
     Events.confirmed := true |}.

End ItemSamples.

(* ===================================================================== *)
(** * Properties *)
(* ===================================================================== *)

(** ** Strings, the order-id pattern and [parseInt] *)

Module JSFacts.
Import JS.

Lemma str_eqb_true (a b : jsstring) : str_eqb a b = true <-> a = b.
Proof. unfold str_eqb. apply bool_decide_eq_true. Qed.

Lemma str_eqb_false (a b : jsstring) : str_eqb a b = false <-> a <> b.
Proof. unfold str_eqb. apply bool_decide_eq_false. Qed.

Lemma str_eqb_refl (a : jsstring) : str_eqb a a = true.
Proof. now apply str_eqb_true. Qed.




Lemma strip_prefix_app (p s : jsstring) :
  strip_prefix p (p ++ s) = Some s.
Proof.
  induction p as [| a p IH]; simpl; [reflexivity |].
  now rewrite N.eqb_refl.
Qed.

Lemma strip_prefix_Some (p s r : jsstring) :
  strip_prefix p s = Some r -> s = p ++ r.
Proof.
  revert s. induction p as [| a p IH]; intros s H; simpl in *.
  - congruence.
  - destruct s as [| b s]; [discriminate |].
    destruct (N.eqb_spec a b) as [-> |]; [| discriminate].
    now rewrite (IH _ H).
Qed.

(** The run [span_digits] cuts off is made of digits, the input is the run
    followed by the rest, and the rest does not start with a digit. *)
Lemma span_digits_spec (s d rest : jsstring) :
  span_digits s = (d, rest) ->
  s = d ++ rest /\ all_digits d = true /\
  match rest with c :: _ => is_digit c = false | [] => True end.
Proof.
  revert d rest. induction s as [| c s IH]; intros d rest H; simpl in H.
  - injection H as <- <-. now split.
  - destruct (is_digit c) eqn:Hc.
    + destruct (span_digits s) as [d' rest'] eqn:Hs.
      injection H as <- <-.
      destruct (IH _ _ eq_refl) as (-> & Hd & Hr).
      repeat split; simpl; [now rewrite Hc | exact Hr].
    + injection H as <- <-. now repeat split.
Qed.

Lemma span_digits_app (d rest : jsstring) :
  all_digits d = true ->
  match rest with c :: _ => is_digit c = false | [] => True end ->
  span_digits (d ++ rest) = (d, rest).
Proof.
  intros Hd Hr. induction d as [| c d IH]; simpl in *.
  - destruct rest as [| c r]; [reflexivity |]. simpl. now rewrite Hr.
  - apply andb_true_iff in Hd as [Hc Hd]. now rewrite Hc, (IH Hd).
Qed.

(** The matcher agrees with the pattern read as a language: [order_], one or
    more digits, an underscore, anything. The capture is the run of digits. *)
Lemma match_order_id_Some (s d : jsstring) :
  match_order_id s = Some d <->
  d <> [] /\ all_digits d = true /\
  exists rest, s = order_ ++ d ++ underscore :: rest.
Proof.
  unfold match_order_id. split.
  - destruct (strip_prefix order_ s) as [r |] eqn:Hp; [| discriminate].
    apply strip_prefix_Some in Hp.
    destruct (span_digits r) as [d' rest] eqn:Hs.
    apply span_digits_spec in Hs as (-> & Hd & _).
    destruct d' as [| c d']; [discriminate |].
    destruct rest as [| u rest]; [discriminate |].
    destruct (N.eqb_spec u underscore) as [-> |]; [| discriminate].
    intros [= <-]. repeat split; [discriminate | exact Hd |].
    now exists rest.
  - intros (Hne & Hd & rest & ->).
    rewrite strip_prefix_app, (span_digits_app d (underscore :: rest) Hd eq_refl).
    destruct d; [contradiction | reflexivity].
Qed.

(** No match exactly when the string is not of that shape. *)
Lemma match_order_id_None (s : jsstring) :
  match_order_id s = None <->
  ~ exists d rest, d <> [] /\ all_digits d = true /\
                   s = order_ ++ d ++ underscore :: rest.
Proof.
  split.
  - intros H (d & rest & Hne & Hd & Hs).
    assert (match_order_id s = Some d) by (apply match_order_id_Some; eauto).
    congruence.
  - intros H. destruct (match_order_id s) as [d |] eqn:Hm; [| reflexivity].
    apply match_order_id_Some in Hm as (Hne & Hd & rest & Hs).
    exfalso. apply H. eauto.
Qed.




(** Induction on JSON values that reaches the items of arrays and the
    members of objects. *)
Lemma json_nested_ind (P : json -> Prop) :
  P JNull -> (forall b, P (JBool b)) -> (forall n, P (JNumber n)) ->
  (forall s, P (JString s)) ->
  (forall items, Forall P items -> P (JArray items)) ->
  (forall ms, Forall (fun m => P (snd m)) ms -> P (JObject ms)) ->
  forall v, P v.
Proof.
  intros Hnull Hbool Hnum Hstr Harr Hobj. fix go 1.
  intros [| b | n | s | items | ms];
    [apply Hnull | apply Hbool | apply Hnum | apply Hstr | |].
  - apply Harr.
    induction items as [| x r IHr]; constructor; [apply go | exact IHr].
  - apply Hobj.
    induction ms as [| [k x] r IHr]; constructor; [apply go | exact IHr].
Qed.

(** [JSON.stringify] writes the members of an object under their names. *)
Lemma lookup_member_stringify (k : jsstring) (ms : list (jsstring * json)) :
  lookup_member k (List.map (fun m => (fst m, stringify (snd m))) ms)
  = stringify_member (lookup_member k ms).
Proof.
  induction ms as [| [k' v] r IH]; [reflexivity |].
  cbn [List.map lookup_member fst snd]. rewrite IH.
  destruct (lookup_member k r); [reflexivity |].
  now destruct (str_eqb k k').
Qed.

(** A member read from the text is the member of the value, written in its
    turn. *)
Lemma opt_get_stringify (j : json) (k : jsstring) :
  opt_get (Some (stringify j)) k = stringify_member (opt_get (Some j) k).
Proof.
  destruct j as [| b | [q | | |] | s | items | ms]; try reflexivity.
  apply lookup_member_stringify.
Qed.

End JSFacts.

(** ** Payment webhook handler *)

Module WebhookFacts.
Import JS Http Webhook Spec JSFacts.
Local Open Scope js_scope.

Lemma post_not_options : str_eqb POST OPTIONS = false.
Proof. reflexivity. Qed.

Section Run.

Variable shortest_decimal : Q -> jsstring.

Local Abbreviation log_received := (Webhook.log_received shortest_decimal).
Local Abbreviation handler := (Webhook.handler shortest_decimal).
Local Abbreviation deliver := (Webhook.deliver shortest_decimal).

(** Every value that is no array and no object converts to a string. *)
Lemma primitive_converts (v : value) :
  (forall items, v <> Some (JArray items)) ->
  (forall ms, v <> Some (JObject ms)) ->
  exists text, value_to_string shortest_decimal v = Normal text.
Proof.
  intros Ha Ho. destruct v as [[| b | n | s | items | ms] |];
    cbn [value_to_string to_string]; eauto.
  - now destruct (Ha items).
  - now destruct (Ho ms).
Qed.

(** The log line is written when both values convert to strings; a string
    always does. *)
Lemma log_received_string (paymentStatus : value) (oid : jsstring) :
  log_received paymentStatus (Some (JString oid)) =
    match value_to_string shortest_decimal paymentStatus with
    | Throw e => Throw e
    | Normal _ => Normal tt
    end.
Proof. reflexivity. Qed.

(** What the handler does with a parsed payload other than [null], as a
    table of its early returns. *)
Lemma handler_payload (store_error : bool) (req : Request) (payload : json)
    (w : World) :
  str_eqb (req_method req) OPTIONS = false ->
  req_body req = Some payload ->
  payload <> JNull ->
  handler store_error req w =
    if is_test_event payload then (Normal acknowledged, w)
    else if negb (truthy (payload_order_id payload))
            || negb (truthy (payload_payment_status payload))
    then (Normal (textResponse "Invalid webhook structure" 200), w)
    else
      match log_received (payload_payment_status payload)
              (payload_order_id payload) with
      | Throw e => (Throw e, w)
      | Normal _ =>
      match call_match (payload_order_id payload) with
      | Throw e => (Throw e, w)
      | Normal None => (Normal (textResponse "Invalid order_id format" 200), w)
      | Normal (Some capture) =>
          if is_string (payload_payment_status payload) SUCCESS
          then
            if store_error
            then (Normal (textResponse "Database update failed" 200),
                  {| rows := rows w;
                     updates := updates w ++ [parseInt capture] |})
            else (Normal (textResponse "Webhook processed" 200),
                  {| rows := Ledger.update_success (parseInt capture) (rows w);
                     updates := updates w ++ [parseInt capture] |})
          else (Normal (textResponse "Webhook processed" 200), w)
      end
      end.
Proof.
  intros Hm Hb Hp. unfold Webhook.handler. rewrite Hm, Hb.
  unfold is_test_event, payload_order_id, payload_payment_status.
  assert (Hget : forall k, get (Some payload) k = Normal (opt_get (Some payload) k))
    by (intros k; destruct payload; try reflexivity; contradiction).
  unfold bind, eval, ret. rewrite !Hget.
  destruct (is_string (opt_get (Some payload) type_) WEBHOOK);
    cbv beta iota delta [andb].
  - rewrite ?Hget.
    destruct (truthy (opt_get (opt_get (Some payload) data_) test_object_));
      [reflexivity |].
    destruct (negb _ || negb _); [reflexivity |].
    destruct (Webhook.log_received _ _ _); [| reflexivity].
    destruct (call_match _) as [[capture |] | e]; try reflexivity.
    destruct (is_string _ SUCCESS); [| reflexivity].
    unfold update_contribution. now destruct store_error.
  - rewrite ?Hget.
    destruct (negb _ || negb _); [reflexivity |].
    destruct (Webhook.log_received _ _ _); [| reflexivity].
    destruct (call_match _) as [[capture |] | e]; try reflexivity.
    destruct (is_string _ SUCCESS); [| reflexivity].
    unfold update_contribution. now destruct store_error.
Qed.

(** Whatever the handler returns, it returns with status 200. *)
Lemma returned_status_200 (store_error : bool) (req : Request) (w w' : World)
    (r : Response) :
  handler store_error req w = (Normal r, w') -> status r = 200%Z.
Proof.
  unfold Webhook.handler.
  destruct (str_eqb (req_method req) OPTIONS) eqn:Hm.
  { intros [= <- _]. reflexivity. }
  destruct (req_body req) as [payload |] eqn:Hb.
  2: { intros [= <- _]. reflexivity. }
  assert (Hnull : payload = JNull \/ payload <> JNull)
    by (destruct payload; [now left | right; discriminate ..]).
  destruct Hnull as [-> | Hp].
  { discriminate. }
  intros H.
  pose proof (handler_payload store_error req payload w Hm Hb Hp) as E.
  unfold Webhook.handler in E. rewrite Hm, Hb in E. rewrite E in H. clear E.
  destruct (is_test_event payload); [injection H as <- _; reflexivity |].
  destruct (negb _ || negb _); [injection H as <- _; reflexivity |].
  destruct (Webhook.log_received _ _ _); [| discriminate].
  destruct (call_match _) as [[capture |] | e]; try discriminate.
  - destruct (is_string _ SUCCESS); [destruct store_error |];
      injection H as <- _; reflexivity.
  - injection H as <- _; reflexivity.
Qed.

Lemma update_success_idempotent (n : number)
    (ledger : gmap Z Ledger.Contribution) :
  Ledger.update_success n (Ledger.update_success n ledger)
  = Ledger.update_success n ledger.
Proof.
  unfold Ledger.update_success. destruct (num_integer n) as [k |]; [| reflexivity].
  apply map_eq. intros i. rewrite lookup_alter. case_decide as Hk.
  - subst i. rewrite lookup_alter, decide_True by reflexivity.
    destruct (ledger !! k) as [c |]; [destruct c |]; reflexivity.
  - reflexivity.
Qed.

Lemma update_success_lookup (n : number) (k : Z)
    (ledger : gmap Z Ledger.Contribution) :
  Ledger.update_success n ledger !! k
  = if decide (num_integer n = Some k)
    then Ledger.set_success <$> ledger !! k
    else ledger !! k.
Proof.
  unfold Ledger.update_success. destruct (num_integer n) as [j |].
  - rewrite lookup_alter. repeat case_decide; congruence.
  - now case_decide.
Qed.

(** A matching order id is a non-empty string, and so is truthy. *)
Lemma matching_order_id_truthy (oid capture : jsstring) :
  match_order_id oid = Some capture -> truthy (Some (JString oid)) = true.
Proof.
  intros H. apply match_order_id_Some in H as (_ & _ & rest & ->).
  reflexivity.
Qed.

(** The run of the handler on a payment notification that reports success
    for a matching order id. *)
Lemma success_run (store_error : bool) (payload : json)
    (oid capture : jsstring) (w : World) :
  is_test_event payload = false ->
  payload_order_id payload = Some (JString oid) ->
  match_order_id oid = Some capture ->
  payload_payment_status payload = Some (JString SUCCESS) ->
  handler store_error (post payload) w =
    if store_error
    then (Normal (textResponse "Database update failed" 200),
          {| rows := rows w; updates := updates w ++ [parseInt capture] |})
    else (Normal (textResponse "Webhook processed" 200),
          {| rows := Ledger.update_success (parseInt capture) (rows w);
             updates := updates w ++ [parseInt capture] |}).
Proof.
  intros Ht Ho Hm Hs.
  assert (Hp : payload <> JNull) by (intros ->; discriminate).
  rewrite (handler_payload store_error (post payload) payload w
             post_not_options eq_refl Hp).
  rewrite Ht, Ho, Hs, (matching_order_id_truthy _ _ Hm).
  cbn [call_match]. rewrite Hm. reflexivity.
Qed.

(** The world after a run on a payload whose order id is a string that does
    not match: nothing was asked of the store, however the run ends. *)
Lemma unmatched_world (store_error : bool) (payload : json) (oid : jsstring)
    (ledger : gmap Z Ledger.Contribution) :
  payload_order_id payload = Some (JString oid) ->
  match_order_id oid = None ->
  snd (deliver store_error (post payload) ledger)
  = {| rows := ledger; updates := [] |}.
Proof.
  intros Ho Hm.
  assert (Hp : payload <> JNull) by (intros ->; discriminate).
  unfold Webhook.deliver.
  rewrite (handler_payload store_error (post payload) payload _ post_not_options
             eq_refl Hp).
  rewrite Ho. cbn [call_match]. rewrite Hm.
  destruct (is_test_event payload); [reflexivity |].
  destruct (negb _ || negb _); [reflexivity |].
  now destruct (Webhook.log_received _ _ _).
Qed.

(** The run of the handler on a payload whose order id is a string that does
    not match, when the payload is a connectivity test, the order id is
    empty or the payment status converts to a string: some response with
    status 200, nothing asked of the store. *)
Lemma unmatched_run (store_error : bool) (payload : json) (oid : jsstring)
    (ledger : gmap Z Ledger.Contribution) :
  payload_order_id payload = Some (JString oid) ->
  match_order_id oid = None ->
  is_test_event payload = true \/ oid = [] \/
  (exists text,
     value_to_string shortest_decimal (payload_payment_status payload)
     = Normal text) ->
  exists r,
    deliver store_error (post payload) ledger
      = (Normal r, {| rows := ledger; updates := [] |})
    /\ status r = 200%Z.
Proof.
  intros Ho Hm Hcase.
  assert (Hp : payload <> JNull) by (intros ->; discriminate).
  unfold Webhook.deliver.
  rewrite (handler_payload store_error (post payload) payload _ post_not_options
             eq_refl Hp).
  rewrite Ho, log_received_string. cbn [call_match]. rewrite Hm.
  destruct (is_test_event payload); [eexists; split; reflexivity |].
  destruct Hcase as [Ht | [-> | (text & Hs)]]; [discriminate | |].
  - eexists; split; reflexivity.
  - rewrite Hs. destruct (negb _ || negb _); eexists; split; reflexivity.
Qed.

End Run.

(** C2, at the failing input: a body that parses to [null] makes the handler
    throw at [payload.type]; no response with status 200 is returned, and the
    ledger is as before. *)
Theorem null_payload_throws (shortest_decimal : Q -> jsstring)
    (store_error : bool) (ledger : gmap Z Ledger.Contribution) :
  deliver shortest_decimal store_error (post JNull) ledger
  = (Throw TypeError, {| rows := ledger; updates := [] |}).
Proof. reflexivity. Qed.

(** An [order_id] that is a number is truthy and has no [match] method: the
    handler throws there as well. *)
Lemma numeric_order_id_throws (store_error : bool) :
  deliver Samples.no_fraction_printer store_error
    (post Samples.numeric_order_payload) Samples.ledger42
  = (Throw TypeError, {| rows := Samples.ledger42; updates := [] |}).
Proof. destruct store_error; reflexivity. Qed.

(** So does a payment status that cannot be converted to a string for the
    log line, here an object with a member named [toString]: the order id of
    this payload does not match, and no format-error note is returned. *)
Lemma unprintable_status_throws (store_error : bool) :
  deliver Samples.no_fraction_printer store_error
    (post Samples.unprintable_status_payload) Samples.ledger42
  = (Throw TypeError, {| rows := Samples.ledger42; updates := [] |}).
Proof. destruct store_error; reflexivity. Qed.

(** C1 as stated fails: this payload has a matching order id and payment
    status SUCCESS, yet it is also a connectivity test, so with the store up
    the handler acknowledges it and row 42 stays pending. *)
Lemma test_event_success_leaves_row_pending :
  payload_order_id Samples.test_success_payload
    = Some (JString (lit "order_42_1700000000000")) /\
  match_order_id (lit "order_42_1700000000000") = Some (lit "42") /\
  num_integer (parseInt (lit "42")) = Some 42%Z /\
  payload_payment_status Samples.test_success_payload
    = Some (JString SUCCESS) /\
  deliver Samples.no_fraction_printer false
    (post Samples.test_success_payload) Samples.ledger42
    = (Normal acknowledged, {| rows := Samples.ledger42; updates := [] |}) /\
  row_status Samples.ledger42 42 = Some Ledger.pending.
Proof. repeat split; reflexivity. Qed.

(** The same notification without the test marker, when the store fails:
    the row stays pending as well. *)
Lemma store_failure_leaves_row_pending :
  deliver Samples.no_fraction_printer true (post Samples.success_payload)
    Samples.ledger42
    = (Normal (textResponse "Database update failed" 200),
       {| rows := Samples.ledger42; updates := [Finite 42] |}).
Proof. reflexivity. Qed.

(** C1, amended: a payload that is not a connectivity test, with an order id
    matching the pattern and payment status SUCCESS, delivered while the
    store carries the update out, sets the row whose id equals the extracted
    contribution id to success and leaves every other row as it was; a second
    delivery of the same payload, whether the store fails it or not, leaves
    the ledger as the first left it. *)
Theorem success_marks_row (shortest_decimal : Q -> jsstring)
    (store_error_again : bool) (payload : json)
    (oid capture : jsstring) (ledger : gmap Z Ledger.Contribution) :
  is_test_event payload = false ->
  payload_order_id payload = Some (JString oid) ->
  match_order_id oid = Some capture ->
  payload_payment_status payload = Some (JString SUCCESS) ->
  exists ledger1,
    deliver shortest_decimal false (post payload) ledger
      = (Normal (textResponse "Webhook processed" 200),
         {| rows := ledger1; updates := [parseInt capture] |}) /\
    (forall k row, num_integer (parseInt capture) = Some k ->
       ledger !! k = Some row ->
       ledger1 !! k = Some (Ledger.set_success row) /\
       row_status ledger1 k = Some Ledger.success) /\
    (forall k, num_integer (parseInt capture) <> Some k ->
       ledger1 !! k = ledger !! k) /\
    rows (snd (deliver shortest_decimal store_error_again (post payload)
                 ledger1)) = ledger1 /\
    exists r, fst (deliver shortest_decimal store_error_again (post payload)
                     ledger1) = Normal r
              /\ status r = 200%Z.
Proof.
  intros Ht Ho Hm Hs.
  pose proof (fun se w =>
                success_run shortest_decimal se payload oid capture w
                  Ht Ho Hm Hs) as E.
  exists (Ledger.update_success (parseInt capture) ledger).
  unfold deliver. rewrite !E. cbn [rows updates app].
  split; [reflexivity |]. split; [| split; [| split]].
  - intros k row Hk Hrow. unfold row_status.
    rewrite update_success_lookup, decide_True, Hrow by assumption.
    now split.
  - intros k Hk. now rewrite update_success_lookup, decide_False.
  - destruct store_error_again; cbn [snd rows]; [reflexivity |].
    apply update_success_idempotent.
  - destruct store_error_again; eexists; split; reflexivity.
Qed.

Lemma success_marks_row_witness :
  is_test_event Samples.success_payload = false /\
  exists ledger1,
    deliver Samples.no_fraction_printer false (post Samples.success_payload)
      Samples.ledger42
      = (Normal (textResponse "Webhook processed" 200),
         {| rows := ledger1; updates := [parseInt (lit "42")] |}) /\
    row_status ledger1 42 = Some Ledger.success.
Proof.
  split; [reflexivity |].
  destruct (success_marks_row Samples.no_fraction_printer true
              Samples.success_payload
              (lit "order_42_1700000000000") (lit "42") Samples.ledger42
              eq_refl eq_refl eq_refl eq_refl)
    as (ledger1 & Hrun & Hrow & _).
  exists ledger1. split; [exact Hrun |].
  exact (proj2 (Hrow 42%Z Samples.row42 eq_refl eq_refl)).
Defined.

(** C4 as stated fails: the order id of this payload does not match the
    pattern, and the response, a 200 that leaves the ledger alone, is the
    acknowledgement of a connectivity test, not the format-error note. *)
Lemma test_event_bad_format_is_acknowledged :
  payload_order_id Samples.test_bad_format_payload
    = Some (JString (lit "bad_format")) /\
  match_order_id (lit "bad_format") = None /\
  deliver Samples.no_fraction_printer false
    (post Samples.test_bad_format_payload) Samples.ledger42
    = (Normal acknowledged, {| rows := Samples.ledger42; updates := [] |}) /\
  acknowledged <> textResponse "Invalid order_id format" 200.
Proof. repeat split; try reflexivity. discriminate. Qed.

(** C4, amended: for a payload whose order id is a string that does not match
    the pattern, the handler asks the store for no update and leaves the
    ledger as it was, however the run ends; it responds, with status 200,
    when the payload is a connectivity test, the order id is empty or the
    payment status converts to a string for the log line, as every value
    that is no array and no object does; and when the payload is no
    connectivity test, the order id is not empty and the payment status is
    truthy and converts to a string, the body is the format-error note. *)
Theorem unmatched_order_id_no_update (shortest_decimal : Q -> jsstring)
    (store_error : bool) (payload : json)
    (oid : jsstring) (ledger : gmap Z Ledger.Contribution) :
  payload_order_id payload = Some (JString oid) ->
  match_order_id oid = None ->
  snd (deliver shortest_decimal store_error (post payload) ledger)
    = {| rows := ledger; updates := [] |} /\
  (is_test_event payload = true \/ oid = [] \/
   (exists text,
      value_to_string shortest_decimal (payload_payment_status payload)
      = Normal text) ->
   exists r,
     deliver shortest_decimal store_error (post payload) ledger
       = (Normal r, {| rows := ledger; updates := [] |})
     /\ status r = 200%Z) /\
  (forall text,
     is_test_event payload = false ->
     oid <> [] ->
     truthy (payload_payment_status payload) = true ->
     value_to_string shortest_decimal (payload_payment_status payload)
       = Normal text ->
     deliver shortest_decimal store_error (post payload) ledger
       = (Normal (textResponse "Invalid order_id format" 200),
          {| rows := ledger; updates := [] |})) /\
  ((forall items, payload_payment_status payload <> Some (JArray items)) ->
   (forall ms, payload_payment_status payload <> Some (JObject ms)) ->
   exists text,
     value_to_string shortest_decimal (payload_payment_status payload)
     = Normal text).
Proof.
  intros Ho Hm.
  split; [now apply (unmatched_world _ _ _ oid) |].
  split; [now apply (unmatched_run _ _ _ oid) |].
  split; [| apply primitive_converts].
  assert (Hp : payload <> JNull) by (intros ->; discriminate).
  unfold deliver.
  rewrite (handler_payload shortest_decimal store_error (post payload) payload
             _ post_not_options eq_refl Hp).
  rewrite Ho, log_received_string. cbn [call_match]. rewrite Hm.
  intros text -> Hne Hs Hconv. rewrite Hs, Hconv.
  assert (Ht : truthy (Some (JString oid)) = true).
  { cbn [truthy]. apply negb_true_iff, str_eqb_false. exact Hne. }
  rewrite Ht. reflexivity.
Qed.

Lemma unmatched_order_id_no_update_witness :
  payload_order_id Samples.bad_format_payload
    = Some (JString (lit "bad_format")) /\
  match_order_id (lit "bad_format") = None /\
  deliver Samples.no_fraction_printer false (post Samples.bad_format_payload)
    Samples.ledger42
    = (Normal (textResponse "Invalid order_id format" 200),
       {| rows := Samples.ledger42; updates := [] |}).
Proof.
  split; [reflexivity |]. split; [reflexivity |].
  apply (proj1 (proj2 (proj2 (unmatched_order_id_no_update
                  Samples.no_fraction_printer false
                  Samples.bad_format_payload
                  (lit "bad_format") Samples.ledger42 eq_refl eq_refl)))
           (lit "SUCCESS")).
  - reflexivity.
  - discriminate.
  - reflexivity.
  - reflexivity.
Defined.

End WebhookFacts.

(** ** Order request handler *)

Module CreateOrderFacts.
Import JS Http CreateOrder Spec OrderSpec JSFacts.
Local Open Scope js_scope.

Section Run.

Variable shortest_decimal : Q -> jsstring.
Variable env : Env.
Variable now : Z.
Variable gateway : OrderRequest -> FetchResult.

Local Abbreviation process :=
  (CreateOrder.process shortest_decimal env now gateway).
Local Abbreviation handler :=
  (CreateOrder.handler shortest_decimal env now gateway).
Local Abbreviation serve :=
  (CreateOrder.serve shortest_decimal env now gateway).

Lemma get_field (b : json) (k : jsstring) :
  b <> JNull -> get (Some b) k = Normal (field b k).
Proof. intros Hb. destruct b; try reflexivity. contradiction. Qed.

Lemma process_unconfigured (req : Request) (sent : list OrderRequest) :
  configured env = false ->
  process req sent = (Normal configuration_error, sent).
Proof.
  unfold configured, CreateOrder.process. intros H.
  apply negb_false_iff in H. now rewrite H.
Qed.

Lemma process_unparseable (req : Request) (sent : list OrderRequest) :
  configured env = true -> req_body req = None ->
  process req sent = (Normal invalid_json, sent).
Proof.
  unfold configured, CreateOrder.process. intros H Hb.
  apply negb_true_iff in H. now rewrite H, Hb.
Qed.

(** A body that parses to [null] cannot be destructured. *)
Lemma process_null (req : Request) (sent : list OrderRequest) :
  configured env = true -> req_body req = Some JNull ->
  process req sent = (Throw TypeError, sent).
Proof.
  unfold configured, CreateOrder.process. intros H Hb.
  apply negb_true_iff in H. now rewrite H, Hb.
Qed.

(** The three checks, in their order, on a body other than [null]. *)
Lemma process_rejected (req : Request) (b : json) (sent : list OrderRequest) :
  configured env = true -> req_body req = Some b -> b <> JNull ->
  accepted b = false ->
  process req sent =
    (Normal (if not_positive_number (field b amount_) then invalid_amount
             else if not_filled_string (field b contributor_)
                  then invalid_contributor
                  else invalid_contribution_id),
     sent).
Proof.
  unfold configured, accepted, CreateOrder.process.
  intros H Hb Hn Ha. apply negb_true_iff in H. rewrite H, Hb.
  unfold bind, eval, ret. rewrite !(get_field b _ Hn).
  destruct (not_positive_number _); [reflexivity |].
  destruct (not_filled_string (field b contributor_)); [reflexivity |].
  destruct (not_filled_string (field b contribution_id_)); [reflexivity |].
  discriminate.
Qed.

Lemma accepted_not_null (b : json) : accepted b = true -> b <> JNull.
Proof. intros H ->. discriminate. Qed.

Lemma accepted_id_text (b : json) :
  accepted b = true ->
  field b contribution_id_ = Some (JString (contribution_id_text b)).
Proof.
  unfold accepted, contribution_id_text. intros H.
  apply andb_true_iff in H as [_ H]. apply negb_true_iff in H.
  destruct (field b contribution_id_) as [[| | | s | |] |]; try discriminate.
  reflexivity.
Qed.

(** An accepted body leads to exactly one request to the gateway, and the
    response is decided by the reply. *)
Lemma process_accepted (req : Request) (b : json) (sent : list OrderRequest) :
  configured env = true -> req_body req = Some b -> accepted b = true ->
  process req sent =
    let r := order_request env now b in
    match gateway r with
    | Rejected => (Throw NetworkError, sent ++ [r])
    | Responded st None => (Throw SyntaxError, sent ++ [r])
    | Responded st (Some j) =>
        if ok st then (Normal (jsonResponse j 200), sent ++ [r])
        else
          match get (Some j) message_ with
          | Throw e => (Throw e, sent ++ [r])
          | Normal m =>
              match (if truthy m then value_to_string shortest_decimal m
                     else Normal (status_fallback st)) with
              | Throw e => (Throw e, sent ++ [r])
              | Normal text => (Normal (gateway_error text), sent ++ [r])
              end
          end
    end.
Proof.
  intros H Hb Ha.
  pose proof (accepted_not_null b Ha) as Hn.
  pose proof (accepted_id_text b Ha) as Hid.
  unfold configured in H. apply negb_true_iff in H.
  unfold accepted in Ha.
  apply andb_true_iff in Ha as [Ha H3]. apply andb_true_iff in Ha as [H1 H2].
  apply negb_true_iff in H1, H2, H3.
  unfold CreateOrder.process. rewrite H, Hb.
  unfold bind, eval, ret. rewrite !(get_field b _ Hn). rewrite H1, H2, H3.
  rewrite Hid. cbn [value_to_string to_string].
  fold (order_request env now b).
  unfold fetch. cbv zeta.
  destruct (gateway (order_request env now b)) as [| st [j |]];
    cbn [snd fst response_json]; try reflexivity.
  destruct (ok st); cbn [negb]; [reflexivity |].
  destruct (get (Some j) message_) as [m | e]; [| reflexivity].
  unfold status_fallback.
  destruct (if truthy m then _ else _); reflexivity.
Qed.

Lemma handler_catches (req : Request) (sent : list OrderRequest) :
  str_eqb (req_method req) OPTIONS = false ->
  handler req sent =
    match process req sent with
    | (Normal r, sent') => (Normal r, sent')
    | (Throw _, sent') => (Normal internal_error, sent')
    end.
Proof.
  intros Hm. unfold CreateOrder.handler, try_catch. rewrite Hm.
  reflexivity.
Qed.

End Run.

Lemma serve_eq shortest_decimal env now gateway (req : Request) :
  str_eqb (req_method req) OPTIONS = false ->
  serve shortest_decimal env now gateway req =
    match process shortest_decimal env now gateway req [] with
    | (Normal r, sent) => (Normal r, sent)
    | (Throw _, sent) => (Normal internal_error, sent)
    end.
Proof. intros Hm. unfold serve. now apply handler_catches. Qed.

Lemma five_rejections_differ :
  List.NoDup [configuration_error; invalid_json; invalid_amount;
         invalid_contributor; invalid_contribution_id].
Proof.
  repeat (constructor; [cbv; intuition discriminate |]). constructor.
Qed.

(** C5, at the failing input: with the configuration present, a body that
    parses to [null] carries no positive amount, and the answer is the
    generic 500 of the catch-all, not the 400 of the amount check; the other
    bodies that are no object, a number, a string, an array, do get the 400
    of the amount check. No gateway call is made in any of these runs. *)
Theorem null_body_is_internal_error :
  configured Samples.env_ok = true /\
  not_positive_number (field JNull amount_) = true /\
  serve Samples.no_fraction_printer Samples.env_ok Samples.clock
    Samples.gateway_created (post JNull)
    = (Normal internal_error, []) /\
  status internal_error = 500%Z /\
  internal_error <> invalid_amount /\
  (forall body, In body [JNumber (Finite 5); JString (lit "x"); JArray [];
                         JBool true; JObject []] ->
     serve Samples.no_fraction_printer Samples.env_ok Samples.clock
       Samples.gateway_created (post body)
     = (Normal invalid_amount, [])) /\
  status invalid_amount = 400%Z.
Proof.
  repeat split; try reflexivity; [discriminate |].
  intros body Hin. cbn [In] in Hin.
  repeat (destruct Hin as [<- | Hin]; [reflexivity |]). contradiction.
Qed.

(** X24: the handler checks in this order and stops at the first failure,
    each with its own response and with no request sent to the gateway:
    configuration missing, 500; body not JSON, 400; then, for a body that
    parses to a value other than [null], amount not a positive number,
    contributor not a filled string, contribution_id not a filled string,
    400 each. In particular a body whose amount is a number not above zero
    gets the amount error. *)
Theorem validation_fail_fast shortest_decimal env now gateway (req : Request) :
  str_eqb (req_method req) OPTIONS = false ->
  (configured env = false ->
   serve shortest_decimal env now gateway req
     = (Normal configuration_error, [])) /\
  (configured env = true -> req_body req = None ->
   serve shortest_decimal env now gateway req = (Normal invalid_json, [])) /\
  (forall b, configured env = true -> req_body req = Some b -> b <> JNull ->
     (not_positive_number (field b amount_) = true ->
      serve shortest_decimal env now gateway req
        = (Normal invalid_amount, [])) /\
     (not_positive_number (field b amount_) = false ->
      not_filled_string (field b contributor_) = true ->
      serve shortest_decimal env now gateway req
        = (Normal invalid_contributor, [])) /\
     (not_positive_number (field b amount_) = false ->
      not_filled_string (field b contributor_) = false ->
      not_filled_string (field b contribution_id_) = true ->
      serve shortest_decimal env now gateway req
        = (Normal invalid_contribution_id, []))) /\
  (forall b n, configured env = true -> req_body req = Some b ->
     field b amount_ = Some (JNumber n) -> num_le_zero n = true ->
     serve shortest_decimal env now gateway req
       = (Normal invalid_amount, [])) /\
  (status configuration_error = 500 /\ status invalid_json = 400 /\
   status invalid_amount = 400 /\ status invalid_contributor = 400 /\
   status invalid_contribution_id = 400)%Z /\
  List.NoDup [configuration_error; invalid_json; invalid_amount;
         invalid_contributor; invalid_contribution_id].
Proof.
  intros Hm.
  assert (Hrej : forall b, configured env = true -> req_body req = Some b ->
            b <> JNull -> accepted b = false ->
            serve shortest_decimal env now gateway req =
              (Normal (if not_positive_number (field b amount_)
                       then invalid_amount
                       else if not_filled_string (field b contributor_)
                            then invalid_contributor
                            else invalid_contribution_id), [])).
  { intros b Hc Hb Hn Ha.
    now rewrite (serve_eq _ _ _ _ _ Hm), (process_rejected _ _ _ _ _ b [] Hc Hb Hn Ha). }
  split; [| split; [| split; [| split; [| split]]]].
  - intros Hc. now rewrite (serve_eq _ _ _ _ _ Hm), process_unconfigured.
  - intros Hc Hb. now rewrite (serve_eq _ _ _ _ _ Hm), process_unparseable.
  - intros b Hc Hb Hn. repeat split.
    + intros H1. rewrite (Hrej b Hc Hb Hn); [now rewrite H1 |].
      unfold accepted. now rewrite H1.
    + intros H1 H2. rewrite (Hrej b Hc Hb Hn); [now rewrite H1, H2 |].
      unfold accepted. now rewrite H1, H2.
    + intros H1 H2 H3. rewrite (Hrej b Hc Hb Hn); [now rewrite H1, H2 |].
      unfold accepted. now rewrite H1, H2, H3.
  - intros b n Hc Hb Ha Hle.
    assert (Hn : b <> JNull) by (intros ->; discriminate).
    assert (H1 : not_positive_number (field b amount_) = true)
      by (rewrite Ha; exact Hle).
    rewrite (Hrej b Hc Hb Hn); [now rewrite H1 |].
    unfold accepted. now rewrite H1.
  - repeat split.
  - exact five_rejections_differ.
Qed.

Lemma validation_fail_fast_witness :
  str_eqb (req_method (post Samples.negative_amount_body)) OPTIONS = false /\
  serve Samples.no_fraction_printer Samples.env_ok Samples.clock
    Samples.gateway_created (post Samples.negative_amount_body)
    = (Normal invalid_amount, []).
Proof.
  split; [reflexivity |].
  destruct (validation_fail_fast Samples.no_fraction_printer Samples.env_ok
              Samples.clock Samples.gateway_created
              (post Samples.negative_amount_body) eq_refl)
    as (_ & _ & _ & Hle & _).
  apply (Hle Samples.negative_amount_body (Finite (-5))); reflexivity.
Defined.

(** C6, at the failing input: the request passes validation and the gateway
    answers 503 with a body that is not JSON; reading that body throws before
    the status is looked at, and the answer is the generic 500, not a 502.
    The same 503 with a JSON body that has no message is answered 502 with
    the text made from the status. *)
Theorem unparseable_gateway_failure_is_500 :
  configured Samples.env_ok = true /\
  accepted Samples.valid_body = true /\
  Samples.gateway_unavailable
    (order_request Samples.env_ok Samples.clock Samples.valid_body)
    = Responded 503 None /\
  ok 503 = false /\
  serve Samples.no_fraction_printer Samples.env_ok Samples.clock
    Samples.gateway_unavailable (post Samples.valid_body)
    = (Normal internal_error,
       [order_request Samples.env_ok Samples.clock Samples.valid_body]) /\
  status internal_error = 500%Z /\
  serve Samples.no_fraction_printer Samples.env_ok Samples.clock
    Samples.gateway_unavailable_json (post Samples.valid_body)
    = (Normal (gateway_error (lit "Cashfree API returned status 503")),
       [order_request Samples.env_ok Samples.clock Samples.valid_body]) /\
  status (gateway_error (lit "Cashfree API returned status 503")) = 502%Z.
Proof. repeat split; reflexivity. Qed.

(** X25: for a request that passes validation, when the gateway answers
    outside 2xx with a body that parses to a JSON value other than [null],
    the response is 502 with body [{error: "Payment gateway error: " +
    text}], where [text] is [Cashfree API returned status <status>] when the
    upstream [message] is missing or falsy, and the message converted to a
    string otherwise, a string message being taken as it is; when that
    conversion throws, the response is the generic 500. *)
Theorem gateway_failure_is_502 shortest_decimal env now gateway
    (req : Request) (b : json) (st : Z) (j : json) :
  str_eqb (req_method req) OPTIONS = false ->
  configured env = true -> req_body req = Some b -> accepted b = true ->
  gateway (order_request env now b) = Responded st (Some j) ->
  ok st = false ->
  j <> JNull ->
  (truthy (field j message_) = false ->
   serve shortest_decimal env now gateway req
     = (Normal (gateway_error (status_fallback st)),
        [order_request env now b])) /\
  (forall text, truthy (field j message_) = true ->
     value_to_string shortest_decimal (field j message_) = Normal text ->
     serve shortest_decimal env now gateway req
       = (Normal (gateway_error text), [order_request env now b])) /\
  (forall e, truthy (field j message_) = true ->
     value_to_string shortest_decimal (field j message_) = Throw e ->
     serve shortest_decimal env now gateway req
       = (Normal internal_error, [order_request env now b])) /\
  (forall m, field j message_ = Some (JString m) -> m <> [] ->
     serve shortest_decimal env now gateway req
       = (Normal (gateway_error m), [order_request env now b])) /\
  (forall text, status (gateway_error text) = 502%Z /\
     body (gateway_error text)
       = Json (error_object (lit "Payment gateway error: " ++ text))).
Proof.
  intros Hm Hc Hb Ha Hg Hok Hj.
  assert (E : serve shortest_decimal env now gateway req =
            match (if truthy (field j message_)
                   then value_to_string shortest_decimal (field j message_)
                   else Normal (status_fallback st)) with
            | Throw e => (Normal internal_error, [order_request env now b])
            | Normal text =>
                (Normal (gateway_error text), [order_request env now b])
            end).
  { rewrite (serve_eq _ _ _ _ _ Hm), (process_accepted _ _ _ _ _ b [] Hc Hb Ha).
    cbv zeta. rewrite Hg, Hok, (get_field j _ Hj). cbn [app].
    destruct (if truthy (field j message_) then _ else _); reflexivity. }
  split; [| split; [| split; [| split]]].
  - intros Hf. now rewrite E, Hf.
  - intros text Ht Hs. now rewrite E, Ht, Hs.
  - intros e Ht Hs. now rewrite E, Ht, Hs.
  - intros m Hmsg Hne. rewrite E, Hmsg. cbn [truthy value_to_string to_string].
    apply str_eqb_false in Hne. now rewrite Hne.
  - intros text. split; reflexivity.
Qed.

Lemma gateway_failure_is_502_witness :
  accepted Samples.valid_body = true /\
  ok 401 = false /\
  serve Samples.no_fraction_printer Samples.env_ok Samples.clock
    Samples.gateway_refused (post Samples.valid_body)
    = (Normal (gateway_error (lit "authentication Failed")),
       [order_request Samples.env_ok Samples.clock Samples.valid_body]).
Proof.
  split; [reflexivity |]. split; [reflexivity |].
  refine (proj1 (proj2 (proj2 (proj2
    (gateway_failure_is_502 Samples.no_fraction_printer Samples.env_ok
       Samples.clock Samples.gateway_refused (post Samples.valid_body)
       Samples.valid_body 401 _ eq_refl eq_refl eq_refl eq_refl eq_refl
       eq_refl _)))) (lit "authentication Failed") eq_refl _);
    discriminate.
Defined.

(** A success of the gateway whose body is not JSON, here a 204 with an
    empty body: reading the body throws and the answer is the generic 500. *)
Lemma unparseable_gateway_success_is_500 :
  configured Samples.env_ok = true /\
  accepted Samples.valid_body = true /\
  Samples.gateway_empty_success
    (order_request Samples.env_ok Samples.clock Samples.valid_body)
    = Responded 204 None /\
  ok 204 = true /\
  serve Samples.no_fraction_printer Samples.env_ok Samples.clock
    Samples.gateway_empty_success (post Samples.valid_body)
    = (Normal internal_error,
       [order_request Samples.env_ok Samples.clock Samples.valid_body]) /\
  status internal_error = 500%Z.
Proof. repeat split; reflexivity. Qed.

(** Writing a value as JSON text changes it only where a number is not
    finite. *)
Lemma stringify_finite (v : json) :
  stringify v = v <-> all_finite v = true.
Proof.
  induction v as [| b | [q | | |] | s | items Hitems | ms Hms]
    using json_nested_ind;
    cbn [stringify all_finite]; try (split; (reflexivity || discriminate)).
  - assert (H : List.map stringify items = items
                <-> forallb all_finite items = true).
    { induction Hitems as [| x r Hx _ IHr]; [now split |].
      cbn [List.map forallb]. rewrite andb_true_iff, <- Hx, <- IHr.
      split; [intros [= -> ->]; now split | intros [-> ->]; reflexivity]. }
    rewrite <- H. split; [now intros [= ->] | now intros ->].
  - assert (H : List.map (fun m => (fst m, stringify (snd m))) ms = ms
                <-> forallb (fun m => all_finite (snd m)) ms = true).
    { induction Hms as [| [k x] r Hx _ IHr]; [now split |].
      cbn [List.map forallb fst snd] in *.
      rewrite andb_true_iff, <- Hx, <- IHr.
      split; [intros [= -> ->]; now split | intros [-> ->]; reflexivity]. }
    rewrite <- H. split; [now intros [= ->] | now intros ->].
Qed.

(** C7 as stated fails: the request passes validation and the gateway answers
    200 with a JSON body in which one number is written [1e999]; the handler
    answers 200 with that member written [null], so the body is not the
    gateway's body. *)
Lemma overflowing_number_forwarded_as_null :
  configured Samples.env_ok = true /\
  accepted Samples.valid_body = true /\
  Samples.gateway_created_overflow
    (order_request Samples.env_ok Samples.clock Samples.valid_body)
    = Responded 200 (Some Samples.created_with_overflow) /\
  ok 200 = true /\
  serve Samples.no_fraction_printer Samples.env_ok Samples.clock
    Samples.gateway_created_overflow (post Samples.valid_body)
    = (Normal
         {| status := 200;
            body := Json (Samples.obj
                            [("payment_session_id"%string,
                              Samples.str "session_a1b2c3");
                             ("order_amount"%string, JNull)]) |},
       [order_request Samples.env_ok Samples.clock Samples.valid_body]) /\
  field Samples.created_with_overflow (lit "order_amount")
    = Some (JNumber PosInfinity) /\
  Samples.obj [("payment_session_id"%string, Samples.str "session_a1b2c3");
               ("order_amount"%string, JNull)]
    <> Samples.created_with_overflow.
Proof. repeat split; try reflexivity. discriminate. Qed.

(** C7, amended: for a request that passes validation, when the gateway
    answers 2xx with a body that parses as JSON, the response is 200 and its
    body is that parsed value written as JSON again: a body in which every
    number is finite is forwarded as the same value; in any body, every
    member is forwarded under its name, written in its turn, and a member
    that is a string, as the payment session token is, is forwarded as the
    same string. *)
Theorem gateway_success_forwarded shortest_decimal env now gateway
    (req : Request) (b : json) (st : Z) (j : json) :
  str_eqb (req_method req) OPTIONS = false ->
  configured env = true -> req_body req = Some b -> accepted b = true ->
  gateway (order_request env now b) = Responded st (Some j) ->
  ok st = true ->
  exists forwarded,
    serve shortest_decimal env now gateway req
      = (Normal {| status := 200; body := Json forwarded |},
         [order_request env now b]) /\
    forwarded = stringify j /\
    (all_finite j = true -> forwarded = j) /\
    (forall k, field forwarded k = stringify_member (field j k)) /\
    (forall k token, field j k = Some (JString token) ->
       field forwarded k = Some (JString token)).
Proof.
  intros Hm Hc Hb Ha Hg Hok. exists (stringify j).
  rewrite (serve_eq _ _ _ _ _ Hm), (process_accepted _ _ _ _ _ b [] Hc Hb Ha).
  cbv zeta. rewrite Hg, Hok.
  split; [reflexivity |]. split; [reflexivity |].
  split; [apply stringify_finite |].
  split; [intros k; apply opt_get_stringify |].
  intros k token Hk. unfold field in *. now rewrite opt_get_stringify, Hk.
Qed.

Lemma gateway_success_forwarded_witness :
  accepted Samples.valid_body = true /\
  exists forwarded,
    serve Samples.no_fraction_printer Samples.env_ok Samples.clock
      Samples.gateway_created (post Samples.valid_body)
      = (Normal {| status := 200; body := Json forwarded |},
         [order_request Samples.env_ok Samples.clock Samples.valid_body]) /\
    field forwarded Planning.payment_session_id
    = Some (JString (lit "session_a1b2c3")).
Proof.
  split; [reflexivity |].
  destruct (gateway_success_forwarded Samples.no_fraction_printer
              Samples.env_ok Samples.clock Samples.gateway_created
              (post Samples.valid_body) Samples.valid_body 200 _
              eq_refl eq_refl eq_refl eq_refl eq_refl eq_refl)
    as (forwarded & Hrun & _ & _ & _ & Htoken).
  exists forwarded. split; [exact Hrun |].
  apply Htoken. reflexivity.
Defined.

(** The places where the body of the [try] block can throw. *)
Lemma fault_sources shortest_decimal env now (req : Request) (b : json)
    (sent : list OrderRequest) :
  configured env = true ->
  (req_body req = Some JNull ->
   forall gateway,
     process shortest_decimal env now gateway req sent
       = (Throw TypeError, sent)) /\
  (req_body req = Some b -> accepted b = true ->
   process shortest_decimal env now (fun _ => Rejected) req sent
     = (Throw NetworkError, sent ++ [order_request env now b]) /\
   (forall st,
      process shortest_decimal env now (fun _ => Responded st None) req sent
        = (Throw SyntaxError, sent ++ [order_request env now b])) /\
   (forall st, ok st = false ->
      process shortest_decimal env now
        (fun _ => Responded st (Some JNull)) req sent
        = (Throw TypeError, sent ++ [order_request env now b]))).
Proof.
  intros Hc. split.
  - intros Hb gateway. now apply process_null.
  - intros Hb Ha. repeat split; intros;
      rewrite (process_accepted _ _ _ _ _ b sent Hc Hb Ha); cbv zeta;
      try reflexivity.
    now rewrite H.
Qed.

(** Every response of the handler is a 200 or a structured error. *)
Lemma responses_are_structured shortest_decimal env now gateway
    (req : Request) (sent sent' : list OrderRequest) (r : Response) :
  handler shortest_decimal env now gateway req sent = (Normal r, sent') ->
  status r = 200%Z \/ is_error_response r.
Proof.
  assert (Herr : forall text st, (st = 400 \/ st = 500 \/ st = 502)%Z ->
            is_error_response (jsonResponse (error_object text) st))
    by (intros text st Hst; split; [exact Hst | now exists text]).
  destruct (str_eqb (req_method req) OPTIONS) eqn:Hm.
  { unfold handler. rewrite Hm. intros [= <- _]. now left. }
  rewrite (handler_catches _ _ _ _ _ _ Hm).
  assert (Hint : is_error_response internal_error) by (apply Herr; tauto).
  destruct (configured env) eqn:Hc.
  2: { rewrite process_unconfigured by assumption. intros [= <- _].
       right. apply Herr. tauto. }
  destruct (req_body req) as [b |] eqn:Hb.
  2: { rewrite process_unparseable by assumption. intros [= <- _].
       right. apply Herr. tauto. }
  assert (Hnull : b = JNull \/ b <> JNull)
    by (destruct b; [now left | right; discriminate ..]).
  destruct Hnull as [-> | Hn].
  { rewrite process_null by assumption. intros [= <- _]. now right. }
  destruct (accepted b) eqn:Ha.
  - rewrite (process_accepted _ _ _ _ _ b sent Hc Hb Ha). cbv zeta.
    destruct (gateway _) as [| st [j |]]; try (intros [= <- _]; now right).
    destruct (ok st); [intros [= <- _]; now left |].
    destruct (get (Some j) message_) as [m | e];
      [| intros [= <- _]; now right].
    destruct (if truthy m then _ else _); intros [= <- _]; right;
      [apply Herr; tauto | exact Hint].
  - rewrite (process_rejected _ _ _ _ _ b sent Hc Hb Hn Ha).
    intros [= <- _]. right.
    destruct (not_positive_number _); [apply Herr; tauto |].
    destruct (not_filled_string _); apply Herr; tauto.
Qed.

(** C8: the handler always ends with a response, never with a throw; when
    anything inside its [try] block throws, that response is the generic
    internal error, status 500 with body [{error: "An unexpected internal
    server error occurred."}]; and every response it gives is a 200 or a
    structured error with a body [{error: text}]. *)
Theorem faults_become_internal_error shortest_decimal env now gateway
    (req : Request) (sent : list OrderRequest) :
  (exists r sent',
     handler shortest_decimal env now gateway req sent = (Normal r, sent')) /\
  (str_eqb (req_method req) OPTIONS = false ->
   forall e sent',
     process shortest_decimal env now gateway req sent = (Throw e, sent') ->
     handler shortest_decimal env now gateway req sent
       = (Normal internal_error, sent')) /\
  (forall r sent',
     handler shortest_decimal env now gateway req sent = (Normal r, sent') ->
     status r = 200%Z \/ is_error_response r) /\
  status internal_error = 500%Z /\
  body internal_error
    = Json (error_object
              (lit "An unexpected internal server error occurred.")).
Proof.
  split; [| split; [| split; [| split; reflexivity]]].
  - destruct (str_eqb (req_method req) OPTIONS) eqn:Hm.
    + unfold handler. rewrite Hm. now eexists _, _.
    + rewrite (handler_catches _ _ _ _ _ _ Hm).
      destruct (process _ _ _ _ _ _) as [[r | e] sent']; now eexists _, _.
  - intros Hm e sent' Hp. now rewrite (handler_catches _ _ _ _ _ _ Hm), Hp.
  - intros r sent'. apply responses_are_structured.
Qed.

Lemma faults_become_internal_error_witness :
  process Samples.no_fraction_printer Samples.env_ok Samples.clock
    Samples.gateway_created (post JNull) [] = (Throw TypeError, []) /\
  handler Samples.no_fraction_printer Samples.env_ok Samples.clock
    Samples.gateway_created (post JNull) [] = (Normal internal_error, []).
Proof.
  split; [reflexivity |].
  apply (proj1 (proj2 (faults_become_internal_error
           Samples.no_fraction_printer Samples.env_ok Samples.clock
           Samples.gateway_created (post JNull) [])) eq_refl TypeError []).
  reflexivity.
Defined.

End CreateOrderFacts.

(** ** Correlation of gateway orders and ledger rows *)

Module CorrelationFacts.
Import JS Http Spec OrderSpec JSFacts.
Import CreateOrder.


Lemma make_order_id_no_match (now : Z) (cid : jsstring) :
  starts_with_digit cid = false ->
  match_order_id (make_order_id now cid) = None.
Proof.
  intros Hs. unfold match_order_id, make_order_id.
  rewrite strip_prefix_app.
  destruct cid as [| c r]; [reflexivity |].
  simpl in Hs. simpl. now rewrite Hs.
Qed.

(** Whatever the gateway answers, an accepted body makes the handler send it
    exactly one request, the one built from the body. *)
Lemma accepted_sends_once shortest_decimal env now gateway (req : Request)
    (b : json) :
  str_eqb (req_method req) OPTIONS = false ->
  configured env = true -> req_body req = Some b -> accepted b = true ->
  snd (serve shortest_decimal env now gateway req) = [order_request env now b].
Proof.
  intros Hm Hc Hb Ha.
  rewrite (CreateOrderFacts.serve_eq _ _ _ _ _ Hm),
    (CreateOrderFacts.process_accepted _ _ _ _ _ b [] Hc Hb Ha).
  cbv zeta.
  destruct (gateway _) as [| st [j |]]; try reflexivity.
  destruct (ok st); [reflexivity |].
  destruct (get (Some j) message_) as [m | e]; [| reflexivity].
  destruct (if truthy m then _ else _); reflexivity.
Qed.




(** C10 as stated fails in its first clause: a contribution id of one space
    is not empty, and the handler rejects it without calling the gateway. *)
Lemma blank_id_is_rejected :
  lit " " <> [] /\
  field Samples.blank_id_body contribution_id_ = Some (JString (lit " ")) /\
  not_positive_number (field Samples.blank_id_body amount_) = false /\
  not_filled_string (field Samples.blank_id_body contributor_) = false /\
  serve Samples.no_fraction_printer Samples.env_ok Samples.clock
    Samples.gateway_created (post Samples.blank_id_body)
    = (Normal invalid_contribution_id, []).
Proof. repeat split; try reflexivity. discriminate. Qed.

(** C10, amended: the order handler accepts any contribution id that is a
    string with something other than white space in it, digits or not, and
    sends the gateway an order id built from it; for every contribution id
    whose first character is not a digit that order id never matches the
    webhook's pattern, and no delivery carrying it changes the ledger or asks
    the store for an update, however the delivery ends. *)
Theorem non_digit_id_never_reconciled :
  (forall shortest_decimal env now gateway (req : Request) (b : json)
          (cid : jsstring),
     str_eqb (req_method req) OPTIONS = false ->
     configured env = true -> req_body req = Some b ->
     not_positive_number (field b amount_) = false ->
     not_filled_string (field b contributor_) = false ->
     field b contribution_id_ = Some (JString cid) ->
     trim cid <> [] ->
     snd (serve shortest_decimal env now gateway req)
       = [order_request env now b] /\
     order_id (order_request env now b) = make_order_id now cid) /\
  (forall (now : Z) (cid : jsstring),
     starts_with_digit cid = false ->
     match_order_id (make_order_id now cid) = None) /\
  (forall shortest_decimal (now : Z) (cid : jsstring) (store_error : bool)
          (payload : json) (ledger : gmap Z Ledger.Contribution),
     starts_with_digit cid = false ->
     payload_order_id payload = Some (JString (make_order_id now cid)) ->
     snd (Webhook.deliver shortest_decimal store_error (post payload) ledger)
       = {| Webhook.rows := ledger; Webhook.updates := [] |}).
Proof.
  split; [| split].
  - intros sd env now gateway req b cid Hm Hc Hb H1 H2 H3 Ht.
    assert (Ha : accepted b = true).
    { unfold accepted. rewrite H1, H2, H3. cbn [not_filled_string].
      apply str_eqb_false in Ht. now rewrite Ht. }
    split; [now apply accepted_sends_once |].
    unfold order_request, contribution_id_text. cbn [order_id]. now rewrite H3.
  - exact make_order_id_no_match.
  - intros sd now cid se payload ledger Hs Ho.
    exact (WebhookFacts.unmatched_world sd se payload _ ledger Ho
             (make_order_id_no_match now cid Hs)).
Qed.

Lemma non_digit_id_never_reconciled_witness :
  snd (serve Samples.no_fraction_printer Samples.env_ok Samples.clock
         Samples.gateway_created (post Samples.named_id_body))
    = [order_request Samples.env_ok Samples.clock Samples.named_id_body] /\
  match_order_id (make_order_id Samples.clock (lit "abc")) = None /\
  snd (Webhook.deliver Samples.no_fraction_printer false
         (post (Samples.notification
                  (JString (make_order_id Samples.clock (lit "abc")))
                  (Samples.str "SUCCESS")))
         Samples.ledger42)
    = {| Webhook.rows := Samples.ledger42; Webhook.updates := [] |}.
Proof.
  destruct non_digit_id_never_reconciled as (Hacc & Hno & Hdel).
  split; [| split].
  - refine (proj1 (Hacc Samples.no_fraction_printer Samples.env_ok
                     Samples.clock Samples.gateway_created
                     (post Samples.named_id_body) Samples.named_id_body
                     (lit "abc") eq_refl eq_refl eq_refl eq_refl eq_refl
                     eq_refl _)).
    discriminate.
  - apply Hno. reflexivity.
  - apply (Hdel _ Samples.clock (lit "abc")); reflexivity.
Defined.

End CorrelationFacts.

(** ** Contribution client flow *)

Module PlanningFacts.
Import JS Planning FlowSpec.
Local Open Scope js_scope.

Lemma try_catch_finally_events {A} (m : M State A) (h : error -> M State A)
    (f : M State unit) (s : State) :
  (forall e s', events (snd (h e s')) = events s') ->
  (forall s', events (snd (f s')) = events s') ->
  events (snd (try_catch_finally m h f s)) = events (snd (m s)).
Proof.
  intros Hh Hf. unfold try_catch_finally.
  destruct (m s) as [[a | e] s1]; cbn [snd].
  - specialize (Hf s1). destruct (f s1) as [[u | e'] s2]; exact Hf.
  - specialize (Hh e s1).
    assert (Hgen : events (snd
              (let (r, s'') := h e s1 in
               match f s'' with
               | (Normal _, s3) => (r, s3)
               | (Throw e', s3) => (Throw e', s3)
               end)) = events s1).
    { destruct (h e s1) as [r s2]. cbn [snd] in Hh.
      specialize (Hf s2). destruct (f s2) as [[u | e'] s3]; cbn [snd] in *;
        congruence. }
    destruct e; try exact Hgen; try reflexivity;
      destruct (h _ s1) as [[a | []] s2]; try exact Hgen; exact Hh.
Qed.

Section Trace.

Variable shortest_decimal : Q -> jsstring.
Variable to_number : jsstring -> number.
Variable services : Services.
Variable contributor_field : jsstring.
Variable amount_field : jsstring.

Local Abbreviation steps :=
  (pay_online_steps shortest_decimal to_number services contributor_field
     amount_field).
Local Abbreviation row :=
  (pending_row to_number contributor_field amount_field).
Local Abbreviation the_body :=
  (invoke_body shortest_decimal to_number services contributor_field
     amount_field).

(** The events of the three steps, after those already there. *)
Lemma steps_events (s : State) :
  events (snd (steps s)) =
    events s ++
    Insert row ::
    match the_body with
    | None => []
    | Some body =>
        Invoke body ::
        match session_token services body with
        | None => []
        | Some session => [Checkout session]
        end
    end.
Proof.
  unfold pay_online_steps, invoke_body, session_token.
  fold row. unfold bind, eval, emit, throw, ret. cbn [snd fst].
  destruct (truthy (insert_error (insert_row services row))); [reflexivity |].
  destruct (get (insert_data (insert_row services row)) id_) as [new_id | e];
    [| reflexivity].
  destruct (value_to_string shortest_decimal new_id) as [id_text | e];
    [| reflexivity].
  cbn [events loading error_shown].
  set (body := {| amount := _; contributor := _; contribution_id := _ |}).
  destruct (function_error (invoke_function services body)) as [fe |].
  { destruct (detailed_error shortest_decimal fe); cbn [snd events];
      now rewrite <- app_assoc. }
  destruct (truthy (opt_get _ payment_session_id)); cbn [negb andb];
    [| cbn [snd events]; now rewrite <- app_assoc].
  destruct (cashfree_loaded services); cbn [negb];
    [| cbn [snd events]; now rewrite <- app_assoc].
  cbn [events loading error_shown].
  destruct (checkout services _) as [| result | e]; cbn [snd events];
    try (now rewrite <- !app_assoc).
  destruct (truthy (opt_get result error_));
    [| cbn [snd events]; now rewrite <- !app_assoc].
  destruct (get (opt_get result error_) message_) as [detail | e];
    [| cbn [snd events]; now rewrite <- !app_assoc].
  destruct (value_to_string shortest_decimal detail);
    cbn [snd events]; now rewrite <- !app_assoc.
Qed.

(** The events of a click are those read off the three steps. *)
Lemma click_events :
  events (snd (click shortest_decimal to_number services contributor_field
                 amount_field))
  = expected_events shortest_decimal to_number services contributor_field
      amount_field.
Proof.
  unfold click, handlePayOnline, validateForm, expected_events, form_valid.
  unfold bind at 1. unfold bind at 1. unfold setError at 1. cbn [fst snd].
  destruct (str_eqb (trim contributor_field) [] || str_eqb amount_field []
            || isNaN (to_number amount_field)
            || num_le_zero (to_number amount_field)); cbn [negb].
  - reflexivity.
  - unfold bind, ret, setLoading, setError. cbn [negb events loading].
    rewrite try_catch_finally_events; [| reflexivity ..].
    now rewrite steps_events.
Qed.

End Trace.

Lemma invoke_body_Some shortest_decimal to_number services cf af
    (body : InvokeBody) :
  invoke_body shortest_decimal to_number services cf af = Some body ->
  let inserted := insert_row services (pending_row to_number cf af) in
  truthy (insert_error inserted) = false /\
  exists new_id,
    get (insert_data inserted) id_ = Normal new_id /\
    value_to_string shortest_decimal new_id = Normal (contribution_id body).
Proof.
  unfold invoke_body. cbv zeta.
  destruct (truthy (insert_error _)); [discriminate |].
  destruct (get _ id_) as [new_id | e]; [| discriminate].
  destruct (value_to_string shortest_decimal new_id) as [id_text | e] eqn:Hs;
    [| discriminate].
  intros [= <-]. split; [reflexivity |]. exists new_id. now split.
Qed.

Lemma session_token_Some services (body : InvokeBody) (session : value) :
  session_token services body = Some session ->
  function_error (invoke_function services body) = None /\
  session = opt_get (function_data (invoke_function services body))
              payment_session_id /\
  truthy session = true /\
  cashfree_loaded services = true.
Proof.
  unfold session_token. cbv zeta.
  destruct (function_error _); [discriminate |].
  destruct (truthy (opt_get _ payment_session_id)) eqn:Ht; [| discriminate].
  destruct (cashfree_loaded services); [| discriminate].
  intros [= <-]. now repeat split.
Qed.

(** C9: in one run of the online-payment flow the pending row is inserted
    before the order function is invoked, and the function is invoked with
    the identifier of the row the insert returned; when the insert fails the
    function is not invoked; when the invocation fails or returns no session
    token the checkout is not attempted; a checkout, when there is one, comes
    last and carries the token the function returned. *)
Theorem pay_online_sequence shortest_decimal to_number services
    (contributor_field amount_field : jsstring) :
  let trace :=
    events (snd (click shortest_decimal to_number services contributor_field
                   amount_field)) in
  (forall body, List.In (Invoke body) trace ->
     exists row new_id rest,
       trace = Insert row :: Invoke body :: rest /\
       row_method row = Ledger.online /\
       row_status row = Ledger.pending /\
       truthy (insert_error (insert_row services row)) = false /\
       get (insert_data (insert_row services row)) id_ = Normal new_id /\
       value_to_string shortest_decimal new_id
         = Normal (contribution_id body)) /\
  (forall row, List.In (Insert row) trace ->
     truthy (insert_error (insert_row services row)) = true ->
     forall body, ~ List.In (Invoke body) trace) /\
  (forall body, List.In (Invoke body) trace ->
     function_error (invoke_function services body) <> None \/
     truthy (opt_get (function_data (invoke_function services body))
               payment_session_id) = false ->
     forall session, ~ List.In (Checkout session) trace) /\
  (forall session, List.In (Checkout session) trace ->
     exists row body,
       trace = [Insert row; Invoke body; Checkout session] /\
       session = opt_get (function_data (invoke_function services body))
                   payment_session_id).
Proof.
  cbv zeta. rewrite click_events. unfold expected_events.
  destruct (form_valid to_number contributor_field amount_field).
  2: { repeat split; intros; try contradiction. }
  destruct (invoke_body _ _ _ _ _) as [b0 |] eqn:Hb.
  2: { repeat split; cbn [List.In]; intros; intuition discriminate. }
  destruct (invoke_body_Some _ _ _ _ _ _ Hb) as (Hins & new_id & Hid & Hstr).
  destruct (session_token services b0) as [s0 |] eqn:Hs.
  - destruct (session_token_Some _ _ _ Hs) as (Hfe & Hs0 & Htr & _).
    split; [| split; [| split]]; cbn [List.In].
    + intros body [H | [[= <-] | [H | []]]]; try discriminate.
      now eexists _, new_id, _.
    + intros row [[= <-] | [H | [H | []]]]; try discriminate. congruence.
    + intros body [H | [[= <-] | [H | []]]]; try discriminate.
      intros [Hne | Hf]; [contradiction | congruence].
    + intros session [H | [H | [[= <-] | []]]]; try discriminate.
      now eexists _, _.
  - split; [| split; [| split]]; cbn [List.In].
    + intros body [H | [[= <-] | []]]; try discriminate.
      now eexists _, new_id, _.
    + intros row [[= <-] | [H | []]]; try discriminate. congruence.
    + intros body _ _ session [H | [H | []]]; discriminate.
    + intros session [H | [H | []]]; discriminate.
Qed.

Lemma pay_online_sequence_witness :
  events (snd (click Samples.no_fraction_printer Samples.digits_to_number
                 Samples.services_up (lit "Asha") (lit "500")))
  = [Insert {| row_contributor := lit "Asha"; row_amount := Finite 500;
               row_method := Ledger.online; row_status := Ledger.pending |};
     Invoke {| amount := Finite 500; contributor := lit "Asha";
               contribution_id := lit "42" |};
     Checkout (Some (JString (lit "session_a1b2c3")))] /\
  (forall body,
     ~ List.In (Invoke body)
         (events (snd (click Samples.no_fraction_printer
                         Samples.digits_to_number
                         Samples.services_store_down (lit "Asha")
                         (lit "500"))))).
Proof.
  split.
  - destruct (proj2 (proj2 (proj2
      (pay_online_sequence Samples.no_fraction_printer
         Samples.digits_to_number Samples.services_up (lit "Asha")
         (lit "500"))))
      (Some (JString (lit "session_a1b2c3"))))
      as (row & body & Htrace & _).
    + vm_compute. right. right. left. reflexivity.
    + reflexivity.
  - apply (proj1 (proj2
      (pay_online_sequence Samples.no_fraction_printer
         Samples.digits_to_number Samples.services_store_down (lit "Asha")
         (lit "500")))
      {| row_contributor := lit "Asha"; row_amount := Finite 500;
         row_method := Ledger.online; row_status := Ledger.pending |}).
    + vm_compute. left. reflexivity.
    + reflexivity.
Defined.

End PlanningFacts.

(** ** Payment webhook handler: what it does to the ledger *)

Module WebhookMore.
Import JS Http Webhook Spec DeliverySpec JSFacts WebhookFacts.

Section Run.

Variable shortest_decimal : Q -> jsstring.

Local Abbreviation handler := (Webhook.handler shortest_decimal).
Local Abbreviation deliver := (Webhook.deliver shortest_decimal).
Local Abbreviation deliver_all := (DeliverySpec.deliver_all shortest_decimal).

(** The world after a run of the handler, whatever the request and however
    the run ends. *)
Lemma handler_world (store_error : bool) (req : Request) (w : World) :
  snd (handler store_error req w) =
    match requested_update req with
    | None => w
    | Some n =>
        {| rows := if store_error then rows w
                   else Ledger.update_success n (rows w);
           updates := updates w ++ [n] |}
    end.
Proof.
  unfold requested_update.
  destruct (str_eqb (req_method req) OPTIONS) eqn:Hm.
  { unfold Webhook.handler. now rewrite Hm. }
  destruct (req_body req) as [payload |] eqn:Hb.
  2: { unfold Webhook.handler. now rewrite Hm, Hb. }
  assert (Hnull : payload = JNull \/ payload <> JNull)
    by (destruct payload; [now left | right; discriminate ..]).
  destruct Hnull as [-> | Hp].
  { unfold Webhook.handler. now rewrite Hm, Hb. }
  rewrite (handler_payload shortest_decimal store_error req payload w Hm Hb Hp).
  destruct (is_test_event payload) eqn:Ht; [reflexivity |].
  destruct (payload_order_id payload) as [[| | | oid | |] |] eqn:Ho;
    cbn [call_match];
    try (destruct (negb _ || negb _);
         [| destruct (Webhook.log_received _ _ _)]; reflexivity).
  destruct (match_order_id oid) as [capture |] eqn:Hmatch.
  2: { destruct (negb _ || negb _);
         [| destruct (Webhook.log_received _ _ _)]; reflexivity. }
  rewrite (matching_order_id_truthy _ _ Hmatch). cbn [negb orb].
  destruct (is_string (payload_payment_status payload) SUCCESS) eqn:Hs.
  - assert (Hps : payload_payment_status payload = Some (JString SUCCESS)).
    { unfold is_string in Hs.
      destruct (payload_payment_status payload) as [[| | | s | |] |];
        try discriminate.
      apply str_eqb_true in Hs. now subst. }
    rewrite Hps. now destruct store_error.
  - destruct (negb _); [reflexivity |].
    now destruct (Webhook.log_received _ _ _).
Qed.

Lemma deliver_rows (store_error : bool) (req : Request)
    (ledger : gmap Z Ledger.Contribution) :
  rows (snd (deliver store_error req ledger)) =
    match requested_update req with
    | Some n => if store_error then ledger
                else Ledger.update_success n ledger
    | None => ledger
    end.
Proof.
  unfold Webhook.deliver. rewrite handler_world.
  now destruct (requested_update req).
Qed.

Lemma requested_update_Some (req : Request) (n : number) :
  requested_update req = Some n <->
  exists payload oid capture,
    str_eqb (req_method req) OPTIONS = false /\
    req_body req = Some payload /\
    is_test_event payload = false /\
    payload_order_id payload = Some (JString oid) /\
    match_order_id oid = Some capture /\
    payload_payment_status payload = Some (JString SUCCESS) /\
    n = parseInt capture.
Proof.
  unfold requested_update. split.
  - destruct (str_eqb (req_method req) OPTIONS) eqn:Hm; [discriminate |].
    destruct (req_body req) as [payload |] eqn:Hb; [| discriminate].
    destruct (is_test_event payload) eqn:Ht; [discriminate |].
    destruct (payload_order_id payload) as [[| | | oid | |] |] eqn:Ho;
      try discriminate.
    destruct (match_order_id oid) as [capture |] eqn:Hmatch; [| discriminate].
    destruct (payload_payment_status payload) as [[| | | s | |] |] eqn:Hs;
      try discriminate.
    cbn [is_string]. destruct (str_eqb s SUCCESS) eqn:E; [| discriminate].
    apply str_eqb_true in E. subst s. intros [= <-].
    exists payload, oid, capture. repeat split; assumption.
  - intros (payload & oid & capture & -> & -> & -> & -> & -> & -> & ->).
    reflexivity.
Qed.

Lemma ledger_advanced_refl (l : gmap Z Ledger.Contribution) :
  ledger_advanced l l.
Proof.
  intros k. destruct (l !! k); [| exact I]. unfold row_advanced. tauto.
Qed.

Lemma ledger_advanced_trans (a b c : gmap Z Ledger.Contribution) :
  ledger_advanced a b -> ledger_advanced b c -> ledger_advanced a c.
Proof.
  intros Hab Hbc k. specialize (Hab k). specialize (Hbc k).
  destruct (a !! k) as [ra |], (b !! k) as [rb |], (c !! k) as [rc |];
    try contradiction; try exact I.
  destruct Hab as (H1 & H2 & H3 & H4), Hbc as (H1' & H2' & H3' & H4').
  unfold row_advanced. repeat split; try congruence.
  destruct H4' as [H4' | H4']; [| now right].
  destruct H4 as [H4 | H4]; [left | right]; congruence.
Qed.

Lemma update_success_advanced (n : number) (l : gmap Z Ledger.Contribution) :
  ledger_advanced l (Ledger.update_success n l).
Proof.
  intros k. rewrite update_success_lookup.
  case_decide; destruct (l !! k) as [r |]; cbn; try exact I;
    unfold row_advanced; cbn; tauto.
Qed.

Lemma deliver_advanced (store_error : bool) (req : Request)
    (ledger : gmap Z Ledger.Contribution) :
  ledger_advanced ledger (rows (snd (deliver store_error req ledger))).
Proof.
  rewrite deliver_rows. destruct (requested_update req) as [n |];
    [destruct store_error |];
    auto using ledger_advanced_refl, update_success_advanced.
Qed.

Lemma deliver_all_advanced (deliveries : list (bool * Request))
    (ledger : gmap Z Ledger.Contribution) :
  ledger_advanced ledger (deliver_all deliveries ledger).
Proof.
  revert ledger. induction deliveries as [| [se req] later IH]; intros ledger.
  - apply ledger_advanced_refl.
  - cbn [DeliverySpec.deliver_all].
    eapply ledger_advanced_trans; [apply deliver_advanced | apply IH].
Qed.

Lemma update_success_comm (n m : number) (l : gmap Z Ledger.Contribution) :
  Ledger.update_success n (Ledger.update_success m l)
  = Ledger.update_success m (Ledger.update_success n l).
Proof.
  apply map_eq. intros k. rewrite !update_success_lookup.
  repeat case_decide; reflexivity.
Qed.

End Run.

(** X1: whatever is delivered, in whatever order and however often, and
    whether the store fails or not, the ledger keeps exactly its rows, each
    with its contributor, amount and method; a row's status stays as it was
    or becomes success, and a row in success stays in success. *)
Theorem deliveries_only_advance (shortest_decimal : Q -> jsstring)
    (deliveries : list (bool * Request))
    (ledger : gmap Z Ledger.Contribution) (k : Z) :
  match ledger !! k with
  | None => deliver_all shortest_decimal deliveries ledger !! k = None
  | Some row =>
      exists row',
        deliver_all shortest_decimal deliveries ledger !! k = Some row' /\
        Ledger.contributor row' = Ledger.contributor row /\
        Ledger.amount row' = Ledger.amount row /\
        Ledger.method row' = Ledger.method row /\
        (Ledger.status row' = Ledger.status row
         \/ Ledger.status row' = Ledger.success) /\
        (Ledger.status row = Ledger.success ->
         Ledger.status row' = Ledger.success)
  end.
Proof.
  pose proof (deliver_all_advanced shortest_decimal deliveries ledger k) as H.
  destruct (ledger !! k) as [row |],
    (deliver_all shortest_decimal deliveries ledger !! k) as [row' |];
    try contradiction; [| reflexivity].
  destruct H as (H1 & H2 & H3 & H4). exists row'.
  repeat split; try assumption.
  intros Hs. destruct H4 as [H4 | H4]; congruence.
Qed.

(** X2: two deliveries leave the same ledger in either order. *)
Theorem deliveries_commute (shortest_decimal : Q -> jsstring)
    (first second : bool * Request)
    (ledger : gmap Z Ledger.Contribution) :
  deliver_all shortest_decimal [first; second] ledger
  = deliver_all shortest_decimal [second; first] ledger.
Proof.
  destruct first as [se1 req1], second as [se2 req2].
  cbn [deliver_all]. rewrite !deliver_rows.
  destruct (requested_update req1) as [n |],
    (requested_update req2) as [m |], se1, se2;
    try reflexivity.
  apply update_success_comm.
Qed.

(** X3: one delivery asks the store for at most one update, and it asks for
    one exactly when the request is no preflight, its body parses, the
    payload is no connectivity test, its order id is a string matching the
    pattern and its payment status is the string SUCCESS; the update is
    filtered by [parseInt] of the captured digits. *)
Theorem update_asked_iff (shortest_decimal : Q -> jsstring)
    (store_error : bool) (req : Request)
    (ledger : gmap Z Ledger.Contribution) :
  (updates (snd (deliver shortest_decimal store_error req ledger)) = [] \/
   exists n,
     updates (snd (deliver shortest_decimal store_error req ledger)) = [n]) /\
  forall n,
    updates (snd (deliver shortest_decimal store_error req ledger)) = [n] <->
    exists payload oid capture,
      str_eqb (req_method req) OPTIONS = false /\
      req_body req = Some payload /\
      is_test_event payload = false /\
      payload_order_id payload = Some (JString oid) /\
      match_order_id oid = Some capture /\
      payload_payment_status payload = Some (JString SUCCESS) /\
      n = parseInt capture.
Proof.
  assert (E : updates (snd (deliver shortest_decimal store_error req ledger)) =
              match requested_update req with Some n => [n] | None => [] end).
  { unfold deliver. rewrite handler_world.
    now destruct (requested_update req). }
  rewrite E. split.
  - destruct (requested_update req) as [n |]; [right; now exists n | now left].
  - intros n. rewrite <- requested_update_Some.
    destruct (requested_update req) as [m |]; split; congruence.
Qed.

(** X4: when the store fails the update of a success notification, the
    handler still answers 200, with the body [Database update failed], and
    the ledger is untouched; the same notification delivered again once the
    store is back sets the row, as if the failed delivery had not been. *)
Theorem store_failure_then_retry (shortest_decimal : Q -> jsstring)
    (payload : json) (oid capture : jsstring)
    (ledger : gmap Z Ledger.Contribution) :
  is_test_event payload = false ->
  payload_order_id payload = Some (JString oid) ->
  match_order_id oid = Some capture ->
  payload_payment_status payload = Some (JString SUCCESS) ->
  deliver shortest_decimal true (post payload) ledger
    = (Normal (textResponse "Database update failed" 200),
       {| rows := ledger; updates := [parseInt capture] |}) /\
  deliver_all shortest_decimal
    [(true, post payload); (false, post payload)] ledger
    = Ledger.update_success (parseInt capture) ledger.
Proof.
  intros Ht Ho Hm Hs.
  pose proof (fun se w =>
                success_run shortest_decimal se payload oid capture w
                  Ht Ho Hm Hs) as E.
  split.
  - unfold deliver. now rewrite E.
  - cbn [deliver_all]. unfold deliver.
    rewrite E. cbn [snd rows]. now rewrite E.
Qed.

Lemma store_failure_then_retry_witness :
  is_test_event Samples.success_payload = false /\
  row_status
    (deliver_all Samples.no_fraction_printer
       [(true, post Samples.success_payload);
        (false, post Samples.success_payload)] Samples.ledger42) 42
  = Some Ledger.success.
Proof.
  split; [reflexivity |].
  rewrite (proj2 (store_failure_then_retry Samples.no_fraction_printer
                    Samples.success_payload
                    (lit "order_42_1700000000000") (lit "42")
                    Samples.ledger42 eq_refl eq_refl eq_refl eq_refl)).
  reflexivity.
Defined.

(** X5: the pattern [/^order_(\d+)_/] matches exactly the strings made of
    [order_], one or more digits, an underscore and anything after it, and
    the capture is that run of digits; whatever follows the underscore plays
    no part. *)
Theorem order_pattern_language (s : jsstring) :
  (forall d, match_order_id s = Some d <->
     d <> [] /\ all_digits d = true /\
     exists rest, s = order_ ++ d ++ underscore :: rest) /\
  (match_order_id s = None <->
     ~ exists d rest, d <> [] /\ all_digits d = true /\
                      s = order_ ++ d ++ underscore :: rest).
Proof.
  split; [intros d; apply match_order_id_Some | apply match_order_id_None].
Qed.

(** X6: a connectivity test of the gateway is acknowledged with status 200
    and body [{status: "acknowledged"}], whatever else the payload carries;
    nothing is asked of the store and the ledger is untouched. *)
Theorem connectivity_test_acknowledged (shortest_decimal : Q -> jsstring)
    (store_error : bool) (payload : json)
    (ledger : gmap Z Ledger.Contribution) :
  is_test_event payload = true ->
  deliver shortest_decimal store_error (post payload) ledger
    = (Normal acknowledged, {| rows := ledger; updates := [] |}) /\
  status acknowledged = 200%Z.
Proof.
  intros Ht.
  assert (Hp : payload <> JNull) by (intros ->; discriminate).
  unfold deliver.
  rewrite (handler_payload shortest_decimal store_error (post payload)
             payload _ post_not_options eq_refl Hp), Ht.
  now split.
Qed.

Lemma connectivity_test_acknowledged_witness :
  is_test_event MoreSamples.connectivity_test = true /\
  deliver Samples.no_fraction_printer false
    (post MoreSamples.connectivity_test) Samples.ledger42
    = (Normal acknowledged, {| rows := Samples.ledger42; updates := [] |}).
Proof.
  split; [reflexivity |].
  apply (connectivity_test_acknowledged Samples.no_fraction_printer false
           MoreSamples.connectivity_test Samples.ledger42 eq_refl).
Defined.

(** X22: delivering one request twice leaves the ledger as one delivery
    does: unchanged when the store failed both times, and as a single
    delivery with the store up as soon as the store carried one of the two
    out. *)
Theorem redelivery_changes_nothing (shortest_decimal : Q -> jsstring)
    (first_failed second_failed : bool)
    (req : Request) (ledger : gmap Z Ledger.Contribution) :
  deliver_all shortest_decimal
    [(first_failed, req); (second_failed, req)] ledger
  = deliver_all shortest_decimal [(first_failed && second_failed, req)] ledger.
Proof.
  cbn [deliver_all]. rewrite !deliver_rows.
  destruct (requested_update req) as [n |]; [| reflexivity].
  destruct first_failed, second_failed; cbn [andb]; try reflexivity.
  apply update_success_idempotent.
Qed.

End WebhookMore.

(** ** Order request handler: when and what it sends *)

Module CreateOrderMore.
Import JS Http CreateOrder Spec OrderSpec JSFacts CreateOrderFacts.

Lemma trim_start_nil (s : jsstring) :
  trim_start s = [] <-> forallb is_whitespace s = true.
Proof.
  induction s as [| c s IH]; simpl; [tauto |].
  destruct (is_whitespace c); simpl; [exact IH |].
  split; discriminate.
Qed.

Lemma trim_start_snoc (s : jsstring) (c : N) :
  is_whitespace c = false -> trim_start (s ++ [c]) <> [].
Proof.
  intros Hc. induction s as [| x s IH]; simpl.
  - now rewrite Hc.
  - destruct (is_whitespace x); [exact IH | discriminate].
Qed.

(** [s.trim()] is empty exactly when [s] is made of white space only. *)
Lemma trim_nil (s : jsstring) :
  trim s = [] <-> forallb is_whitespace s = true.
Proof.
  rewrite <- trim_start_nil. unfold trim, trim_end. split.
  - intros H. destruct (trim_start s) as [| c r] eqn:E; [reflexivity |].
    exfalso.
    assert (Hc : is_whitespace c = false).
    { destruct s as [| x s']; [discriminate |].
      revert E. clear. revert x. induction s' as [| y s' IH]; intros x; simpl.
      - destruct (is_whitespace x) eqn:Hx; [discriminate |].
        now intros [= <- _].
      - destruct (is_whitespace x) eqn:Hx; [apply IH |].
        now intros [= <- _]. }
    apply (f_equal (@rev N)) in H. rewrite rev_involutive in H.
    revert H. cbn [rev].
    destruct (list_eq_nil_dec (rev r)) as [Er | Er].
    + rewrite Er. cbn. now rewrite Hc.
    + intros H. apply (trim_start_snoc (rev r) c Hc). exact H.
  - intros ->. reflexivity.
Qed.

Lemma serve_options shortest_decimal env now gateway (req : Request) :
  str_eqb (req_method req) OPTIONS = true ->
  serve shortest_decimal env now gateway req
    = (Normal (textResponse "ok" 200), []).
Proof. intros Hm. unfold serve, handler. now rewrite Hm. Qed.

(** The requests a run sends to the gateway. *)
Lemma serve_sent shortest_decimal env now gateway (req : Request) :
  snd (serve shortest_decimal env now gateway req) =
    if negb (str_eqb (req_method req) OPTIONS) && configured env
    then match req_body req with
         | Some b => if accepted b then [order_request env now b] else []
         | None => []
         end
    else [].
Proof.
  destruct (str_eqb (req_method req) OPTIONS) eqn:Hm; cbn [negb andb].
  { now rewrite serve_options. }
  rewrite (serve_eq _ _ _ _ _ Hm).
  destruct (configured env) eqn:Hc.
  2: { now rewrite process_unconfigured. }
  destruct (req_body req) as [b |] eqn:Hb.
  2: { now rewrite process_unparseable. }
  destruct (accepted b) eqn:Ha.
  - rewrite <- (serve_eq _ _ _ _ _ Hm).
    now apply CorrelationFacts.accepted_sends_once.
  - assert (Hnull : b = JNull \/ b <> JNull)
      by (destruct b; [now left | right; discriminate ..]).
    destruct Hnull as [-> | Hn].
    + now rewrite process_null.
    + now rewrite (process_rejected _ _ _ _ _ b [] Hc Hb Hn Ha).
Qed.

Lemma not_missing (v : option jsstring) :
  missing v = false -> text_of v <> [] /\ v = Some (text_of v).
Proof.
  destruct v as [s |]; [| discriminate]. cbn. intros H.
  apply str_eqb_false in H. now split.
Qed.

Lemma configured_true (env : Env) :
  configured env = true ->
  missing (CASHFREE_APP_ID env) = false /\
  missing (CASHFREE_SECRET_KEY env) = false /\
  missing (CASHFREE_API_URL env) = false /\
  missing (APP_URL env) = false.
Proof.
  unfold configured. intros H. apply negb_true_iff in H.
  repeat (apply orb_false_iff in H as [H ?]). now repeat split.
Qed.

Lemma not_filled_string_false (v : value) :
  not_filled_string v = false <->
  exists s, v = Some (JString s) /\ trim s <> [].
Proof.
  split.
  - destruct v as [[| | | s | |] |]; try discriminate. cbn.
    intros H. apply str_eqb_false in H. now exists s.
  - intros (s & -> & H). cbn. now apply str_eqb_false.
Qed.

(** X7: the handler calls the gateway at most once per request, never a
    second time whatever the gateway answers, and it calls it exactly when
    the request is no preflight, all four configuration variables are set and
    the body passes the three checks. *)
Theorem gateway_called_iff shortest_decimal env now gateway (req : Request) :
  (snd (serve shortest_decimal env now gateway req) = [] \/
   exists b, req_body req = Some b /\
     snd (serve shortest_decimal env now gateway req)
       = [order_request env now b]) /\
  (snd (serve shortest_decimal env now gateway req) <> [] <->
   str_eqb (req_method req) OPTIONS = false /\
   configured env = true /\
   exists b, req_body req = Some b /\ accepted b = true).
Proof.
  rewrite serve_sent.
  destruct (str_eqb (req_method req) OPTIONS), (configured env);
    cbn [negb andb];
    try (split; [now left | split; [congruence | intros (? & ? & _); discriminate]]).
  destruct (req_body req) as [b |].
  2: { split; [now left |].
       split; [congruence | intros (_ & _ & b & Hb & _); discriminate]. }
  destruct (accepted b) eqn:Ha.
  - split; [right; now exists b |].
    split; [intros _; repeat split; now exists b | discriminate].
  - split; [now left |].
    split; [congruence | intros (_ & _ & b' & [= <-] & Hb); congruence].
Qed.

(** X8: every order the handler sends to the gateway carries non-empty
    credentials and URL taken from the configuration; as amount the amount
    of the request, a finite number above zero, or [null] when that amount
    is a number that is not finite, which passes the check [amount <= 0] and
    which [JSON.stringify] writes [null]; the currency INR, a customer name
    and a contribution id that are strings with more than white space in
    them, the order id [order_<contribution_id>_<now>], the customer id
    [user_<contribution_id>], the placeholder phone number and the return
    URL under the configured application URL. *)
Theorem sent_orders_well_formed shortest_decimal env now gateway
    (req : Request) (r : OrderRequest) :
  List.In r (snd (serve shortest_decimal env now gateway req)) ->
  (url r <> [] /\ CASHFREE_API_URL env = Some (url r)) /\
  (x_client_id r <> [] /\ CASHFREE_APP_ID env = Some (x_client_id r)) /\
  (x_client_secret r <> []
   /\ CASHFREE_SECRET_KEY env = Some (x_client_secret r)) /\
  (exists b n, req_body req = Some b /\ field b amount_ = Some (JNumber n) /\
     ((exists q, n = Finite q /\ (0 < q)%Q /\
                 order_amount r = Some (JNumber (Finite q)))
      \/ ((n = PosInfinity \/ n = NaN) /\ order_amount r = Some JNull))) /\
  order_currency r = lit "INR" /\
  (exists name, customer_name r = Some (JString name) /\ trim name <> []) /\
  (exists cid, trim cid <> [] /\
     order_id r = make_order_id now cid /\ customer_id r = user_ ++ cid) /\
  customer_phone r = lit "9999999999" /\
  (exists appUrl, APP_URL env = Some appUrl /\ appUrl <> [] /\
     return_url r = appUrl ++ lit "/payment-status?order_id={order_id}").
Proof.
  rewrite serve_sent.
  destruct (negb _ && configured env) eqn:Hc; [| contradiction].
  apply andb_true_iff in Hc as [_ Hc].
  destruct (req_body req) as [b |]; [| contradiction].
  destruct (accepted b) eqn:Ha; [| contradiction].
  intros [<- | []].
  destruct (configured_true env Hc) as (H1 & H2 & H3 & H4).
  apply not_missing in H1, H2, H3, H4.
  pose proof (accepted_id_text b Ha) as Hid.
  unfold accepted in Ha.
  apply andb_true_iff in Ha as [Ha Hi]. apply andb_true_iff in Ha as [Hn Hc'].
  apply negb_true_iff in Hn, Hc', Hi.
  apply not_filled_string_false in Hc' as (name & Hname & Htn).
  apply not_filled_string_false in Hi as (cid & Hcid & Htc).
  cbn [url x_client_id x_client_secret order_amount order_currency
       customer_name order_id customer_id customer_phone return_url
       order_request].
  repeat split; try tauto.
  - exists b. unfold not_positive_number in Hn.
    destruct (field b amount_) as [[| | n | | |] |]; try discriminate.
    exists n. split; [reflexivity |]. split; [reflexivity |].
    destruct n as [q | | |]; cbn [num_le_zero] in Hn; try discriminate.
    + left. exists q. repeat split.
      apply Qnot_le_lt. intros Hle. apply Qle_bool_iff in Hle. congruence.
    + right. split; [now left | reflexivity].
    + right. split; [now right | reflexivity].
  - exists name. now rewrite Hname.
  - exists cid. rewrite Hcid in Hid. injection Hid as <-. now repeat split.
  - exists (text_of (APP_URL env)). tauto.
Qed.

Lemma sent_orders_well_formed_witness :
  let r := order_request Samples.env_ok Samples.clock Samples.valid_body in
  List.In r (snd (serve Samples.no_fraction_printer Samples.env_ok
                    Samples.clock Samples.gateway_refused
                    (post Samples.valid_body))) /\
  order_currency r = lit "INR" /\ x_client_id r <> [].
Proof.
  cbv zeta.
  assert (Hin : List.In
            (order_request Samples.env_ok Samples.clock Samples.valid_body)
            (snd (serve Samples.no_fraction_printer Samples.env_ok
                    Samples.clock Samples.gateway_refused
                    (post Samples.valid_body)))) by (left; reflexivity).
  split; [exact Hin |].
  destruct (sent_orders_well_formed _ _ _ _ _ _ Hin)
    as (_ & (Hid & _) & _ & _ & Hcur & _).
  now split.
Defined.

(** An amount written [1e999] passes the checks, and the order goes to the
    gateway with the amount [null]. *)
Lemma overflowing_amount_sent_as_null :
  accepted Samples.overflow_amount_body = true /\
  exists r,
    snd (serve Samples.no_fraction_printer Samples.env_ok Samples.clock
           Samples.gateway_created (post Samples.overflow_amount_body)) = [r]
    /\ order_amount r = Some JNull.
Proof. split; [reflexivity |]. eexists. split; reflexivity. Qed.

(** X9: on a request that is no preflight the handler answers 200 only when
    the request passed validation and the gateway, called once, answered 2xx
    with a JSON body; the response is then [jsonResponse] of that parsed
    body. *)
Theorem ok_only_when_gateway_accepted shortest_decimal env now gateway
    (req : Request) (r : Response) (sent : list OrderRequest) :
  str_eqb (req_method req) OPTIONS = false ->
  serve shortest_decimal env now gateway req = (Normal r, sent) ->
  status r = 200%Z ->
  exists b st j,
    configured env = true /\ req_body req = Some b /\ accepted b = true /\
    gateway (order_request env now b) = Responded st (Some j) /\
    ok st = true /\
    r = jsonResponse j 200 /\
    sent = [order_request env now b].
Proof.
  intros Hm. rewrite (serve_eq _ _ _ _ _ Hm).
  destruct (configured env) eqn:Hc.
  2: { rewrite process_unconfigured by assumption.
       intros [= <- _]. discriminate. }
  destruct (req_body req) as [b |] eqn:Hb.
  2: { rewrite process_unparseable by assumption.
       intros [= <- _]. discriminate. }
  assert (Hnull : b = JNull \/ b <> JNull)
    by (destruct b; [now left | right; discriminate ..]).
  destruct Hnull as [-> | Hn].
  { rewrite process_null by assumption. intros [= <- _]. discriminate. }
  destruct (accepted b) eqn:Ha.
  - rewrite (process_accepted _ _ _ _ _ b [] Hc Hb Ha). cbv zeta.
    destruct (gateway _) as [| st [j |]] eqn:Hg;
      try (intros [= <- _]; discriminate).
    destruct (ok st) eqn:Hok.
    + intros [= <- <-] _. now exists b, st, j.
    + destruct (get (Some j) message_) as [m | e];
        [| intros [= <- _]; discriminate].
      destruct (if truthy m then _ else _); intros [= <- _]; discriminate.
  - rewrite (process_rejected _ _ _ _ _ b [] Hc Hb Hn Ha).
    intros [= <- _].
    destruct (not_positive_number _); [discriminate |].
    destruct (not_filled_string _); discriminate.
Qed.

Lemma ok_only_when_gateway_accepted_witness :
  exists b st j,
    accepted b = true /\
    Samples.gateway_created
      (order_request Samples.env_ok Samples.clock b) = Responded st (Some j) /\
    ok st = true.
Proof.
  destruct (ok_only_when_gateway_accepted Samples.no_fraction_printer
              Samples.env_ok Samples.clock Samples.gateway_created
              (post Samples.valid_body)
              (jsonResponse
                 (Samples.obj
                    [("cf_order_id"%string, JNumber (Finite 2149460581));
                     ("payment_session_id"%string,
                      Samples.str "session_a1b2c3")]) 200)
              [order_request Samples.env_ok Samples.clock Samples.valid_body]
              eq_refl eq_refl eq_refl)
    as (b & st & j & _ & _ & Ha & Hg & Hok & _).
  now exists b, st, j.
Defined.

(** X10: the checks on [contributor] and [contribution_id] let a value pass
    exactly when it is a string with at least one character that is not
    white space; in particular a missing member, [null], a number, and a
    string of spaces, tabs or line breaks are all rejected. *)
Theorem filled_string_iff (v : value) :
  not_filled_string v = false <->
  exists s c, v = Some (JString s) /\ List.In c s /\ is_whitespace c = false.
Proof.
  rewrite not_filled_string_false. split.
  - intros (s & -> & Ht). exists s.
    assert (Hall : forallb is_whitespace s <> true)
      by (intros H; now apply trim_nil in H).
    apply not_true_is_false in Hall.
    assert (Hex : exists c, List.In c s /\ is_whitespace c = false).
    { clear Ht. induction s as [| x s IH]; [discriminate |].
      simpl in Hall. apply andb_false_iff in Hall as [Hx | Hs].
      - exists x. split; [now left | exact Hx].
      - destruct (IH Hs) as (c & Hin & Hc). exists c. split; [now right | exact Hc]. }
    destruct Hex as (c & Hin & Hc). now exists c.
  - intros (s & c & -> & Hin & Hc). exists s. split; [reflexivity |].
    intros Ht. apply trim_nil in Ht.
    rewrite forallb_forall in Ht. specialize (Ht c Hin). congruence.
Qed.

End CreateOrderMore.

(** ** Order ids are unique *)

Module CorrelationMore.
Import JS CreateOrder JSFacts.

Lemma uint_codes_digits (u : Decimal.uint) : all_digits (uint_codes u) = true.
Proof. induction u; simpl; auto. Qed.

Lemma uint_codes_inj (u v : Decimal.uint) :
  uint_codes u = uint_codes v -> u = v.
Proof.
  revert v. induction u; intros v H; destruct v; simpl in H;
    try discriminate; try reflexivity;
    injection H as H; f_equal; auto.
Qed.

Lemma int_to_string_inj (a b : Z) :
  int_to_string a = int_to_string b -> a = b.
Proof.
  unfold int_to_string. intros H.
  rewrite <- (DecimalZ.of_to a), <- (DecimalZ.of_to b).
  destruct (Z.to_int a) as [u | u], (Z.to_int b) as [v | v].
  - now rewrite (uint_codes_inj u v H).
  - exfalso. pose proof (uint_codes_digits u) as Hd. rewrite H in Hd.
    discriminate.
  - exfalso. pose proof (uint_codes_digits v) as Hd. rewrite <- H in Hd.
    discriminate.
  - injection H as H. now rewrite (uint_codes_inj u v H).
Qed.

Lemma int_to_string_no_underscore (z : Z) :
  ~ List.In underscore (int_to_string z).
Proof.
  unfold int_to_string.
  assert (Hu : forall u, ~ List.In underscore (uint_codes u)).
  { intros u Hin. pose proof (uint_codes_digits u) as Hd.
    unfold all_digits in Hd. rewrite forallb_forall in Hd.
    specialize (Hd _ Hin). discriminate. }
  destruct (Z.to_int z) as [u | u]; [apply Hu |].
  intros [H | H]; [discriminate | now apply (Hu u)].
Qed.

(** A string is cut in one way only at its last underscore. *)
Lemma split_at_last_underscore (a b ta tb : jsstring) :
  ~ List.In underscore ta -> ~ List.In underscore tb ->
  a ++ underscore :: ta = b ++ underscore :: tb ->
  a = b /\ ta = tb.
Proof.
  intros Ha Hb. revert b.
  induction a as [| x a IH]; intros [| y b] H; cbn [app] in H.
  - injection H as ->. now split.
  - injection H as <- ->. exfalso. apply Ha.
    apply in_or_app. right. now left.
  - injection H as -> <-. exfalso. apply Hb.
    apply in_or_app. right. now left.
  - injection H as <- H. destruct (IH b H) as [-> ->]. now split.
Qed.

(** X11: the order id determines the contribution id and the timestamp it
    was built from: two accepted requests get the same order id only when
    they name the same contribution and are served in the same
    millisecond. *)
Theorem order_id_injective (now1 now2 : Z) (cid1 cid2 : jsstring) :
  make_order_id now1 cid1 = make_order_id now2 cid2 <->
  cid1 = cid2 /\ now1 = now2.
Proof.
  split; [| now intros [-> ->]].
  unfold make_order_id. intros H. apply app_inv_head in H.
  apply split_at_last_underscore in H
    as [-> H]; try apply int_to_string_no_underscore.
  split; [reflexivity | now apply int_to_string_inj].
Qed.

Lemma digits_then_underscore (cid d ts rest : jsstring) :
  all_digits d = true ->
  cid ++ underscore :: ts = d ++ underscore :: rest ->
  cid = d \/ exists r, cid = d ++ underscore :: r.
Proof.
  intros Hd. revert cid.
  induction d as [| c d IH]; intros cid H; cbn [app] in H.
  - destruct cid as [| x cid]; [now left |].
    injection H as -> _. right. now exists cid.
  - cbn in Hd. apply andb_true_iff in Hd as [Hc Hd].
    destruct cid as [| x cid]; cbn [app] in H.
    + injection H as <- _. discriminate.
    + injection H as -> H. destruct (IH Hd cid H) as [-> | (r & ->)].
      * now left.
      * right. now exists r.
Qed.

(** X23: which contribution ids can be reconciled. The order id built from a
    contribution id matches the webhook's pattern exactly when the id is a
    non-empty run of digits, alone or followed by an underscore and anything;
    the capture is that run. So an id with white space around the digits is
    accepted by the order handler and never reconciled, and an id such as
    [42_x] is reconciled to row 42. *)
Theorem reconcilable_ids (now : Z) (cid d : jsstring) :
  match_order_id (make_order_id now cid) = Some d <->
  d <> [] /\ all_digits d = true /\
  (cid = d \/ exists r, cid = d ++ underscore :: r).
Proof.
  rewrite match_order_id_Some. unfold make_order_id. split.
  - intros (Hne & Hd & rest & H). apply app_inv_head in H.
    repeat split; try assumption.
    now apply (digits_then_underscore cid d (int_to_string now) rest).
  - intros (Hne & Hd & [-> | (r & ->)]); repeat split; try assumption.
    + now exists (int_to_string now).
    + exists (r ++ underscore :: int_to_string now).
      now rewrite <- !app_assoc.
Qed.

End CorrelationMore.

(** ** Contribution client flow: how a click ends *)

Module FlowMore.
Import JS Planning FlowSpec PlanningFacts.
Local Open Scope js_scope.

(** Induction on JSON values that reaches the items of arrays. *)
Lemma json_array_ind (P : json -> Prop) :
  P JNull -> (forall b, P (JBool b)) -> (forall n, P (JNumber n)) ->
  (forall s, P (JString s)) ->
  (forall items, Forall P items -> P (JArray items)) ->
  (forall ms, P (JObject ms)) ->
  forall v, P v.
Proof.
  intros Hnull Hbool Hnum Hstr Harr Hobj. fix go 1.
  intros [| b | n | s | items | ms];
    [apply Hnull | apply Hbool | apply Hnum | apply Hstr | | apply Hobj].
  apply Harr. induction items as [| x r IHr]; constructor; [apply go | exact IHr].
Qed.

(** Converting a JSON value to a string throws nothing but a TypeError. *)
Lemma to_string_throws shortest_decimal (v : json) :
  forall e, to_string shortest_decimal v = Throw e -> e = TypeError.
Proof.
  induction v as [| b | n | s | items Hitems | ms] using json_array_ind;
    intros e; try discriminate.
  - induction Hitems as [| x r Hx _ IHr]; [discriminate |].
    cbn [to_string] in IHr |- *.
    destruct (match x with
              | JNull => Normal []
              | _ => to_string shortest_decimal x
              end) as [sx | ex] eqn:Ex.
    + match type of IHr with
      | ?t = _ -> _ => destruct t as [sr | er] eqn:Hr
      end.
      * destruct r; discriminate.
      * destruct r; [discriminate |]. intros [= <-]. now apply IHr.
    + intros [= <-]. destruct x; try discriminate; now apply Hx.
  - cbn [to_string]. destruct (lookup_member toString_ ms); [| discriminate].
    now intros [= <-].
Qed.

Lemma value_to_string_throws shortest_decimal (v : value) (e : error) :
  value_to_string shortest_decimal v = Throw e -> e = TypeError.
Proof. destruct v; [apply to_string_throws | discriminate]. Qed.

Lemma get_throws (v : value) (k : jsstring) (e : error) :
  get v k = Throw e -> e = TypeError.
Proof. destruct v as [[] |]; cbn; congruence. Qed.

Lemma detailed_error_result shortest_decimal (fe : FunctionError) :
  (exists text, detailed_error shortest_decimal fe = Normal (Error text))
  \/ detailed_error shortest_decimal fe = Throw TypeError.
Proof.
  unfold detailed_error, new_Error.
  destruct (context_json fe) as [[errorBody | e] |]; try (left; eauto; fail).
  destruct (get (Some errorBody) error_) as [v | e]; [| left; eauto].
  destruct (truthy v); [| left; eauto].
  destruct (value_to_string shortest_decimal v) as [text | e] eqn:Hs.
  - left. eauto.
  - right. now rewrite (value_to_string_throws _ _ _ Hs).
Qed.

(** The [catch] and [finally] of [handlePayOnline] around any body. *)
Lemma guarded (m : M State unit) (s : State) :
  try_catch_finally m (fun err => setError (Some (shown_for err)))
    (setLoading false) s =
    match m s with
    | (Normal a, s') =>
        (Normal a, {| loading := false; error_shown := error_shown s';
                      events := events s' |})
    | (Throw PageUnloaded, s') => (Throw PageUnloaded, s')
    | (Throw e, s') =>
        (Normal tt, {| loading := false; error_shown := Some (shown_for e);
                       events := events s' |})
    end.
Proof.
  unfold try_catch_finally, setError, setLoading.
  destruct (m s) as [[a | e] s']; [reflexivity |]. now destruct e.
Qed.

Section Ends.

Variable shortest_decimal : Q -> jsstring.
Variable to_number : jsstring -> number.
Variable services : Services.
Variable contributor_field : jsstring.
Variable amount_field : jsstring.

Local Abbreviation steps :=
  (pay_online_steps shortest_decimal to_number services contributor_field
     amount_field).
Local Abbreviation row :=
  (pending_row to_number contributor_field amount_field).
Local Abbreviation the_body :=
  (invoke_body shortest_decimal to_number services contributor_field
     amount_field).
Local Abbreviation valid :=
  (form_valid to_number contributor_field amount_field).
Local Abbreviation run :=
  (click shortest_decimal to_number services contributor_field amount_field).

(** How the three steps can end. They leave [loading] and the shown error
    alone. *)
Lemma steps_cases (s : State) :
  exists out,
    steps s = (out, {| loading := loading s; error_shown := error_shown s;
                       events := events (snd (steps s)) |}) /\
    ((out = Normal tt /\
      exists body session result,
        the_body = Some body /\
        session_token services body = Some session /\
        checkout services session = Resolved result /\
        truthy (opt_get result error_) = false)
     \/ (out = Throw PageUnloaded /\
         exists body session,
           the_body = Some body /\
           session_token services body = Some session /\
           (checkout services session = Navigated
            \/ checkout services session = Failed PageUnloaded))
     \/ (exists e, out = Throw e /\ e <> PageUnloaded)).
Proof.
  unfold pay_online_steps, invoke_body, session_token.
  fold row. unfold bind, eval, emit, throw, ret. cbn [snd fst].
  destruct (truthy (insert_error (insert_row services row))).
  { eexists. split; [reflexivity |]. right. right. eexists. now split. }
  destruct (get (insert_data (insert_row services row)) id_)
    as [new_id | e] eqn:Hg.
  2: { eexists. split; [reflexivity |]. right. right. eexists.
       split; [reflexivity |]. now rewrite (get_throws _ _ _ Hg). }
  destruct (value_to_string shortest_decimal new_id) as [id_text | e] eqn:Hv.
  2: { eexists. split; [reflexivity |]. right. right. eexists.
       split; [reflexivity |]. now rewrite (value_to_string_throws _ _ _ Hv). }
  cbn [events loading error_shown].
  set (body := {| amount := _; contributor := _; contribution_id := _ |}).
  destruct (function_error (invoke_function services body)) as [fe |] eqn:Hfe.
  { destruct (detailed_error_result shortest_decimal fe) as [[text ->] | ->];
      eexists; (split; [reflexivity |]); right; right; eexists; now split. }
  destruct (truthy (opt_get _ payment_session_id)) eqn:Hs; cbn [negb andb].
  2: { eexists. split; [reflexivity |]. right. right. eexists. now split. }
  destruct (cashfree_loaded services) eqn:Hl; cbn [negb].
  2: { eexists. split; [reflexivity |]. right. right. eexists. now split. }
  cbn [events loading error_shown].
  destruct (checkout services _) as [| result | e] eqn:Hc; cbn [snd events].
  - eexists. split; [reflexivity |]. right. left. split; [reflexivity |].
    exists body; eexists. split; [reflexivity |]. split; [now rewrite Hfe, Hs |].
    left. exact Hc.
  - destruct (truthy (opt_get result error_)) eqn:Hr.
    + destruct (get (opt_get result error_) message_) as [detail | e] eqn:Hg'.
      2: { eexists. split; [reflexivity |]. right. right. eexists.
           split; [reflexivity |]. now rewrite (get_throws _ _ _ Hg'). }
      destruct (value_to_string shortest_decimal detail) as [text | e] eqn:Hv'.
      * eexists. split; [reflexivity |]. right. right. eexists. now split.
      * eexists. split; [reflexivity |]. right. right. eexists.
        split; [reflexivity |]. now rewrite (value_to_string_throws _ _ _ Hv').
    + eexists. split; [reflexivity |]. left. split; [reflexivity |].
      exists body; eexists; exists result.
      split; [reflexivity |]. split; [now rewrite Hfe, Hs |]. now split.
  - assert (He : e = PageUnloaded \/ e <> PageUnloaded)
      by (destruct e; [right | right | right | right | left];
          congruence).
    destruct He as [-> | He].
    + eexists. split; [reflexivity |]. right. left. split; [reflexivity |].
      exists body; eexists. split; [reflexivity |]. split; [now rewrite Hfe, Hs |].
      right. exact Hc.
    + eexists. split; [reflexivity |]. right. right. now exists e.
Qed.

(** The result of a click on a valid form. *)
Lemma click_valid :
  valid = true ->
  run = try_catch_finally steps
          (fun err => setError (Some (shown_for err))) (setLoading false)
          {| loading := true; error_shown := None; events := [] |}.
Proof.
  unfold form_valid, click, handlePayOnline, validateForm. intros Hv.
  apply negb_true_iff in Hv.
  unfold bind at 1. unfold bind at 1. unfold setError at 1. cbn [fst snd].
  rewrite Hv. reflexivity.
Qed.

Lemma click_invalid :
  valid = false ->
  run = (Normal tt,
         {| loading := false;
            error_shown :=
              Some (Message
                      (lit "Please enter a valid name and a positive amount."));
            events := [] |}).
Proof.
  unfold form_valid, click, handlePayOnline, validateForm. intros Hv.
  apply negb_false_iff in Hv.
  unfold bind at 1. unfold bind at 1. unfold setError at 1. cbn [fst snd].
  rewrite Hv. reflexivity.
Qed.

End Ends.

(** X12: [handlePayOnline] lets no exception escape. A click either runs to
    its end, with [loading] back to false, or ends because the browser left
    the page during the checkout call; in that case the row was inserted, the
    function invoked and the checkout handed the session, [loading] is still
    true and no error is shown. *)
Theorem click_ends shortest_decimal to_number services
    (contributor_field amount_field : jsstring) :
  let run := click shortest_decimal to_number services contributor_field
               amount_field in
  (fst run = Normal tt /\ loading (snd run) = false) \/
  (fst run = Throw PageUnloaded /\
   loading (snd run) = true /\ error_shown (snd run) = None /\
   exists body session,
     events (snd run)
       = [Insert (pending_row to_number contributor_field amount_field);
          Invoke body; Checkout session] /\
     (checkout services session = Navigated
      \/ checkout services session = Failed PageUnloaded)).
Proof.
  cbv zeta.
  destruct (form_valid to_number contributor_field amount_field) eqn:Hv.
  2: { left. now rewrite (click_invalid _ _ _ _ _ Hv). }
  pose proof (click_events shortest_decimal to_number services
                contributor_field amount_field) as Hev.
  unfold expected_events in Hev. rewrite Hv in Hev.
  rewrite (click_valid _ _ _ _ _ Hv) in *. rewrite guarded in *.
  destruct (steps_cases shortest_decimal to_number services contributor_field
              amount_field
              {| loading := true; error_shown := None; events := [] |})
    as (out & Hrun & [(-> & _) | [(-> & body & session & Hb & Ht & Hc)
                                 | (e & -> & He)]]).
  - left. rewrite Hrun. now split.
  - right. rewrite Hrun in *. cbn [fst snd loading error_shown events] in *.
    repeat split. exists body, session.
    rewrite Hev, Hb, Ht. now split.
  - left. rewrite Hrun. destruct e; now split.
Qed.

(** X13: when a click on a valid form runs to its end and no error message
    is shown, then the row was inserted, the function returned a session, the
    SDK was loaded and the checkout call resolved without an error; every
    other way to end shows a message. *)
Theorem silent_end_means_checkout_done shortest_decimal to_number services
    (contributor_field amount_field : jsstring) :
  let run := click shortest_decimal to_number services contributor_field
               amount_field in
  form_valid to_number contributor_field amount_field = true ->
  fst run = Normal tt ->
  error_shown (snd run) = None ->
  exists body session result,
    invoke_body shortest_decimal to_number services contributor_field
      amount_field = Some body /\
    session_token services body = Some session /\
    checkout services session = Resolved result /\
    truthy (opt_get result error_) = false /\
    events (snd run)
      = [Insert (pending_row to_number contributor_field amount_field);
         Invoke body; Checkout session].
Proof.
  cbv zeta. intros Hv.
  pose proof (click_events shortest_decimal to_number services
                contributor_field amount_field) as Hev.
  unfold expected_events in Hev. rewrite Hv in Hev.
  rewrite (click_valid _ _ _ _ _ Hv) in *. rewrite guarded in *.
  destruct (steps_cases shortest_decimal to_number services contributor_field
              amount_field
              {| loading := true; error_shown := None; events := [] |})
    as (out & Hrun & [(-> & body & session & result & Hb & Ht & Hc & Hr)
                     | [(-> & _) | (e & -> & He)]]);
    rewrite Hrun in *; cbn [fst snd loading error_shown events] in *.
  - intros _ _. exists body, session, result.
    rewrite Hev, Hb, Ht. now repeat split.
  - discriminate.
  - destruct e; (discriminate || contradiction).
Qed.

Lemma silent_end_means_checkout_done_witness :
  form_valid Samples.digits_to_number (lit "Asha") (lit "500") = true /\
  error_shown
    (snd (click Samples.no_fraction_printer Samples.digits_to_number
            Samples.services_store_down (lit "Asha") (lit "500")))
  <> None.
Proof.
  split; [reflexivity |]. intros Hnone.
  destruct (silent_end_means_checkout_done Samples.no_fraction_printer
              Samples.digits_to_number Samples.services_store_down
              (lit "Asha") (lit "500") eq_refl eq_refl Hnone)
    as (body & _ & _ & Hb & _).
  discriminate Hb.
Defined.

(** X14: the form check guards the store. With a contributor that is empty
    or white space only, an empty amount, or an amount that converts to NaN or
    to a number not above zero, a click inserts nothing, invokes nothing and
    shows the validation message; and every row a click inserts is the
    pending online row with the trimmed, non-empty contributor and an amount
    above zero. *)
Theorem form_guards_insert shortest_decimal to_number services
    (contributor_field amount_field : jsstring) :
  let run := click shortest_decimal to_number services contributor_field
               amount_field in
  (str_eqb (trim contributor_field) [] || str_eqb amount_field []
   || isNaN (to_number amount_field)
   || num_le_zero (to_number amount_field) = true ->
   run = (Normal tt,
          {| loading := false;
             error_shown :=
               Some (Message
                       (lit "Please enter a valid name and a positive amount."));
             events := [] |})) /\
  (forall r, List.In (Insert r) (events (snd run)) ->
     row_contributor r = trim contributor_field /\
     row_contributor r <> [] /\
     row_amount r = to_number amount_field /\
     num_le_zero (row_amount r) = false /\
     row_amount r <> NaN /\
     row_method r = Ledger.online /\
     row_status r = Ledger.pending).
Proof.
  cbv zeta. split.
  - intros H. apply click_invalid. unfold form_valid. now rewrite H.
  - intros r. rewrite click_events. unfold expected_events.
    destruct (form_valid to_number contributor_field amount_field) eqn:Hv;
      [| contradiction].
    unfold form_valid in Hv. apply negb_true_iff in Hv.
    repeat (apply orb_false_iff in Hv as [Hv ?]).
    intros Hin.
    assert (Hr : r = pending_row to_number contributor_field amount_field).
    { destruct Hin as [[= <-] | Hin]; [reflexivity |].
      destruct (invoke_body _ _ _ _ _) as [body |]; [| contradiction].
      destruct Hin as [Hin | Hin]; [discriminate |].
      destruct (session_token services body); [| contradiction].
      destruct Hin as [Hin | []]; discriminate. }
    subst r. cbn [pending_row row_contributor row_amount row_method row_status].
    repeat split; try assumption.
    + now apply JSFacts.str_eqb_false.
    + intros E. rewrite E in *. discriminate.
Qed.

Lemma form_guards_insert_witness :
  click Samples.no_fraction_printer Samples.digits_to_number
    Samples.services_up (lit "   ") (lit "500")
  = (Normal tt,
     {| loading := false;
        error_shown :=
          Some (Message
                  (lit "Please enter a valid name and a positive amount."));
        events := [] |}).
Proof.
  apply (proj1 (form_guards_insert Samples.no_fraction_printer
                  Samples.digits_to_number Samples.services_up
                  (lit "   ") (lit "500"))).
  reflexivity.
Defined.



End FlowMore.

(** ** The contributions page *)

Module ContributionsFacts.
Import JS Contributions.
Local Open Scope js_scope.

Section Page.

Variable shortest_decimal : Q -> jsstring.
Variable to_number : jsstring -> number.
Variable services : Services.
Variable contributor_field : jsstring.
Variable amount_field : jsstring.

Local Abbreviation valid :=
  (FlowSpec.form_valid to_number contributor_field amount_field).
Local Abbreviation row := (cash_row to_number contributor_field amount_field).
Local Abbreviation add :=
  (handleAddContribution shortest_decimal to_number services
     contributor_field amount_field).
Local Abbreviation start := (idle amount_field).

Lemma add_invalid (rows : list json) :
  valid = false ->
  add (start rows) =
    (Normal tt,
     {| contributions := rows; amount := amount_field; loading := false;
        initialLoading := false;
        error := text "Please enter a valid name and a positive amount.";
        events := [] |}).
Proof.
  unfold FlowSpec.form_valid, handleAddContribution, validateForm. intros Hv.
  apply negb_false_iff in Hv.
  unfold bind at 1. unfold bind at 1. unfold setError at 1. cbn [fst snd].
  rewrite Hv. reflexivity.
Qed.

Lemma add_failed (rows : list json) :
  valid = true ->
  truthy (insert_row services row) = true ->
  add (start rows) =
    (Normal tt,
     {| contributions := rows; amount := amount_field; loading := false;
        initialLoading := false;
        error := text "Failed to add cash contribution. Please try again.";
        events := [Insert row] |}).
Proof.
  unfold FlowSpec.form_valid, handleAddContribution, validateForm.
  intros Hv He. apply negb_true_iff in Hv.
  unfold bind at 1. unfold bind at 1. unfold setError at 1. cbn [fst snd].
  rewrite Hv. cbn [negb].
  unfold try_catch_finally, bind, eval, emit, throw, ret, setLoading, setError.
  cbn [fst snd]. rewrite He.
  destruct (get (insert_row services row) Planning.message_) as [m | e];
    [| reflexivity].
  destruct (Planning.new_Error shortest_decimal _); reflexivity.
Qed.

Lemma add_done (rows : list json) :
  valid = true ->
  truthy (insert_row services row) = false ->
  add (start rows) =
    (Normal tt,
     {| contributions :=
          if truthy (select_error (select_rows services)) then rows
          else default [] (select_data (select_rows services));
        amount := []; loading := false; initialLoading := false;
        error :=
          if truthy (select_error (select_rows services))
          then text "Failed to fetch contributions." else null;
        events := [Insert row; Select] |}).
Proof.
  unfold FlowSpec.form_valid, handleAddContribution, validateForm.
  intros Hv He. apply negb_true_iff in Hv.
  unfold bind at 1. unfold bind at 1. unfold setError at 1. cbn [fst snd].
  rewrite Hv. cbn [negb].
  unfold try_catch_finally, fetchContributions, bind, eval, emit, throw, ret,
    setLoading, setError, setAmount, setInitialLoading, setContributions.
  cbn [fst snd]. rewrite He.
  destruct (truthy (select_error (select_rows services))); reflexivity.
Qed.

End Page.

(** X16: [handleAddContribution] never throws and always ends with
    [loading] false. It asks the store for at most one insert, followed by at
    most one refresh; the row it inserts is a cash contribution already in
    success, never pending, with the trimmed, non-empty contributor and an
    amount above zero. *)
Theorem cash_contribution_is_success shortest_decimal to_number services
    (contributor_field amount_field : jsstring) (rows : list json) :
  let row := cash_row to_number contributor_field amount_field in
  let run := handleAddContribution shortest_decimal to_number services
               contributor_field amount_field (idle amount_field rows) in
  fst run = Normal tt /\
  loading (snd run) = false /\
  (events (snd run) = [] \/ events (snd run) = [Insert row]
   \/ events (snd run) = [Insert row; Select]) /\
  (forall r, List.In (Insert r) (events (snd run)) ->
     Planning.row_method r = Ledger.cash /\
     Planning.row_status r = Ledger.success /\
     Planning.row_contributor r = trim contributor_field /\
     Planning.row_contributor r <> [] /\
     Planning.row_amount r = to_number amount_field /\
     num_le_zero (Planning.row_amount r) = false /\
     Planning.row_amount r <> NaN).
Proof.
  cbv zeta.
  destruct (FlowSpec.form_valid to_number contributor_field amount_field)
    eqn:Hv.
  2: { rewrite (add_invalid _ _ _ _ _ _ Hv). cbn [fst snd loading events].
       split; [reflexivity |]. split; [reflexivity |]. split; [now left |].
       intros r []. }
  assert (Hrow : forall r,
            r = cash_row to_number contributor_field amount_field ->
            Planning.row_method r = Ledger.cash /\
            Planning.row_status r = Ledger.success /\
            Planning.row_contributor r = trim contributor_field /\
            Planning.row_contributor r <> [] /\
            Planning.row_amount r = to_number amount_field /\
            num_le_zero (Planning.row_amount r) = false /\
            Planning.row_amount r <> NaN).
  { intros r ->. unfold FlowSpec.form_valid in Hv.
    apply negb_true_iff in Hv.
    repeat (apply orb_false_iff in Hv as [Hv ?]).
    cbn. repeat split; try assumption.
    - now apply JSFacts.str_eqb_false.
    - intros E. rewrite E in *. discriminate. }
  destruct (truthy (insert_row services
                      (cash_row to_number contributor_field amount_field)))
    eqn:He.
  - rewrite (add_failed _ _ _ _ _ _ Hv He). cbn [fst snd loading events].
    split; [reflexivity |]. split; [reflexivity |].
    split; [right; now left |].
    intros r [[= <-] | []]. now apply Hrow.
  - rewrite (add_done _ _ _ _ _ _ Hv He). cbn [fst snd loading events].
    split; [reflexivity |]. split; [reflexivity |].
    split; [right; now right |].
    intros r [[= <-] | [H | []]]; [now apply Hrow | discriminate].
Qed.

(** X17: on a valid form, when the store refuses the insert the page shows
    [Failed to add cash contribution. Please try again.], whatever the
    store's own message, keeps the amount as typed and the list as it was, and
    does not refresh; when the store accepts it the amount field is cleared
    and the list is fetched again: replaced by the rows fetched, or by no rows
    when the store returns [null], or kept, with [Failed to fetch
    contributions.] shown, when that fetch fails. *)
Theorem cash_contribution_outcome shortest_decimal to_number services
    (contributor_field amount_field : jsstring) (rows : list json) :
  let row := cash_row to_number contributor_field amount_field in
  let run := handleAddContribution shortest_decimal to_number services
               contributor_field amount_field (idle amount_field rows) in
  FlowSpec.form_valid to_number contributor_field amount_field = true ->
  (truthy (insert_row services row) = true ->
   snd run =
     {| contributions := rows; amount := amount_field; loading := false;
        initialLoading := false;
        error := text "Failed to add cash contribution. Please try again.";
        events := [Insert row] |}) /\
  (truthy (insert_row services row) = false ->
   snd run =
     {| contributions :=
          if truthy (select_error (select_rows services)) then rows
          else default [] (select_data (select_rows services));
        amount := []; loading := false; initialLoading := false;
        error :=
          if truthy (select_error (select_rows services))
          then text "Failed to fetch contributions." else null;
        events := [Insert row; Select] |}).
Proof.
  cbv zeta. intros Hv. split; intros He.
  - now rewrite (add_failed _ _ _ _ _ _ Hv He).
  - now rewrite (add_done _ _ _ _ _ _ Hv He).
Qed.

Lemma cash_contribution_outcome_witness :
  FlowSpec.form_valid Samples.digits_to_number (lit "Asha") (lit "500")
    = true /\
  amount
    (snd (handleAddContribution Samples.no_fraction_printer
            Samples.digits_to_number PageSamples.store_down (lit "Asha")
            (lit "500") (idle (lit "500") PageSamples.two_rows)))
    = lit "500" /\
  contributions
    (snd (handleAddContribution Samples.no_fraction_printer
            Samples.digits_to_number PageSamples.store_up (lit "Asha")
            (lit "500") (idle (lit "500") [])))
    = PageSamples.two_rows.
Proof.
  split; [reflexivity |]. split.
  - rewrite (proj1 (cash_contribution_outcome Samples.no_fraction_printer
                      Samples.digits_to_number PageSamples.store_down
                      (lit "Asha") (lit "500") PageSamples.two_rows eq_refl)
               eq_refl).
    reflexivity.
  - rewrite (proj2 (cash_contribution_outcome Samples.no_fraction_printer
                      Samples.digits_to_number PageSamples.store_up
                      (lit "Asha") (lit "500") [] eq_refl)
               eq_refl).
    reflexivity.
Defined.

(** X18: [handleDeleteContribution] never throws and never adds a row to the
    list. It asks the store at most once, and not at all when the user
    declines; the list changes only when the user confirmed and the store
    reported no error, and then it loses exactly the rows whose id is the one
    deleted: rows with another id stay, in their order. *)
Theorem delete_contribution_only_removes_id services
    (differs : json -> bool) (id : value) (s : State) :
  let run := handleDeleteContribution services differs id s in
  fst run = Normal tt /\
  (events (snd run) = events s /\ confirmed services = false
   \/ events (snd run) = events s ++ [Delete id]
      /\ confirmed services = true) /\
  (contributions (snd run) = contributions s
   \/ confirmed services = true /\ truthy (delete_row services id) = false
      /\ contributions (snd run) = List.filter differs (contributions s)) /\
  (forall c, List.In c (contributions (snd run)) ->
     List.In c (contributions s)) /\
  (forall c, List.In c (contributions s) -> differs c = true ->
     List.In c (contributions (snd run))).
Proof.
  cbv zeta. unfold handleDeleteContribution.
  destruct (confirmed services); cbn [negb].
  2: { cbn. repeat split; auto. }
  unfold bind, setError, emit, setContributions. cbn [fst snd].
  destruct (truthy (delete_row services id)) eqn:He; cbn [fst snd events contributions].
  - repeat split; auto.
  - repeat split; auto.
    + intros c Hc. now apply filter_In in Hc.
    + intros c Hc Hd. apply filter_In. now split.
Qed.

End ContributionsFacts.

(** ** The planning page *)

Module PlanningItemsFacts.
Import JS PlanningItems.
Local Open Scope js_scope.

Lemma cons_neq {A} (x : A) (l : list A) : x :: l <> l.
Proof.
  intros H. apply (f_equal (@List.length A)) in H. cbn in H. lia.
Qed.

Lemma filter_all {A} (f : A -> bool) (l : list A) :
  (forall x, List.In x l -> f x = true) -> List.filter f l = l.
Proof.
  induction l as [| x l IH]; intros H; [reflexivity |]. cbn.
  rewrite (H x) by now left. f_equal. apply IH. intros y Hy. apply H.
  now right.
Qed.

Section Page.

Variable shortest_decimal : Q -> jsstring.
Variable to_number : jsstring -> number.
Variable services : Services.
Variable name_field : jsstring.
Variable amount_field : jsstring.
Variable type_field : jsstring.

Local Abbreviation valid :=
  (FlowSpec.form_valid to_number name_field amount_field).
Local Abbreviation item := (new_item to_number name_field amount_field type_field).
Local Abbreviation add :=
  (handleAddItem shortest_decimal to_number services name_field amount_field
     type_field).
Local Abbreviation start := (idle name_field amount_field).

Lemma add_item_invalid (items : list value) :
  valid = false ->
  add (start items) =
    (Normal tt,
     {| plannedItems := items; itemName := name_field;
        itemAmount := amount_field; loading := false;
        error := Some (JString
                   (lit "Please enter a valid name and a positive amount."));
        events := [] |}).
Proof.
  unfold FlowSpec.form_valid, handleAddItem. intros Hv.
  apply negb_false_iff in Hv. now rewrite Hv.
Qed.

Lemma add_item_done (items : list value) :
  valid = true ->
  truthy (insert_error (insert_item services item)) = false ->
  add (start items) =
    (Normal tt,
     {| plannedItems := insert_data (insert_item services item) :: items;
        itemName := []; itemAmount := []; loading := false; error := null;
        events := [Insert item] |}).
Proof.
  unfold FlowSpec.form_valid, handleAddItem. intros Hv He.
  apply negb_true_iff in Hv. rewrite Hv.
  unfold bind, setLoading, setError, emit, setItemName, setItemAmount,
    setPlannedItems.
  cbn [fst snd]. now rewrite He.
Qed.

(** A refused insert: the list and the fields stay; the run ends normally
    with the prefixed message, or by the throw of the conversion. *)
Lemma add_item_failed (items : list value) :
  valid = true ->
  truthy (insert_error (insert_item services item)) = true ->
  exists out shown still_loading,
    add (start items) =
      (out,
       {| plannedItems := items; itemName := name_field;
          itemAmount := amount_field; loading := still_loading;
          error := shown; events := [Insert item] |}) /\
    (out = Normal tt -> still_loading = false).
Proof.
  unfold FlowSpec.form_valid, handleAddItem. intros Hv He.
  apply negb_true_iff in Hv. rewrite Hv.
  unfold bind, eval, setLoading, setError, emit. cbn [fst snd]. rewrite He.
  destruct (get _ Planning.message_) as [m | e].
  - destruct (prefixed shortest_decimal _ m) as [shown | e].
    + eexists _, _, _. split; [reflexivity | reflexivity].
    + eexists _, _, _. split; [reflexivity | discriminate].
  - eexists _, _, _. split; [reflexivity | discriminate].
Qed.

End Page.

(** X19: [handleAddItem] asks the store for an insert exactly when the name
    has more than white space in it and the amount converts to a number
    above zero. The list never loses a row; it gains one, the row the store
    returned, put first, exactly when the form is valid and the store
    reported no error, and exactly then the two fields are cleared; otherwise
    the list and the fields stay as they were. When the handler ends normally
    [loading] is false. *)
Theorem add_item_changes_list_on_success shortest_decimal to_number services
    (name_field amount_field type_field : jsstring) (items : list value) :
  let item := new_item to_number name_field amount_field type_field in
  let run := handleAddItem shortest_decimal to_number services name_field
               amount_field type_field (idle name_field amount_field items) in
  let added :=
    FlowSpec.form_valid to_number name_field amount_field
    && negb (truthy (insert_error (insert_item services item))) in
  (events (snd run) =
     if FlowSpec.form_valid to_number name_field amount_field
     then [Insert item] else []) /\
  (plannedItems (snd run) =
     if added then insert_data (insert_item services item) :: items
     else items) /\
  (itemName (snd run) = if added then [] else name_field) /\
  (itemAmount (snd run) = if added then [] else amount_field) /\
  (plannedItems (snd run) <> items <-> added = true) /\
  (fst run = Normal tt -> loading (snd run) = false).
Proof.
  cbv zeta.
  destruct (FlowSpec.form_valid to_number name_field amount_field) eqn:Hv;
    cbn [andb].
  2: { rewrite (add_item_invalid _ _ _ _ _ _ _ Hv). cbn.
       repeat split; try reflexivity; try discriminate. now intros []. }
  destruct (truthy (insert_error _)) eqn:He; cbn [negb].
  - destruct (add_item_failed shortest_decimal _ _ _ _ type_field items Hv He)
      as (out & shown & still & -> & Hl).
    cbn. repeat split; try reflexivity; try discriminate; try assumption.
    now intros [].
  - rewrite (add_item_done _ _ _ _ _ _ _ Hv He). cbn.
    repeat split; try reflexivity. intros _. apply cons_neq.
Qed.

(** X20: adding an item and then deleting it gives back the list there was:
    when the store accepts both calls, the user confirms, the id deleted is
    the id of the row the insert returned and no other listed row has it, the
    list after the two handlers is the list before them. *)
Theorem add_then_delete_restores shortest_decimal to_number services
    (name_field amount_field type_field : jsstring) (items : list value)
    (differs : value -> bool) (id : value) :
  let item := new_item to_number name_field amount_field type_field in
  let added := snd (handleAddItem shortest_decimal to_number services
                      name_field amount_field type_field
                      (idle name_field amount_field items)) in
  FlowSpec.form_valid to_number name_field amount_field = true ->
  truthy (insert_error (insert_item services item)) = false ->
  confirmed services = true ->
  truthy (delete_item services id) = false ->
  differs (insert_data (insert_item services item)) = false ->
  (forall other, List.In other items -> differs other = true) ->
  plannedItems added = insert_data (insert_item services item) :: items /\
  plannedItems
    (snd (handleDeleteItem shortest_decimal services differs id added))
  = items.
Proof.
  cbv zeta. intros Hv He Hc Hd Hnew Hold.
  rewrite (add_item_done _ _ _ _ _ _ _ Hv He). cbn [snd plannedItems].
  split; [reflexivity |].
  unfold handleDeleteItem. rewrite Hc. cbn [negb].
  unfold bind, emit, setPlannedItems. cbn [fst snd]. rewrite Hd.
  cbn [snd plannedItems List.filter]. rewrite Hnew.
  now apply filter_all.
Qed.

Lemma add_then_delete_restores_witness :
  FlowSpec.form_valid Samples.digits_to_number (lit "DJ") (lit "8000") = true /\
  plannedItems
    (snd (handleDeleteItem Samples.no_fraction_printer ItemSamples.items_store
            ItemSamples.differs_from_3 (Some (JNumber (Finite 3)))
            (snd (handleAddItem Samples.no_fraction_printer
                    Samples.digits_to_number ItemSamples.items_store
                    (lit "DJ") (lit "8000") (lit "expense")
                    (idle (lit "DJ") (lit "8000")
                       [Some ItemSamples.tent_item])))))
  = [Some ItemSamples.tent_item].
Proof.
  split; [reflexivity |].
  apply (add_then_delete_restores Samples.no_fraction_printer
           Samples.digits_to_number ItemSamples.items_store (lit "DJ")
           (lit "8000") (lit "expense") [Some ItemSamples.tent_item]
           ItemSamples.differs_from_3 (Some (JNumber (Finite 3)))
           eq_refl eq_refl eq_refl eq_refl eq_refl).
  intros other [<- | []]. reflexivity.
Defined.

End PlanningItemsFacts.

(** ** The events page *)

Module EventsFacts.
Import JS Events.
Local Open Scope js_scope.

(** X21: [handleAddEvent] inserts exactly when the title and the date are
    not empty; a title of white space counts as a title. It never throws and
    always ends with [loading] false. When the store refuses the insert
    nothing else changes: the fields and the list stay and no message is
    set. When the store accepts it the three fields are cleared and the list
    is fetched again, replaced by the rows fetched, by no rows when the store
    returns [null], or kept when that fetch fails. *)
Theorem add_event_outcome services
    (title_field date_field description_field : jsstring)
    (rows : list json) :
  let row := new_event title_field date_field description_field in
  let start := idle title_field date_field description_field rows in
  let run := handleAddEvent services title_field date_field
               description_field start in
  fst run = Normal tt /\
  loading (snd run) = false /\
  (calls (snd run) = [] <-> title_field = [] \/ date_field = []) /\
  (title_field <> [] -> date_field <> [] ->
   (truthy (insert_event services row) = true ->
    snd run =
      {| events := rows; title := title_field; date := date_field;
         description := description_field; loading := false;
         calls := [Insert row] |}) /\
   (truthy (insert_event services row) = false ->
    snd run =
      {| events :=
           if truthy (select_error (select_events services)) then rows
           else default [] (select_data (select_events services));
         title := []; date := []; description := []; loading := false;
         calls := [Insert row; Select] |})).
Proof.
  cbv zeta. unfold handleAddEvent, fetchEvents.
  destruct (JSFacts.str_eqb_false title_field []) as [Ht1 Ht2].
  destruct (JSFacts.str_eqb_false date_field []) as [Hd1 Hd2].
  destruct (str_eqb title_field []) eqn:Et.
  { apply JSFacts.str_eqb_true in Et. cbn.
    repeat split; auto; intros; contradiction. }
  destruct (str_eqb date_field []) eqn:Ed.
  { apply JSFacts.str_eqb_true in Ed. cbn.
    repeat split; auto; intros; contradiction. }
  specialize (Ht1 eq_refl). specialize (Hd1 eq_refl). cbn [orb].
  unfold bind, ret, setLoading, emit, setTitle, setDate, setDescription,
    setEvents.
  cbn [fst snd].
  destruct (truthy (insert_event services _)) eqn:He; cbn [negb fst snd].
  - cbn. repeat split; try discriminate; try reflexivity.
    intros [H | H]; contradiction.
  - destruct (truthy (select_error (select_events services))); cbn;
      repeat split; try discriminate; try reflexivity;
      intros [H | H]; contradiction.
Qed.

Lemma add_event_outcome_witness :
  snd (handleAddEvent ItemSamples.events_store_down (lit "  ")
         (lit "2025-09-01") []
         (idle (lit "  ") (lit "2025-09-01") [] []))
  = {| events := []; title := lit "  "; date := lit "2025-09-01";
       description := []; loading := false;
       calls := [Insert (new_event (lit "  ") (lit "2025-09-01") [])] |}.
Proof.
  destruct (add_event_outcome ItemSamples.events_store_down (lit "  ")
              (lit "2025-09-01") [] []) as (_ & _ & _ & H).
  apply H; [discriminate | discriminate | reflexivity].
Defined.

End EventsFacts.

(** ** Payment webhook handler: when it answers *)

Module WebhookAnswers.
Import JS Http Webhook Spec JSFacts WebhookFacts.

(** X26: a delivery of a parsed payload ends with a response, and then with
    status 200, or with a TypeError and no response, the ledger untouched
    and nothing asked of the store. It throws exactly when the
    payload is [null], or is no connectivity test and carries an order id
    and a payment status, both truthy, of which the payment status cannot be
    converted to a string for the log line or the order id is no string. *)
Theorem webhook_throws_iff (shortest_decimal : Q -> jsstring)
    (store_error : bool) (payload : json)
    (ledger : gmap Z Ledger.Contribution) :
  (forall r w,
     deliver shortest_decimal store_error (post payload) ledger
       = (Normal r, w) -> status r = 200%Z) /\
  (forall e w,
     deliver shortest_decimal store_error (post payload) ledger
       = (Throw e, w) ->
     e = TypeError /\ w = {| rows := ledger; updates := [] |}) /\
  ((exists e,
      fst (deliver shortest_decimal store_error (post payload) ledger)
      = Throw e) <->
   payload = JNull \/
   (is_test_event payload = false /\
    truthy (payload_order_id payload) = true /\
    truthy (payload_payment_status payload) = true /\
    ((exists e,
        value_to_string shortest_decimal (payload_payment_status payload)
        = Throw e)
     \/ forall s, payload_order_id payload <> Some (JString s)))).
Proof.
  split; [intros r w; apply returned_status_200 |].
  assert (Hnull : payload = JNull \/ payload <> JNull)
    by (destruct payload; [now left | right; discriminate ..]).
  destruct Hnull as [-> | Hp].
  { split; [intros e w [= <- <-]; now split |].
    split; [now left | now exists TypeError]. }
  unfold deliver.
  rewrite (handler_payload shortest_decimal store_error (post payload) payload
             _ post_not_options eq_refl Hp).
  destruct (is_test_event payload).
  { split; [discriminate |].
    split; [intros [e [=]] | intros [-> | (Hf & _)]; [contradiction | discriminate]]. }
  destruct (truthy (payload_order_id payload)) eqn:Hto; cbn [negb orb].
  2: { split; [discriminate |].
       split; [intros [e [=]] |
               intros [-> | (_ & Hf & _)]; [contradiction | discriminate]]. }
  destruct (truthy (payload_payment_status payload)) eqn:Htp; cbn [negb].
  2: { split; [discriminate |].
       split; [intros [e [=]] |
               intros [-> | (_ & _ & Hf & _)]; [contradiction | discriminate]]. }
  unfold log_received.
  destruct (value_to_string shortest_decimal (payload_payment_status payload))
    as [status_text | e1] eqn:Hps.
  2: { pose proof (FlowMore.value_to_string_throws _ _ _ Hps) as ->.
       split; [intros e w [= <- <-]; now split |].
       split; [intros _; right; repeat split; left; now exists TypeError |
               intros _; now exists TypeError]. }
  destruct (payload_order_id payload) as [oid |] eqn:Ho; [| discriminate].
  assert (Hstr : (exists s, oid = JString s) \/ forall s, oid <> JString s)
    by (destruct oid; eauto; right; discriminate).
  destruct Hstr as [[s ->] | Hns].
  - cbn [value_to_string to_string call_match].
    assert (Hret : forall (run : completion Response * World) e,
              run = match match_order_id s with
                    | Some capture =>
                        if is_string (payload_payment_status payload) SUCCESS
                        then
                          if store_error
                          then (Normal (textResponse "Database update failed" 200),
                                {| rows := ledger;
                                   updates := [] ++ [parseInt capture] |})
                          else (Normal (textResponse "Webhook processed" 200),
                                {| rows := Ledger.update_success
                                             (parseInt capture) ledger;
                                   updates := [] ++ [parseInt capture] |})
                        else (Normal (textResponse "Webhook processed" 200),
                              {| rows := ledger; updates := [] |})
                    | None => (Normal (textResponse "Invalid order_id format" 200),
                               {| rows := ledger; updates := [] |})
                    end ->
              fst run <> Throw e).
    { intros run e ->. destruct (match_order_id s); [| discriminate].
      destruct (is_string _ SUCCESS); [destruct store_error |]; discriminate. }
    cbn [rows updates].
    split; [intros e w H; destruct (Hret _ e eq_refl); now rewrite H |].
    split.
    + intros [e H]. now destruct (Hret _ e eq_refl).
    + intros [-> | (_ & _ & _ & [[e He] | Hs])];
        [contradiction | discriminate | now destruct (Hs s)].
  - assert (Hcall : call_match (Some oid) = Throw TypeError)
      by (destruct oid; try reflexivity; now destruct (Hns s)).
    rewrite Hcall.
    assert (Hns' : forall s, Some oid <> Some (JString s))
      by (intros s [= ->]; now destruct (Hns s)).
    destruct (value_to_string shortest_decimal (Some oid)) as [t | e2] eqn:Hv;
      [| pose proof (FlowMore.value_to_string_throws _ _ _ Hv) as ->].
    all: (split; [intros e w [= <- <-]; now split |]).
    all: (split; [intros _; right; repeat split; right; exact Hns'
                 | intros _; now exists TypeError]).
Qed.

End WebhookAnswers.
